(** * currency-tracker: the rate-fetching and conversion client

    A shallow embedding of [CurrencyTracker] (src/currency_tracker.py,
    lines 15-62) and of the two GUI callbacks that drive it
    ([refresh_rates], [convert_currency]), followed by the properties the
    specification states about them.

    Python values are one inductive type, the methods are computations in
    a small state-and-exception monad over the object they are bound to
    and over the outside world (the HTTP transport and the wall clock). *)

From Stdlib Require Import String Ascii List ZArith QArith Bool Lia.
From Stdlib Require Import DecimalString.
From Stdlib Require Import Floats.SpecFloat.
Import ListNotations.

Set Warnings "-register-all".
Local Open Scope string_scope.
Local Open Scope Z_scope.

(** ** Python values *)

(** Python's two number types that JSON decoding produces: [int]
    (unbounded) and [float] (IEEE 754 binary64, with its infinities and
    NaN, which Python's decoder accepts as [Infinity] and [NaN]). *)
Inductive number : Type :=
| Int (z : Z)
| Float (f : spec_float).

(** The values [response.json()] can return, and [None]. Keys of a
    decoded JSON object are always strings; a dict is kept as its list of
    items in insertion order. *)
Inductive pyval : Type :=
| PyNone
| PyBool (b : bool)
| PyNum (n : number)
| PyStr (s : string)
| PyList (l : list pyval)
| PyDict (d : list (string * pyval)).

(** Truth value of an object, as [if error:] tests it. *)
Definition truthy (v : pyval) : bool :=
  match v with
  | PyNone => false
  | PyBool b => b
  | PyNum (Int z) => negb (z =? 0)
  | PyNum (Float (S754_zero _)) => false
  | PyNum (Float _) => true
  | PyStr s => negb (s =? "")%string
  | PyList l => match l with [] => false | _ => true end
  | PyDict d => match d with [] => false | _ => true end
  end.

Definition is_none (v : pyval) : bool :=
  match v with PyNone => true | _ => false end.

(** ** Exceptions *)

(** The exception classes that matter to the two [except] clauses. All of
    them derive from [Exception]; the first five also derive from
    [requests.exceptions.RequestException]. [E_JSONDecodeError] is
    [requests.exceptions.JSONDecodeError], which [response.json()] raises
    on a body that is not JSON (requests 2.27 and later; it derives from
    [InvalidJSONError], a [RequestException]); [E_ValueError] covers the
    plain [json.JSONDecodeError] of earlier releases. Signals that derive
    from [BaseException] only ([KeyboardInterrupt], [SystemExit]) come
    from the interpreter, not from the provider or the transport, and are
    not modelled. *)
Inductive exn_class : Type :=
| E_ConnectionError
| E_Timeout
| E_HTTPError
| E_JSONDecodeError
| E_RequestException
| E_KeyError
| E_TypeError
| E_ValueError
| E_Exception.

Definition is_RequestException (c : exn_class) : bool :=
  match c with
  | E_ConnectionError | E_Timeout | E_HTTPError
  | E_JSONDecodeError | E_RequestException => true
  | _ => false
  end.

(** An exception object: its class and [str(e)]. *)
Record exn : Type := mkExn { exn_cls : exn_class; exn_str : string }.

(** How a statement ends. *)
Inductive outcome (A : Type) : Type :=
| Returned (a : A)
| Raised (e : exn).
Arguments Returned {A} a.
Arguments Raised {A} e.

(** ** [repr] of a string and [str] of an int *)

Definition dquote : ascii := ascii_of_nat 34.
Definition squote : ascii := ascii_of_nat 39.
Definition backslash : ascii := ascii_of_nat 92.

Fixpoint contains (c : ascii) (s : string) : bool :=
  match s with
  | EmptyString => false
  | String a s' => if Ascii.eqb a c then true else contains c s'
  end.

(** The code points from 128 on that [str.isprintable] refuses, as
    inclusive ranges in increasing order (Unicode 14.0.0, the data of
    CPython 3.11: the categories Cc, Cf, Cs, Co, Cn, Zl, Zp and Zs). *)
Definition nonprintable_ranges : list (N * N) :=
  [(128, 160); (173, 173); (888, 889); (896, 899); (907, 907); (909, 909);
   (930, 930); (1328, 1328); (1367, 1368); (1419, 1420); (1424, 1424);
   (1480, 1487); (1515, 1518); (1525, 1541); (1564, 1564); (1757, 1757);
   (1806, 1807); (1867, 1868); (1970, 1983); (2043, 2044); (2094, 2095);
   (2111, 2111); (2140, 2141); (2143, 2143); (2155, 2159); (2191, 2199);
   (2274, 2274); (2436, 2436); (2445, 2446); (2449, 2450); (2473, 2473);
   (2481, 2481); (2483, 2485); (2490, 2491); (2501, 2502); (2505, 2506);
   (2511, 2518); (2520, 2523); (2526, 2526); (2532, 2533); (2559, 2560);
   (2564, 2564); (2571, 2574); (2577, 2578); (2601, 2601); (2609, 2609);
   (2612, 2612); (2615, 2615); (2618, 2619); (2621, 2621); (2627, 2630);
   (2633, 2634); (2638, 2640); (2642, 2648); (2653, 2653); (2655, 2661);
   (2679, 2688); (2692, 2692); (2702, 2702); (2706, 2706); (2729, 2729);
   (2737, 2737); (2740, 2740); (2746, 2747); (2758, 2758); (2762, 2762);
   (2766, 2767); (2769, 2783); (2788, 2789); (2802, 2808); (2816, 2816);
   (2820, 2820); (2829, 2830); (2833, 2834); (2857, 2857); (2865, 2865);
   (2868, 2868); (2874, 2875); (2885, 2886); (2889, 2890); (2894, 2900);
   (2904, 2907); (2910, 2910); (2916, 2917); (2936, 2945); (2948, 2948);
   (2955, 2957); (2961, 2961); (2966, 2968); (2971, 2971); (2973, 2973);
   (2976, 2978); (2981, 2983); (2987, 2989); (3002, 3005); (3011, 3013);
   (3017, 3017); (3022, 3023); (3025, 3030); (3032, 3045); (3067, 3071);
   (3085, 3085); (3089, 3089); (3113, 3113); (3130, 3131); (3141, 3141);
   (3145, 3145); (3150, 3156); (3159, 3159); (3163, 3164); (3166, 3167);
   (3172, 3173); (3184, 3190); (3213, 3213); (3217, 3217); (3241, 3241);
   (3252, 3252); (3258, 3259); (3269, 3269); (3273, 3273); (3278, 3284);
   (3287, 3292); (3295, 3295); (3300, 3301); (3312, 3312); (3315, 3327);
   (3341, 3341); (3345, 3345); (3397, 3397); (3401, 3401); (3408, 3411);
   (3428, 3429); (3456, 3456); (3460, 3460); (3479, 3481); (3506, 3506);
   (3516, 3516); (3518, 3519); (3527, 3529); (3531, 3534); (3541, 3541);
   (3543, 3543); (3552, 3557); (3568, 3569); (3573, 3584); (3643, 3646);
   (3676, 3712); (3715, 3715); (3717, 3717); (3723, 3723); (3748, 3748);
   (3750, 3750); (3774, 3775); (3781, 3781); (3783, 3783); (3790, 3791);
   (3802, 3803); (3808, 3839); (3912, 3912); (3949, 3952); (3992, 3992);
   (4029, 4029); (4045, 4045); (4059, 4095); (4294, 4294); (4296, 4300);
   (4302, 4303); (4681, 4681); (4686, 4687); (4695, 4695); (4697, 4697);
   (4702, 4703); (4745, 4745); (4750, 4751); (4785, 4785); (4790, 4791);
   (4799, 4799); (4801, 4801); (4806, 4807); (4823, 4823); (4881, 4881);
   (4886, 4887); (4955, 4956); (4989, 4991); (5018, 5023); (5110, 5111);
   (5118, 5119); (5760, 5760); (5789, 5791); (5881, 5887); (5910, 5918);
   (5943, 5951); (5972, 5983); (5997, 5997); (6001, 6001); (6004, 6015);
   (6110, 6111); (6122, 6127); (6138, 6143); (6158, 6158); (6170, 6175);
   (6265, 6271); (6315, 6319); (6390, 6399); (6431, 6431); (6444, 6447);
   (6460, 6463); (6465, 6467); (6510, 6511); (6517, 6527); (6572, 6575);
   (6602, 6607); (6619, 6621); (6684, 6685); (6751, 6751); (6781, 6782);
   (6794, 6799); (6810, 6815); (6830, 6831); (6863, 6911); (6989, 6991);
   (7039, 7039); (7156, 7163); (7224, 7226); (7242, 7244); (7305, 7311);
   (7355, 7356); (7368, 7375); (7419, 7423); (7958, 7959); (7966, 7967);
   (8006, 8007); (8014, 8015); (8024, 8024); (8026, 8026); (8028, 8028);
   (8030, 8030); (8062, 8063); (8117, 8117); (8133, 8133); (8148, 8149);
   (8156, 8156); (8176, 8177); (8181, 8181); (8191, 8207); (8232, 8239);
   (8287, 8303); (8306, 8307); (8335, 8335); (8349, 8351); (8385, 8399);
   (8433, 8447); (8588, 8591); (9255, 9279); (9291, 9311); (11124, 11125);
   (11158, 11158); (11508, 11512); (11558, 11558); (11560, 11564);
   (11566, 11567); (11624, 11630); (11633, 11646); (11671, 11679);
   (11687, 11687); (11695, 11695); (11703, 11703); (11711, 11711);
   (11719, 11719); (11727, 11727); (11735, 11735); (11743, 11743);
   (11870, 11903); (11930, 11930); (12020, 12031); (12246, 12271);
   (12284, 12288); (12352, 12352); (12439, 12440); (12544, 12548);
   (12592, 12592); (12687, 12687); (12772, 12783); (12831, 12831);
   (42125, 42127); (42183, 42191); (42540, 42559); (42744, 42751);
   (42955, 42959); (42962, 42962); (42964, 42964); (42970, 42993);
   (43053, 43055); (43066, 43071); (43128, 43135); (43206, 43213);
   (43226, 43231); (43348, 43358); (43389, 43391); (43470, 43470);
   (43482, 43485); (43519, 43519); (43575, 43583); (43598, 43599);
   (43610, 43611); (43715, 43738); (43767, 43776); (43783, 43784);
   (43791, 43792); (43799, 43807); (43815, 43815); (43823, 43823);
   (43884, 43887); (44014, 44015); (44026, 44031); (55204, 55215);
   (55239, 55242); (55292, 63743); (64110, 64111); (64218, 64255);
   (64263, 64274); (64280, 64284); (64311, 64311); (64317, 64317);
   (64319, 64319); (64322, 64322); (64325, 64325); (64451, 64466);
   (64912, 64913); (64968, 64974); (64976, 65007); (65050, 65055);
   (65107, 65107); (65127, 65127); (65132, 65135); (65141, 65141);
   (65277, 65280); (65471, 65473); (65480, 65481); (65488, 65489);
   (65496, 65497); (65501, 65503); (65511, 65511); (65519, 65531);
   (65534, 65535); (65548, 65548); (65575, 65575); (65595, 65595);
   (65598, 65598); (65614, 65615); (65630, 65663); (65787, 65791);
   (65795, 65798); (65844, 65846); (65935, 65935); (65949, 65951);
   (65953, 65999); (66046, 66175); (66205, 66207); (66257, 66271);
   (66300, 66303); (66340, 66348); (66379, 66383); (66427, 66431);
   (66462, 66462); (66500, 66503); (66518, 66559); (66718, 66719);
   (66730, 66735); (66772, 66775); (66812, 66815); (66856, 66863);
   (66916, 66926); (66939, 66939); (66955, 66955); (66963, 66963);
   (66966, 66966); (66978, 66978); (66994, 66994); (67002, 67002);
   (67005, 67071); (67383, 67391); (67414, 67423); (67432, 67455);
   (67462, 67462); (67505, 67505); (67515, 67583); (67590, 67591);
   (67593, 67593); (67638, 67638); (67641, 67643); (67645, 67646);
   (67670, 67670); (67743, 67750); (67760, 67807); (67827, 67827);
   (67830, 67834); (67868, 67870); (67898, 67902); (67904, 67967);
   (68024, 68027); (68048, 68049); (68100, 68100); (68103, 68107);
   (68116, 68116); (68120, 68120); (68150, 68151); (68155, 68158);
   (68169, 68175); (68185, 68191); (68256, 68287); (68327, 68330);
   (68343, 68351); (68406, 68408); (68438, 68439); (68467, 68471);
   (68498, 68504); (68509, 68520); (68528, 68607); (68681, 68735);
   (68787, 68799); (68851, 68857); (68904, 68911); (68922, 69215);
   (69247, 69247); (69290, 69290); (69294, 69295); (69298, 69375);
   (69416, 69423); (69466, 69487); (69514, 69551); (69580, 69599);
   (69623, 69631); (69710, 69713); (69750, 69758); (69821, 69821);
   (69827, 69839); (69865, 69871); (69882, 69887); (69941, 69941);
   (69960, 69967); (70007, 70015); (70112, 70112); (70133, 70143);
   (70162, 70162); (70207, 70271); (70279, 70279); (70281, 70281);
   (70286, 70286); (70302, 70302); (70314, 70319); (70379, 70383);
   (70394, 70399); (70404, 70404); (70413, 70414); (70417, 70418);
   (70441, 70441); (70449, 70449); (70452, 70452); (70458, 70458);
   (70469, 70470); (70473, 70474); (70478, 70479); (70481, 70486);
   (70488, 70492); (70500, 70501); (70509, 70511); (70517, 70655);
   (70748, 70748); (70754, 70783); (70856, 70863); (70874, 71039);
   (71094, 71095); (71134, 71167); (71237, 71247); (71258, 71263);
   (71277, 71295); (71354, 71359); (71370, 71423); (71451, 71452);
   (71468, 71471); (71495, 71679); (71740, 71839); (71923, 71934);
   (71943, 71944); (71946, 71947); (71956, 71956); (71959, 71959);
   (71990, 71990); (71993, 71994); (72007, 72015); (72026, 72095);
   (72104, 72105); (72152, 72153); (72165, 72191); (72264, 72271);
   (72355, 72367); (72441, 72703); (72713, 72713); (72759, 72759);
   (72774, 72783); (72813, 72815); (72848, 72849); (72872, 72872);
   (72887, 72959); (72967, 72967); (72970, 72970); (73015, 73017);
   (73019, 73019); (73022, 73022); (73032, 73039); (73050, 73055);
   (73062, 73062); (73065, 73065); (73103, 73103); (73106, 73106);
   (73113, 73119); (73130, 73439); (73465, 73647); (73649, 73663);
   (73714, 73726); (74650, 74751); (74863, 74863); (74869, 74879);
   (75076, 77711); (77811, 77823); (78895, 82943); (83527, 92159);
   (92729, 92735); (92767, 92767); (92778, 92781); (92863, 92863);
   (92874, 92879); (92910, 92911); (92918, 92927); (92998, 93007);
   (93018, 93018); (93026, 93026); (93048, 93052); (93072, 93759);
   (93851, 93951); (94027, 94030); (94088, 94094); (94112, 94175);
   (94181, 94191); (94194, 94207); (100344, 100351); (101590, 101631);
   (101641, 110575); (110580, 110580); (110588, 110588); (110591, 110591);
   (110883, 110927); (110931, 110947); (110952, 110959); (111356, 113663);
   (113771, 113775); (113789, 113791); (113801, 113807); (113818, 113819);
   (113824, 118527); (118574, 118575); (118599, 118607); (118724, 118783);
   (119030, 119039); (119079, 119080); (119155, 119162); (119275, 119295);
   (119366, 119519); (119540, 119551); (119639, 119647); (119673, 119807);
   (119893, 119893); (119965, 119965); (119968, 119969); (119971, 119972);
   (119975, 119976); (119981, 119981); (119994, 119994); (119996, 119996);
   (120004, 120004); (120070, 120070); (120075, 120076); (120085, 120085);
   (120093, 120093); (120122, 120122); (120127, 120127); (120133, 120133);
   (120135, 120137); (120145, 120145); (120486, 120487); (120780, 120781);
   (121484, 121498); (121504, 121504); (121520, 122623); (122655, 122879);
   (122887, 122887); (122905, 122906); (122914, 122914); (122917, 122917);
   (122923, 123135); (123181, 123183); (123198, 123199); (123210, 123213);
   (123216, 123535); (123567, 123583); (123642, 123646); (123648, 124895);
   (124903, 124903); (124908, 124908); (124911, 124911); (124927, 124927);
   (125125, 125126); (125143, 125183); (125260, 125263); (125274, 125277);
   (125280, 126064); (126133, 126208); (126270, 126463); (126468, 126468);
   (126496, 126496); (126499, 126499); (126501, 126502); (126504, 126504);
   (126515, 126515); (126520, 126520); (126522, 126522); (126524, 126529);
   (126531, 126534); (126536, 126536); (126538, 126538); (126540, 126540);
   (126544, 126544); (126547, 126547); (126549, 126550); (126552, 126552);
   (126554, 126554); (126556, 126556); (126558, 126558); (126560, 126560);
   (126563, 126563); (126565, 126566); (126571, 126571); (126579, 126579);
   (126584, 126584); (126589, 126589); (126591, 126591); (126602, 126602);
   (126620, 126624); (126628, 126628); (126634, 126634); (126652, 126703);
   (126706, 126975); (127020, 127023); (127124, 127135); (127151, 127152);
   (127168, 127168); (127184, 127184); (127222, 127231); (127406, 127461);
   (127491, 127503); (127548, 127551); (127561, 127567); (127570, 127583);
   (127590, 127743); (128728, 128732); (128749, 128751); (128765, 128767);
   (128884, 128895); (128985, 128991); (129004, 129007); (129009, 129023);
   (129036, 129039); (129096, 129103); (129114, 129119); (129160, 129167);
   (129198, 129199); (129202, 129279); (129620, 129631); (129646, 129647);
   (129653, 129655); (129661, 129663); (129671, 129679); (129709, 129711);
   (129723, 129727); (129734, 129743); (129754, 129759); (129768, 129775);
   (129783, 129791); (129939, 129939); (129995, 130031); (130042, 131071);
   (173792, 173823); (177977, 177983); (178206, 178207); (183970, 183983);
   (191457, 194559); (195102, 196607); (201547, 917759); (918000, 1114111)]%N.

Definition unicode_printable (cp : N) : bool :=
  negb (existsb (fun r => (fst r <=? cp)%N && (cp <=? snd r)%N)
                nonprintable_ranges).

Definition hex_digit (n : N) : ascii :=
  if (n <? 10)%N then ascii_of_N (48 + n) else ascii_of_N (87 + n).

(** [width] hexadecimal digits of [n], lower case, the first ones
    zero. *)
Fixpoint hex_fixed (width : nat) (n : N) : string :=
  match width with
  | O => ""
  | S width' =>
      hex_fixed width' (n / 16)%N ++ String (hex_digit (n mod 16)%N) ""
  end.

(** The escape of a code point that [repr] does not copy. *)
Definition escape_code (cp : N) : string :=
  if (cp <=? 255)%N then String backslash ("x" ++ hex_fixed 2 cp)
  else if (cp <=? 65535)%N then String backslash ("u" ++ hex_fixed 4 cp)
  else String backslash ("U" ++ hex_fixed 8 cp).

(** [repr] of one character: its code point [cp], and the bytes [raw]
    that stand for it in the string. *)
Definition repr_code (q : ascii) (cp : N) (raw : string) : string :=
  if (cp =? 92)%N then String backslash (String backslash "")
  else if (cp =? N_of_ascii q)%N then String backslash (String q "")
  else if (cp =? 10)%N then String backslash "n"
  else if (cp =? 13)%N then String backslash "r"
  else if (cp =? 9)%N then String backslash "t"
  else if ((cp <? 32) || (cp =? 127))%N then escape_code cp
  else if (cp <? 127)%N then raw
  else if unicode_printable cp then raw
  else escape_code cp.

(** The payload of a continuation byte of UTF-8. *)
Definition continuation (c : ascii) : option N :=
  let n := N_of_ascii c in
  if ((128 <=? n) && (n <? 192))%N then Some (n - 128)%N else None.

(** A string stands for a Python text by its UTF-8 bytes (a lone
    surrogate by the three bytes of its number). [repr_body] reads the
    characters off the bytes; a byte that starts no character, which no
    Python text gives, is read as the character of its own number. *)
Fixpoint repr_body (q : ascii) (s : string) : string :=
  match s with
  | EmptyString => ""
  | String c0 s1 =>
      let n0 := N_of_ascii c0 in
      let alone := repr_code q n0 (String c0 "") ++ repr_body q s1 in
      if (n0 <? 192)%N then alone
      else
        match s1 with
        | EmptyString => alone
        | String c1 s2 =>
            match continuation c1 with
            | None => alone
            | Some n1 =>
                if (n0 <? 224)%N then
                  repr_code q ((n0 - 192) * 64 + n1)%N
                    (String c0 (String c1 ""))
                    ++ repr_body q s2
                else
                  match s2 with
                  | EmptyString => alone
                  | String c2 s3 =>
                      match continuation c2 with
                      | None => alone
                      | Some n2 =>
                          if (n0 <? 240)%N then
                            repr_code q
                              (((n0 - 224) * 64 + n1) * 64 + n2)%N
                              (String c0 (String c1 (String c2 "")))
                              ++ repr_body q s3
                          else
                            match s3 with
                            | EmptyString => alone
                            | String c3 s4 =>
                                match continuation c3 with
                                | None => alone
                                | Some n3 =>
                                    repr_code q
                                      ((((n0 - 240) * 64 + n1) * 64 + n2) * 64
                                         + n3)%N
                                      (String c0 (String c1
                                         (String c2 (String c3 ""))))
                                      ++ repr_body q s4
                                end
                            end
                      end
                  end
            end
        end
  end.

(** [repr(s)]: single quotes, unless the string holds a single quote and
    no double quote; the backslash, the quote and the characters that
    are not printable are escaped. *)
Definition py_repr (s : string) : string :=
  let q := if contains squote s && negb (contains dquote s)
           then dquote else squote in
  String q (repr_body q s ++ String q "").

(** [str(n)] of an int. *)
Definition str_int (z : Z) : string :=
  NilZero.string_of_int (Z.to_int z).

(** ** Subscription with a string key: [v[k]] *)

Fixpoint dict_get (d : list (string * pyval)) (k : string) : option pyval :=
  match d with
  | [] => None
  | (k', v) :: d' => if (k' =? k)%string then Some v else dict_get d' k
  end.

Definition type_name (v : pyval) : string :=
  match v with
  | PyNone => "NoneType"
  | PyBool _ => "bool"
  | PyNum (Int _) => "int"
  | PyNum (Float _) => "float"
  | PyStr _ => "str"
  | PyList _ => "list"
  | PyDict _ => "dict"
  end.

Definition subscript (v : pyval) (k : string) : outcome pyval :=
  match v with
  | PyDict d =>
      match dict_get d k with
      | Some x => Returned x
      | None => Raised (mkExn E_KeyError (py_repr k))
      end
  | PyList _ =>
      Raised (mkExn E_TypeError "list indices must be integers or slices, not str")
  | PyStr _ =>
      Raised (mkExn E_TypeError "string indices must be integers, not 'str'")
  | _ =>
      Raised (mkExn E_TypeError
                ("'" ++ type_name v ++ "' object is not subscriptable"))
  end.

(** ** The outside world *)

(** What [requests.get] is called with. [get_exchange_rates] passes the
    query as [params]; [get_conversion] formats it into the URL. *)
Record request : Type := mkRequest {
  req_url : string;
  req_params : list (string * string);
  req_timeout : Z
}.

(** What the client reads of a [requests.Response]: the status line, the
    final URL, and what [response.json()] gives on the body. *)
Record Response : Type := mkResponse {
  status_code : Z;
  reason : string;
  url : string;
  body_json : outcome pyval
}.

(** The provider and the network answer the n-th request of the session
    with a response or with an exception; the clock gives the formatted
    local time at its n-th reading. [sent] and [clock_reads] record what
    the program has done so far. *)
Record World : Type := mkWorld {
  transport : nat -> request -> outcome Response;
  wall_clock : nat -> string;
  sent : list request;
  clock_reads : nat
}.

(** ** Computations: state of the bound object, the world, exceptions *)

Definition M (St A : Type) : Type := St -> World -> outcome A * St * World.

Definition ret {St A : Type} (a : A) : M St A :=
  fun s w => (Returned a, s, w).

Definition bind {St A B : Type} (m : M St A) (k : A -> M St B) : M St B :=
  fun s w =>
    match m s w with
    | (Returned a, s', w') => k a s' w'
    | (Raised e, s', w') => (Raised e, s', w')
    end.

Notation "x <- m ;; k" := (bind m (fun x => k))
  (at level 61, m at next level, right associativity).
Notation "m ;;; k" := (bind m (fun _ => k))
  (at level 61, right associativity).

Definition lift_outcome {St A : Type} (o : outcome A) : M St A :=
  fun s w => (o, s, w).

Definition get_self {St : Type} : M St St :=
  fun s w => (Returned s, s, w).

Definition modify_self {St : Type} (f : St -> St) : M St unit :=
  fun s w => (Returned tt, f s, w).

(** [try: body except Exception as e: handler e]. State changes made
    before the exception stay. *)
Definition try_except {St A : Type} (body : M St A) (handler : exn -> M St A)
  : M St A :=
  fun s w =>
    match body s w with
    | (Returned a, s', w') => (Returned a, s', w')
    | (Raised e, s', w') => handler e s' w'
    end.

(** [try: body except <classes> as e: handler e]: an exception of
    another class goes on to the caller. *)
Definition try_except_of {St A : Type} (catches : exn_class -> bool)
  (body : M St A) (handler : exn -> M St A) : M St A :=
  fun s w =>
    match body s w with
    | (Returned a, s', w') => (Returned a, s', w')
    | (Raised e, s', w') =>
        if catches (exn_cls e) then handler e s' w' else (Raised e, s', w')
    end.

(** Runs a method of a component on the part of the state it is bound
    to. *)
Definition on_field {St T A : Type} (proj : St -> T) (upd : T -> St -> St)
  (m : M T A) : M St A :=
  fun s w =>
    match m (proj s) w with
    | (o, t', w') => (o, upd t' s, w')
    end.

(** ** The library calls the client makes *)

(** [requests.get(url, params=params, timeout=timeout)]. *)
Definition requests_get {St : Type} (u : string)
  (params : list (string * string)) (timeout : Z) : M St Response :=
  fun s w =>
    let r := mkRequest u params timeout in
    (transport w (length (sent w)) r, s,
     mkWorld (transport w) (wall_clock w) (sent w ++ [r]) (clock_reads w)).

(** [Response.raise_for_status()] of requests: an [HTTPError] for the
    statuses 400 to 599, nothing for any other status. *)
Definition http_error_msg (r : Response) : string :=
  if (400 <=? status_code r) && (status_code r <? 500) then
    str_int (status_code r) ++ " Client Error: " ++ reason r
      ++ " for url: " ++ url r
  else if (500 <=? status_code r) && (status_code r <? 600) then
    str_int (status_code r) ++ " Server Error: " ++ reason r
      ++ " for url: " ++ url r
  else "".

Definition raise_for_status {St : Type} (r : Response) : M St unit :=
  if (http_error_msg r =? "")%string then ret tt
  else lift_outcome (Raised (mkExn E_HTTPError (http_error_msg r))).

(** [response.json()]. *)
Definition response_json {St : Type} (r : Response) : M St pyval :=
  lift_outcome (body_json r).

(** [datetime.now().strftime('%Y-%m-%d %H:%M:%S')]. *)
Definition datetime_now_strftime {St : Type} : M St string :=
  fun s w =>
    (Returned (wall_clock w (clock_reads w)), s,
     mkWorld (transport w) (wall_clock w) (sent w) (S (clock_reads w))).

(** ** class CurrencyTracker *)

Record CurrencyTracker : Type := mkTracker {
  api_url : string;
  base_currency : string;
  history : list pyval
}.

(** [__init__]. *)
Definition CurrencyTracker_init : CurrencyTracker :=
  mkTracker "https://api.frankfurter.app/latest" "USD" [].

(** [get_exchange_rates(self, base)]: the pair [(rates, None)] or
    [(None, message)]. *)
Definition get_exchange_rates (base : string)
  : M CurrencyTracker (pyval * pyval) :=
  try_except
    (self <- get_self ;;
     let params := [("from", base)] in
     response <- requests_get (api_url self) params 10 ;;
     raise_for_status response ;;;
     data <- response_json response ;;
     d_base <- lift_outcome (subscript data "base") ;;
     d_date <- lift_outcome (subscript data "date") ;;
     timestamp <- datetime_now_strftime ;;
     d_rates <- lift_outcome (subscript data "rates") ;;
     let rates := PyDict [("base", d_base);
                          ("date", d_date);
                          ("timestamp", PyStr timestamp);
                          ("rates", d_rates)] in
     ret (rates, PyNone))
    (fun e =>
       if is_RequestException (exn_cls e) then
         ret (PyNone, PyStr ("Network error: " ++ exn_str e))
       else
         ret (PyNone, PyStr ("Error: " ++ exn_str e))).

(** [save_to_history(self, rates_data)]. *)
Definition save_to_history (rates_data : pyval) : M CurrencyTracker unit :=
  modify_self (fun self =>
    mkTracker (api_url self) (base_currency self)
              (history self ++ [rates_data])).

Section FloatText.

(** [str] of a float (its shortest decimal text that reads back as the
    same float) belongs to the interpreter; the client only splices it
    into a URL. *)
Variable str_float : spec_float -> string.

Definition str_number (n : number) : string :=
  match n with
  | Int z => str_int z
  | Float f => str_float f
  end.

(** [get_conversion(self, amount, from_currency, to_currency)]. *)
Definition get_conversion (amount : number) (from_currency to_currency : string)
  : M CurrencyTracker (pyval * pyval) :=
  try_except
    (let u := "https://api.frankfurter.app/latest?amount=" ++ str_number amount
                ++ "&from=" ++ from_currency ++ "&to=" ++ to_currency in
     response <- requests_get u [] 10 ;;
     raise_for_status response ;;;
     data <- response_json response ;;
     d_rates <- lift_outcome (subscript data "rates") ;;
     converted_amount <- lift_outcome (subscript d_rates to_currency) ;;
     ret (converted_amount, PyNone))
    (fun e =>
       ret (PyNone, PyStr ("Conversion error: " ++ exn_str e))).

End FloatText.

(** ** class CurrencyTrackerGUI: the state the two callbacks touch *)

(** A modal dialog raised through [messagebox]. *)
Inductive dialog : Type :=
| DlgError (title : string) (message : pyval)
| DlgWarning (title : string) (message : pyval).

(** The tracker, [current_rates], the Tk variables and entry the
    callbacks read, and the widgets they write. Label colours and the
    status line are left out. *)
Record GUI : Type := mkGUI {
  tracker : CurrencyTracker;
  current_rates : pyval;
  base_currency_var : string;
  amount_entry : string;
  from_currency_var : string;
  to_currency_var : string;
  convert_result_label : string;
  refresh_btn_enabled : bool;
  dialogs : list dialog
}.

Definition set_tracker (t : CurrencyTracker) (g : GUI) : GUI :=
  mkGUI t (current_rates g) (base_currency_var g) (amount_entry g)
        (from_currency_var g) (to_currency_var g) (convert_result_label g)
        (refresh_btn_enabled g) (dialogs g).

Definition set_current_rates (v : pyval) (g : GUI) : GUI :=
  mkGUI (tracker g) v (base_currency_var g) (amount_entry g)
        (from_currency_var g) (to_currency_var g) (convert_result_label g)
        (refresh_btn_enabled g) (dialogs g).

Definition set_base_currency_var (b : string) (g : GUI) : GUI :=
  mkGUI (tracker g) (current_rates g) b (amount_entry g)
        (from_currency_var g) (to_currency_var g) (convert_result_label g)
        (refresh_btn_enabled g) (dialogs g).

Definition set_convert_result_label (s : string) (g : GUI) : GUI :=
  mkGUI (tracker g) (current_rates g) (base_currency_var g) (amount_entry g)
        (from_currency_var g) (to_currency_var g) s
        (refresh_btn_enabled g) (dialogs g).

Definition set_refresh_btn (b : bool) (g : GUI) : GUI :=
  mkGUI (tracker g) (current_rates g) (base_currency_var g) (amount_entry g)
        (from_currency_var g) (to_currency_var g) (convert_result_label g)
        b (dialogs g).

Definition show_dialog (d : dialog) (g : GUI) : GUI :=
  mkGUI (tracker g) (current_rates g) (base_currency_var g) (amount_entry g)
        (from_currency_var g) (to_currency_var g) (convert_result_label g)
        (refresh_btn_enabled g) (dialogs g ++ [d]).

(** [self.tracker.<method>(...)]. *)
Definition on_tracker {A : Type} (m : M CurrencyTracker A) : M GUI A :=
  on_field tracker set_tracker m.

(** [refresh_rates(self)], from its start to the call of
    [save_to_history] (line 346). The statements after it redraw the
    table and the labels and enable two buttons; none of them reaches the
    tracker. *)
Definition refresh_rates : M GUI unit :=
  modify_self (set_refresh_btn false) ;;;
  self <- get_self ;;
  let base := base_currency_var self in
  r <- on_tracker (get_exchange_rates base) ;;
  let '(rates_data, error) := r in
  if truthy error then
    modify_self (show_dialog (DlgError "Error" error)) ;;;
    modify_self (set_refresh_btn true) ;;;
    ret tt
  else
    modify_self (set_current_rates rates_data) ;;;
    on_tracker (save_to_history rates_data).

(** A session of refreshes: before each one the user (or the auto-refresh
    timer, with the selection unchanged) sets the base currency. *)
Fixpoint refresh_session (bases : list string) : M GUI unit :=
  match bases with
  | [] => ret tt
  | b :: bs =>
      modify_self (set_base_currency_var b) ;;;
      refresh_rates ;;;
      refresh_session bs
  end.

Section Formatting.

Variable str_float : spec_float -> string.

(** [float(text)]: the float, or a [ValueError]. *)
Variable py_float : string -> outcome spec_float.

(** [format(v, ',.2f')]: the text, or the exception the value's
    [__format__] raises. *)
Variable format_2f : pyval -> outcome string.

Definition is_ValueError (c : exn_class) : bool :=
  match c with
  | E_ValueError | E_JSONDecodeError => true
  | _ => false
  end.

(** [convert_currency(self)]. *)
Definition convert_currency : M GUI unit :=
  try_except_of is_ValueError
    (self <- get_self ;;
     amount <- lift_outcome (py_float (amount_entry self)) ;;
     let from_curr := from_currency_var self in
     let to_curr := to_currency_var self in
     if (from_curr =? to_curr)%string then
       modify_self (show_dialog
         (DlgWarning "Warning" (PyStr "Please select different currencies")))
     else
       r <- on_tracker (get_conversion str_float (Float amount) from_curr to_curr) ;;
       let '(result, error) := r in
       if truthy error then
         modify_self (show_dialog (DlgError "Error" error))
       else
         a_txt <- lift_outcome (format_2f (PyNum (Float amount))) ;;
         r_txt <- lift_outcome (format_2f result) ;;
         modify_self (set_convert_result_label
           (a_txt ++ " " ++ from_curr ++ " = " ++ r_txt ++ " " ++ to_curr)))
    (fun _ =>
       modify_self (show_dialog
         (DlgError "Error" (PyStr "Please enter a valid amount")))).

End Formatting.

(** ** What the specification's words mean on these values *)

(** The error classes of the specification, read off the message prefix,
    which is the only classification the client makes. The generic
    ["Error: "] of [get_exchange_rates] is the specification's
    [ParseError]. *)
Inductive error_kind : Type :=
| NetworkError
| ParseError
| ConversionError.

Definition classify (message : pyval) : option error_kind :=
  match message with
  | PyStr s =>
      if String.prefix "Network error: " s then Some NetworkError
      else if String.prefix "Conversion error: " s then Some ConversionError
      else if String.prefix "Error: " s then Some ParseError
      else None
  | _ => None
  end.

(** A returned pair holds a result, an error, both or neither, by which
    components are not [None]. *)
Definition exactly_one (r : pyval * pyval) : bool :=
  xorb (is_none (fst r)) (is_none (snd r)).

(** A rate that is a finite positive number. *)
Definition finite_positive (v : pyval) : bool :=
  match v with
  | PyNum (Int z) => 0 <? z
  | PyNum (Float (S754_finite false _ _)) => true
  | _ => false
  end.

(** All the values of a [rates] mapping are finite positive numbers. *)
Definition rates_finite_positive (rates : pyval) : bool :=
  match rates with
  | PyDict d => forallb (fun kv => finite_positive (snd kv)) d
  | _ => false
  end.

(** The [rates] entry of a snapshot. *)
Definition snapshot_rates (snapshot : pyval) : outcome pyval :=
  subscript snapshot "rates".

(** The exact value of a number. *)
Definition number_value (n : number) : option Q :=
  match n with
  | Int z => Some (inject_Z z)
  | Float (S754_zero _) => Some 0%Q
  | Float (S754_finite s m e) =>
      Some ((inject_Z (if s then Z.neg m else Z.pos m)) * Qpower 2 e)%Q
  | Float _ => None
  end.

(** Two values are numbers with the same value (Python's [==] on
    numbers). *)
Definition numerically_equal (a b : pyval) : bool :=
  match a, b with
  | PyNum x, PyNum y =>
      match number_value x, number_value y with
      | Some p, Some q => Qeq_bool p q
      | _, _ => false
      end
  | _, _ => false
  end.

Definition is_2xx (r : Response) : bool :=
  (200 <=? status_code r) && (status_code r <? 300).

(** The request [get_exchange_rates] issues and the answer it gets. *)
Definition rates_request (self : CurrencyTracker) (base : string) : request :=
  mkRequest (api_url self) [("from", base)] 10.

Definition answer (w : World) (r : request) : outcome Response :=
  transport w (length (sent w)) r.

(** The results of the fetches of a session, in call order. *)
Fixpoint fetch_trace (self : CurrencyTracker) (w : World) (bases : list string)
  : list (pyval * pyval) :=
  match bases with
  | [] => []
  | b :: bs =>
      match get_exchange_rates b self w with
      | (Returned r, self', w') => r :: fetch_trace self' w' bs
      | (Raised _, _, _) => []
      end
  end.

Definition succeeded (r : pyval * pyval) : bool := negb (truthy (snd r)).

Definition snapshots_of (trace : list (pyval * pyval)) : list pyval :=
  map fst (filter succeeded trace).

(** The request [get_conversion] issues. *)
Definition conversion_request (str_float : spec_float -> string)
  (amount : number) (from_currency to_currency : string) : request :=
  mkRequest ("https://api.frankfurter.app/latest?amount="
               ++ str_number str_float amount
               ++ "&from=" ++ from_currency ++ "&to=" ++ to_currency)
            [] 10.

(** A failure at the transport level: [requests.get] raises one of the
    library's own exceptions (no route, refused, timed out, ...), or the
    status is one [raise_for_status] refuses. Gives [str] of the
    exception. *)
Definition transport_fault (o : outcome Response) : option string :=
  match o with
  | Raised e =>
      if is_RequestException (exn_cls e) then Some (exn_str e) else None
  | Returned resp =>
      if (400 <=? status_code resp) && (status_code resp <? 600)
      then Some (http_error_msg resp) else None
  end.

(** A body that cannot be read as the schema [base], [date], [rates]:
    decoding it raises, or one of the three subscriptions does. Gives the
    exception. *)
Definition schema_fault (body : outcome pyval) : option exn :=
  match body with
  | Raised e => Some e
  | Returned data =>
      match subscript data "base", subscript data "date",
            subscript data "rates" with
      | Raised e, _, _ => Some e
      | _, Raised e, _ => Some e
      | _, _, Raised e => Some e
      | _, _, _ => None
      end
  end.

(** A failure on the conversion path: the first exception among the
    transport's, the status check's, the decoder's and the two
    subscriptions'. *)
Definition conversion_fault (o : outcome Response) (to_currency : string)
  : option exn :=
  match o with
  | Raised e => Some e
  | Returned resp =>
      if (400 <=? status_code resp) && (status_code resp <? 600)
      then Some (mkExn E_HTTPError (http_error_msg resp))
      else
        match body_json resp with
        | Raised e => Some e
        | Returned data =>
            match subscript data "rates" with
            | Raised e => Some e
            | Returned rates =>
                match subscript rates to_currency with
                | Raised e => Some e
                | Returned _ => None
                end
            end
        end
  end.

(** A failure on the fetch path: the first exception among the
    transport's, the status check's, the decoder's and the three
    subscriptions'. *)
Definition fetch_fault (o : outcome Response) : option exn :=
  match o with
  | Raised e => Some e
  | Returned resp =>
      if (400 <=? status_code resp) && (status_code resp <? 600)
      then Some (mkExn E_HTTPError (http_error_msg resp))
      else schema_fault (body_json resp)
  end.

(** The message the fetch's two handlers build from an exception. *)
Definition fetch_error_text (e : exn) : string :=
  (if is_RequestException (exn_cls e) then "Network error: " else "Error: ")
    ++ exn_str e.

(** A computation that leaves the object it is bound to as it found
    it, however it ends. *)
Definition frames {St A : Type} (m : M St A) : Prop :=
  forall s w, snd (fst (m s w)) = s.

(** ** Concrete worlds and values for the examples *)

(** A world that answers every request the same way. *)
Definition const_world (o : outcome Response) : World :=
  mkWorld (fun _ _ => o) (fun _ => "2024-01-15 12:00:00") [] 0.

Definition latest_url : string := "https://api.frankfurter.app/latest".

(** binary64 values: 1.0, 0.92, 0.79 (nearest), 92.0. *)
Definition f_1_0 : spec_float := S754_finite false 4503599627370496 (-52).
Definition f_0_92 : spec_float := S754_finite false 8286623314361713 (-53).
Definition f_0_79 : spec_float := S754_finite false 7115687411245384 (-53).
Definition f_92_0 : spec_float := S754_finite false 6473924464345088 (-46).

(** [{"base":"USD","date":"2024-01-15","rates":{"EUR":0.92,"GBP":0.79}}] *)
Definition usd_rates_body : pyval :=
  PyDict [("base", PyStr "USD"); ("date", PyStr "2024-01-15");
          ("rates", PyDict [("EUR", PyNum (Float f_0_92));
                            ("GBP", PyNum (Float f_0_79))])].

(** [{"unexpected":"shape"}] *)
Definition unexpected_body : pyval :=
  PyDict [("unexpected", PyStr "shape")].

(** [{"amount":100,"base":"USD","date":"2024-01-15","rates":{"EUR":92.0}}] *)
Definition usd_eur_body : pyval :=
  PyDict [("amount", PyNum (Int 100)); ("base", PyStr "USD");
          ("date", PyStr "2024-01-15");
          ("rates", PyDict [("EUR", PyNum (Float f_92_0))])].

Definition ok_response (body : pyval) : Response :=
  mkResponse 200 "OK" latest_url (Returned body).

(** [{"base":"USD","date":"2024-01-15","rates":{"EUR":0.92,"GBP":-1}}] *)
Definition negative_rate_body : pyval :=
  PyDict [("base", PyStr "USD"); ("date", PyStr "2024-01-15");
          ("rates", PyDict [("EUR", PyNum (Float f_0_92));
                            ("GBP", PyNum (Int (-1)))])].

(** [{"amount":100,"base":"USD","date":"2024-01-15","rates":{"EUR":null}}] *)
Definition null_entry_body : pyval :=
  PyDict [("amount", PyNum (Int 100)); ("base", PyStr "USD");
          ("date", PyStr "2024-01-15");
          ("rates", PyDict [("EUR", PyNone)])].

(** [{"amount":1,"base":"USD","date":"2024-01-15","rates":{"USD":5}}] *)
Definition usd_usd_body : pyval :=
  PyDict [("amount", PyNum (Int 1)); ("base", PyStr "USD");
          ("date", PyStr "2024-01-15");
          ("rates", PyDict [("USD", PyNum (Int 5))])].

(** A 300 answer that carries a body. *)
Definition multiple_choices (body : pyval) : Response :=
  mkResponse 300 "Multiple Choices" latest_url (Returned body).

(** A 200 answer whose body is not JSON, as requests 2.27 and later
    report it. *)
Definition not_json_response : Response :=
  mkResponse 200 "OK" latest_url
    (Raised (mkExn E_JSONDecodeError "Expecting value: line 1 column 1 (char 0)")).

Definition unprocessable_response : Response :=
  mkResponse 422 "Unprocessable Entity"
    "https://api.frankfurter.app/latest?amount=1&from=USD&to=USD"
    (Returned (PyDict [("message", PyStr "bad currency pair")])).

Definition not_found_response : Response :=
  mkResponse 404 "Not Found"
    "https://api.frankfurter.app/latest?amount=100&from=USD&to=XXX"
    (Returned (PyDict [("message", PyStr "not found")])).

Definition unreachable : exn :=
  mkExn E_ConnectionError
    "HTTPSConnectionPool(host='api.frankfurter.app', port=443): Max retries exceeded".

Definition read_timed_out : exn :=
  mkExn E_Timeout
    "HTTPSConnectionPool(host='api.frankfurter.app', port=443): Read timed out. (read timeout=10)".

(** The examples convert int amounts, whose text needs no float
    printer. *)
Definition no_float_text : spec_float -> string := fun _ => "".

(** A window whose converter has the same currency on both sides. *)
Definition same_pair_gui : GUI :=
  mkGUI CurrencyTracker_init PyNone "USD" "1" "USD" "USD" "" true [].

(** The code ["EU R"] with a no-break space (U+00A0) for the blank, in
    UTF-8. *)
Definition code_with_nbsp : string :=
  "EU" ++ String (ascii_of_nat 194) (String (ascii_of_nat 160) "R").

(** ** The rest of the window: table, status line, timers, export *)

(** A computation that leaves one part [proj] of its state as it found
    it, however it ends. *)
Definition preserves {St X A : Type} (proj : St -> X) (m : M St A) : Prop :=
  forall s w, proj (snd (fst (m s w))) = proj s.

(** A computation that makes no request and does not read the clock:
    the world is left as it was. *)
Definition quiet {St A : Type} (m : M St A) : Prop :=
  forall s w, snd (m s w) = w.

(** A value with the shape of a snapshot: a dict of [base], [date],
    [timestamp] (a string) and [rates], in this order. *)
Definition snapshot_shaped (v : pyval) : bool :=
  match v with
  | PyDict [(k1, _); (k2, _); (k3, PyStr _); (k4, _)] =>
      (k1 =? "base")%string && (k2 =? "date")%string
      && (k3 =? "timestamp")%string && (k4 =? "rates")%string
  | _ => false
  end.

(** [for x in xs: body x]. *)
Fixpoint for_each {St A : Type} (xs : list A) (body : A -> M St unit)
  : M St unit :=
  match xs with
  | [] => ret tt
  | x :: xs' => body x ;;; for_each xs' body
  end.

(** [k in s] on strings: [k] occurs in [s]. *)
Fixpoint occurs (k s : string) : bool :=
  String.prefix k s ||
  match s with
  | EmptyString => false
  | String _ s' => occurs k s'
  end.

(** [k in v] for a string [k]: a key of a dict, an element of a list, a
    part of a string; a [TypeError] on the values that are no
    containers. *)
Definition py_contains (k : string) (v : pyval) : outcome bool :=
  match v with
  | PyDict d =>
      Returned (match dict_get d k with Some _ => true | None => false end)
  | PyList l =>
      Returned (existsb (fun x => match x with
                                  | PyStr s => (s =? k)%string
                                  | _ => false
                                  end) l)
  | PyStr s => Returned (occurs k s)
  | _ =>
      Raised (mkExn E_TypeError
                ("argument of type '" ++ type_name v ++ "' is not iterable"))
  end.

(** [v > n] for an int [n]: exact on ints and floats (a bool counts as
    0 or 1, NaN is greater than nothing), a [TypeError] on the rest. *)
Definition py_gt (v : pyval) (n : Z) : outcome bool :=
  match v with
  | PyBool b => Returned ((if b then 1 else 0) >? n)
  | PyNum (Int z) => Returned (z >? n)
  | PyNum (Float (S754_infinity s)) => Returned (negb s)
  | PyNum (Float S754_nan) => Returned false
  | PyNum x =>
      match number_value x with
      | Some q => Returned (negb (Qle_bool q (inject_Z n)))
      | None => Returned false
      end
  | _ =>
      Raised (mkExn E_TypeError
                ("'>' not supported between instances of '" ++ type_name v
                   ++ "' and 'int'"))
  end.

(** [v.items()]: the items of a dict; other values have no such
    attribute ([AttributeError], an [Exception]). *)
Definition py_items (v : pyval) : outcome (list (string * pyval)) :=
  match v with
  | PyDict d => Returned d
  | _ =>
      Raised (mkExn E_Exception
                ("'" ++ type_name v ++ "' object has no attribute 'items'"))
  end.

(** The instant the clock printed as ['%Y-%m-%d %H:%M:%S'], printed as
    ['%Y%m%d_%H%M%S']: the same digits, without the dashes and colons and
    with an underscore for the space. *)
Fixpoint compact_stamp (s : string) : string :=
  match s with
  | EmptyString => EmptyString
  | String c s' =>
      if Ascii.eqb c "-" || Ascii.eqb c ":" then compact_stamp s'
      else if Ascii.eqb c " " then String "_" (compact_stamp s')
      else String c (compact_stamp s')
  end.

(** [datetime.now().strftime('%Y%m%d_%H%M%S')]. *)
Definition datetime_now_compact {St : Type} : M St string :=
  t <- datetime_now_strftime ;; ret (compact_stamp t).

Definition newline : string := String (ascii_of_nat 10) "".

Section ValueText.

Variable str_float : spec_float -> string.

(** [repr(v)]. *)
Fixpoint py_repr_val (v : pyval) : string :=
  match v with
  | PyNone => "None"
  | PyBool true => "True"
  | PyBool false => "False"
  | PyNum n => str_number str_float n
  | PyStr s => py_repr s
  | PyList l =>
      "[" ++ (fix items (l : list pyval) : string :=
                match l with
                | [] => ""
                | x :: l' =>
                    py_repr_val x ++
                    match l' with [] => "" | _ => ", " ++ items l' end
                end) l ++ "]"
  | PyDict d =>
      "{" ++ (fix items (d : list (string * pyval)) : string :=
                match d with
                | [] => ""
                | (k, x) :: d' =>
                    py_repr k ++ ": " ++ py_repr_val x ++
                    match d' with [] => "" | _ => ", " ++ items d' end
                end) d ++ "}"
  end.

(** [str(v)], which is what [f"{v}"] splices in. *)
Definition py_str (v : pyval) : string :=
  match v with
  | PyStr s => s
  | _ => py_repr_val v
  end.

End ValueText.

Module App.

(** What [root.after] was asked to call. *)
Inductive callback : Type :=
| CallScheduleRefresh
| CallRefreshRates.

(** A pending [after] job. Tk names it by a non-empty string that ends
    in a running number; it is kept as that number. *)
Record timer : Type := mkTimer {
  timer_id : nat;
  timer_ms : Z;
  timer_callback : callback
}.

(** A line of the rates table: the [values] given to [insert]. *)
Record tree_row : Type := mkRow {
  row_currency : string;
  row_rate : string;
  row_change : string
}.

(** A call into pandas made by the export, in the order made. A frame is
    known by the rows it was built from, a writer by its file name. *)
Inductive excel_call : Type :=
| MakeFrame (rows : list pyval)
| OpenWriter (filename : string)
| ToExcel (filename : string) (sheet_name : string) (rows : list pyval)
| CloseWriter (filename : string).

(** The whole [CurrencyTrackerGUI]: the part modelled above, and the
    auto-refresh flags, the other widgets, Tk's queue of [after] jobs
    with its counter, the [showinfo] dialogs and the calls into
    pandas. *)
Record Window : Type := mkWindow {
  gui : GUI;
  auto_refresh : bool;
  refresh_job : option nat;
  auto_refresh_var : bool;
  export_btn_enabled : bool;
  status_label : string;
  update_time_label : string;
  rates_tree : list tree_row;
  after_queue : list timer;
  after_count : nat;
  infos : list (string * string);
  excel_calls : list excel_call
}.

Definition set_gui (x : GUI) (s : Window) : Window :=
  mkWindow x (auto_refresh s) (refresh_job s) (auto_refresh_var s)
    (export_btn_enabled s) (status_label s) (update_time_label s)
    (rates_tree s) (after_queue s) (after_count s) (infos s) (excel_calls s).

Definition set_auto_refresh (x : bool) (s : Window) : Window :=
  mkWindow (gui s) x (refresh_job s) (auto_refresh_var s)
    (export_btn_enabled s) (status_label s) (update_time_label s)
    (rates_tree s) (after_queue s) (after_count s) (infos s) (excel_calls s).

Definition set_refresh_job (x : option nat) (s : Window) : Window :=
  mkWindow (gui s) (auto_refresh s) x (auto_refresh_var s)
    (export_btn_enabled s) (status_label s) (update_time_label s)
    (rates_tree s) (after_queue s) (after_count s) (infos s) (excel_calls s).

Definition set_auto_refresh_var (x : bool) (s : Window) : Window :=
  mkWindow (gui s) (auto_refresh s) (refresh_job s) x
    (export_btn_enabled s) (status_label s) (update_time_label s)
    (rates_tree s) (after_queue s) (after_count s) (infos s) (excel_calls s).

Definition set_export_btn (x : bool) (s : Window) : Window :=
  mkWindow (gui s) (auto_refresh s) (refresh_job s) (auto_refresh_var s)
    x (status_label s) (update_time_label s)
    (rates_tree s) (after_queue s) (after_count s) (infos s) (excel_calls s).

Definition set_status_label (x : string) (s : Window) : Window :=
  mkWindow (gui s) (auto_refresh s) (refresh_job s) (auto_refresh_var s)
    (export_btn_enabled s) x (update_time_label s)
    (rates_tree s) (after_queue s) (after_count s) (infos s) (excel_calls s).

Definition set_update_time_label (x : string) (s : Window) : Window :=
  mkWindow (gui s) (auto_refresh s) (refresh_job s) (auto_refresh_var s)
    (export_btn_enabled s) (status_label s) x
    (rates_tree s) (after_queue s) (after_count s) (infos s) (excel_calls s).

Definition set_rates_tree (x : list tree_row) (s : Window) : Window :=
  mkWindow (gui s) (auto_refresh s) (refresh_job s) (auto_refresh_var s)
    (export_btn_enabled s) (status_label s) (update_time_label s)
    x (after_queue s) (after_count s) (infos s) (excel_calls s).

Definition set_after (q : list timer) (n : nat) (s : Window) : Window :=
  mkWindow (gui s) (auto_refresh s) (refresh_job s) (auto_refresh_var s)
    (export_btn_enabled s) (status_label s) (update_time_label s)
    (rates_tree s) q n (infos s) (excel_calls s).

Definition show_info (title message : string) (s : Window) : Window :=
  mkWindow (gui s) (auto_refresh s) (refresh_job s) (auto_refresh_var s)
    (export_btn_enabled s) (status_label s) (update_time_label s)
    (rates_tree s) (after_queue s) (after_count s)
    (infos s ++ [(title, message)]) (excel_calls s).

Definition log_excel (c : excel_call) (s : Window) : Window :=
  mkWindow (gui s) (auto_refresh s) (refresh_job s) (auto_refresh_var s)
    (export_btn_enabled s) (status_label s) (update_time_label s)
    (rates_tree s) (after_queue s) (after_count s) (infos s)
    (excel_calls s ++ [c]).

Definition set_from_currency_var (x : string) (g : GUI) : GUI :=
  mkGUI (tracker g) (current_rates g) (base_currency_var g) (amount_entry g)
        x (to_currency_var g) (convert_result_label g)
        (refresh_btn_enabled g) (dialogs g).

Definition set_to_currency_var (x : string) (g : GUI) : GUI :=
  mkGUI (tracker g) (current_rates g) (base_currency_var g) (amount_entry g)
        (from_currency_var g) x (convert_result_label g)
        (refresh_btn_enabled g) (dialogs g).

Definition set_amount_entry (x : string) (g : GUI) : GUI :=
  mkGUI (tracker g) (current_rates g) (base_currency_var g) x
        (from_currency_var g) (to_currency_var g) (convert_result_label g)
        (refresh_btn_enabled g) (dialogs g).

(** A statement on the part of the window modelled above. *)
Definition on_gui {A : Type} (m : M GUI A) : M Window A :=
  on_field gui set_gui m.

(** [self.tracker.<method>(...)]. *)
Definition on_client {A : Type} (m : M CurrencyTracker A) : M Window A :=
  on_gui (on_tracker m).

(** [__init__] and [create_widgets]: the window as it opens. *)
Definition Window_init : Window :=
  mkWindow
    (mkGUI CurrencyTracker_init PyNone "USD" "100" "USD" "EUR" "" true [])
    false None false false
    "Click 'Refresh Rates' to get current exchange rates" ""
    [] [] 0 [] [].

Definition display_currencies : list string :=
  ["EUR"; "GBP"; "JPY"; "CHF"; "CAD"; "AUD";
   "CNY"; "TRY"; "INR"; "BRL"; "MXN"; "ZAR"].

Definition currency_names : list (string * string) :=
  [("EUR", "Euro (EUR)");
   ("GBP", "British Pound (GBP)");
   ("JPY", "Japanese Yen (JPY)");
   ("CHF", "Swiss Franc (CHF)");
   ("CAD", "Canadian Dollar (CAD)");
   ("AUD", "Australian Dollar (AUD)");
   ("CNY", "Chinese Yuan (CNY)");
   ("TRY", "Turkish Lira (TRY)");
   ("INR", "Indian Rupee (INR)");
   ("BRL", "Brazilian Real (BRL)");
   ("MXN", "Mexican Peso (MXN)");
   ("ZAR", "South African Rand (ZAR)")].

(** [currency_names.get(currency, currency)]. *)
Fixpoint names_get (names : list (string * string)) (currency : string)
  : string :=
  match names with
  | [] => currency
  | (k, v) :: names' =>
      if (k =? currency)%string then v else names_get names' currency
  end.

(** [root.after(ms, callback)]: queues the job and returns its name. *)
Definition tk_after (ms : Z) (cb : callback) : M Window nat :=
  s <- get_self ;;
  modify_self (set_after (after_queue s ++ [mkTimer (after_count s) ms cb])
                         (S (after_count s))) ;;;
  ret (after_count s).

(** [root.after_cancel(id)]: the job, if still queued, is dropped. *)
Definition tk_after_cancel (id : nat) : M Window unit :=
  modify_self (fun s =>
    set_after (filter (fun t => negb (timer_id t =? id)%nat) (after_queue s))
              (after_count s) s).

Fixpoint find_job (id : nat) (q : list timer) : option timer :=
  match q with
  | [] => None
  | t :: q' => if (timer_id t =? id)%nat then Some t else find_job id q'
  end.

(** Tk calls a callback and reports an exception it raises on the
    console; the loop goes on with the window as the callback left
    it. *)
Definition tk_call (m : M Window unit) : M Window unit :=
  try_except m (fun _ => ret tt).

(** What can happen to the window: the user presses a button, ticks the
    auto-refresh box, picks or types a value, or a queued job comes
    due. *)
Inductive event : Type :=
| PressRefresh
| PressConvert
| PressExport
| TickAutoRefresh
| PickBase (currency : string)
| PickFrom (currency : string)
| PickTo (currency : string)
| TypeAmount (text : string)
| JobDue (id : nat).

(** The auto-refresh jobs in the queue. *)
Definition is_refresh_job (t : timer) : bool :=
  match timer_callback t with
  | CallScheduleRefresh => true
  | CallRefreshRates => false
  end.

Definition refresh_jobs (s : Window) : list timer :=
  filter is_refresh_job (after_queue s).

Section Callbacks.

Variable str_float : spec_float -> string.
Variable py_float : string -> outcome spec_float.

(** [format(v, ',.2f')] and [format(v, '.4f')]: the text, or the
    exception the value's [__format__] raises. *)
Variable format_2f : pyval -> outcome string.
Variable format_4f : pyval -> outcome string.

(** pandas, as far as the export sees it: building a frame, opening the
    writer on a file name, writing a sheet, and leaving the writer's
    [with] block (told whether an exception is on its way out) each
    return or raise. *)
Variable pd_DataFrame : list pyval -> outcome unit.
Variable writer_enter : string -> outcome unit.
Variable to_excel : string -> string -> list pyval -> outcome unit.
Variable writer_exit : string -> bool -> outcome unit.

(** The text of a rate in the table (lines 388-391). *)
Definition rate_text (rate : pyval) : outcome string :=
  match py_gt rate 100 with
  | Returned true => format_2f rate
  | Returned false => format_4f rate
  | Raised e => Raised e
  end.

(** The body of the loop of [update_rates_display] (lines 383-397). *)
Definition display_row (rates : pyval) (currency : string) : M Window unit :=
  present <- lift_outcome (py_contains currency rates) ;;
  if present then
    rate <- lift_outcome (subscript rates currency) ;;
    let name := names_get currency_names currency in
    rate_str <- lift_outcome (rate_text rate) ;;
    let change := "N/A" in
    s <- get_self ;;
    modify_self (set_rates_tree (rates_tree s ++ [mkRow name rate_str change]))
  else ret tt.

(** [update_rates_display(self, rates_data)]. *)
Definition update_rates_display (rates_data : pyval) : M Window unit :=
  modify_self (set_rates_tree []) ;;;
  rates <- lift_outcome (subscript rates_data "rates") ;;
  for_each display_currencies (display_row rates).

(** [refresh_rates(self)], whole ([update_idletasks] only redraws). *)
Definition refresh_rates : M Window unit :=
  on_gui (modify_self (set_refresh_btn false)) ;;;
  modify_self (set_status_label "Fetching exchange rates...") ;;;
  s <- get_self ;;
  let base := base_currency_var (gui s) in
  r <- on_client (get_exchange_rates base) ;;
  let '(rates_data, error) := r in
  if truthy error then
    modify_self (set_status_label ("Error: " ++ py_str str_float error)) ;;;
    on_gui (modify_self (show_dialog (DlgError "Error" error))) ;;;
    on_gui (modify_self (set_refresh_btn true)) ;;;
    ret tt
  else
    on_gui (modify_self (set_current_rates rates_data)) ;;;
    on_client (save_to_history rates_data) ;;;
    update_rates_display rates_data ;;;
    d_base <- lift_outcome (subscript rates_data "base") ;;
    d_date <- lift_outcome (subscript rates_data "date") ;;
    modify_self (set_status_label
      ("✓ Rates updated successfully | Base: " ++ py_str str_float d_base
         ++ " | Date: " ++ py_str str_float d_date)) ;;;
    d_timestamp <- lift_outcome (subscript rates_data "timestamp") ;;
    modify_self (set_update_time_label
      ("Last updated: " ++ py_str str_float d_timestamp)) ;;;
    modify_self (set_export_btn true) ;;;
    on_gui (modify_self (set_refresh_btn true)).

(** [convert_currency(self)], as modelled above. *)
Definition convert : M Window unit :=
  on_gui (convert_currency str_float py_float format_2f).

(** [schedule_refresh(self)]. *)
Definition schedule_refresh : M Window unit :=
  s <- get_self ;;
  if auto_refresh s then
    refresh_rates ;;;
    id <- tk_after 60000 CallScheduleRefresh ;;
    modify_self (set_refresh_job (Some id))
  else ret tt.

(** [toggle_auto_refresh(self)]. *)
Definition toggle_auto_refresh : M Window unit :=
  s <- get_self ;;
  if auto_refresh_var s then
    modify_self (set_auto_refresh true) ;;;
    schedule_refresh
  else
    modify_self (set_auto_refresh false) ;;;
    match refresh_job s with
    | Some id =>
        tk_after_cancel id ;;;
        modify_self (set_refresh_job None)
    | None => ret tt
    end.

(** One row of the [Current Rates] sheet (lines 456-462). *)
Definition current_row (current base : pyval) (item : string * pyval)
  : outcome pyval :=
  match subscript current "date" with
  | Raised e => Raised e
  | Returned d_date =>
      match subscript current "timestamp" with
      | Raised e => Raised e
      | Returned d_timestamp =>
          Returned (PyDict [("Base Currency", base);
                            ("Target Currency", PyStr (fst item));
                            ("Exchange Rate", snd item);
                            ("Date", d_date);
                            ("Timestamp", d_timestamp)])
      end
  end.

(** One row of the [History] sheet (lines 478-484). *)
Definition history_row (record : pyval) (item : string * pyval)
  : outcome pyval :=
  match subscript record "base" with
  | Raised e => Raised e
  | Returned d_base =>
      match subscript record "date" with
      | Raised e => Raised e
      | Returned d_date =>
          match subscript record "timestamp" with
          | Raised e => Raised e
          | Returned d_timestamp =>
              Returned (PyDict [("Base", d_base);
                                ("Currency", PyStr (fst item));
                                ("Rate", snd item);
                                ("Date", d_date);
                                ("Timestamp", d_timestamp)])
          end
      end
  end.

(** A loop that appends a row per element, stopping at the first
    exception. *)
Fixpoint collect {A : Type} (row : A -> outcome pyval) (xs : list A)
  (acc : list pyval) : outcome (list pyval) :=
  match xs with
  | [] => Returned acc
  | x :: xs' =>
      match row x with
      | Returned r => collect row xs' (acc ++ [r])
      | Raised e => Raised e
      end
  end.

(** The two nested loops over the history (lines 476-484). *)
Fixpoint history_rows (records : list pyval) (acc : list pyval)
  : outcome (list pyval) :=
  match records with
  | [] => Returned acc
  | record :: records' =>
      match subscript record "rates" with
      | Raised e => Raised e
      | Returned rates =>
          match py_items rates with
          | Raised e => Raised e
          | Returned items =>
              match collect (history_row record) items acc with
              | Returned acc' => history_rows records' acc'
              | Raised e => Raised e
              end
          end
      end
  end.

(** [with pd.ExcelWriter(filename, engine='openpyxl') as writer: body]:
    the writer is left whether the body returns or raises; an exception
    of the body goes on unless leaving raises one itself. *)
Definition with_writer (filename : string) (body : M Window unit)
  : M Window unit :=
  modify_self (log_excel (OpenWriter filename)) ;;;
  lift_outcome (writer_enter filename) ;;;
  (fun s w =>
     match body s w with
     | (Returned _, s', w') =>
         (writer_exit filename false, log_excel (CloseWriter filename) s', w')
     | (Raised e, s', w') =>
         (match writer_exit filename true with
          | Returned _ => Raised e
          | Raised e' => Raised e'
          end,
          log_excel (CloseWriter filename) s', w')
     end).

(** [df.to_excel(writer, sheet_name=..., index=False)] on the frame
    built from [rows]. *)
Definition frame_to_excel (filename sheet_name : string) (rows : list pyval)
  : M Window unit :=
  modify_self (log_excel (ToExcel filename sheet_name rows)) ;;;
  lift_outcome (to_excel filename sheet_name rows).

(** [pd.DataFrame(rows)]. *)
Definition make_frame (rows : list pyval) : M Window unit :=
  modify_self (log_excel (MakeFrame rows)) ;;;
  lift_outcome (pd_DataFrame rows).

(** [export_to_excel(self)]. *)
Definition export_to_excel : M Window unit :=
  s <- get_self ;;
  if negb (truthy (current_rates (gui s))) then
    on_gui (modify_self (show_dialog
      (DlgWarning "No Data" (PyStr "No rates to export!"))))
  else
    try_except
      (let current := current_rates (gui s) in
       base <- lift_outcome (subscript current "base") ;;
       c_rates <- lift_outcome (subscript current "rates") ;;
       items <- lift_outcome (py_items c_rates) ;;
       rates_list <- lift_outcome (collect (current_row current base) items []) ;;
       make_frame rates_list ;;;
       stamp <- datetime_now_compact ;;
       let filename := "exchange_rates_" ++ stamp ++ ".xlsx" in
       with_writer filename
         (frame_to_excel filename "Current Rates" rates_list ;;;
          match history (tracker (gui s)) with
          | [] => ret tt
          | _ :: _ =>
              history_list <-
                lift_outcome (history_rows (history (tracker (gui s))) []) ;;
              make_frame history_list ;;;
              frame_to_excel filename "History" history_list
          end) ;;;
       modify_self (show_info "Success"
         ("Exported exchange rates to:" ++ newline ++ filename)))
      (fun e =>
         on_gui (modify_self (show_dialog
           (DlgError "Export Error"
              (PyStr ("Failed to export:" ++ newline ++ exn_str e)))))).

(** ** Tk's event loop *)

Definition run_callback (cb : callback) : M Window unit :=
  match cb with
  | CallScheduleRefresh => schedule_refresh
  | CallRefreshRates => refresh_rates
  end.

(** One turn of the loop. A disabled button does not call its command;
    the check box flips its variable before calling its command; a job
    that comes due leaves the queue before it runs. Events are handled
    one at a time. *)
Definition handle (ev : event) : M Window unit :=
  match ev with
  | PressRefresh =>
      s <- get_self ;;
      if refresh_btn_enabled (gui s) then tk_call refresh_rates else ret tt
  | PressConvert => tk_call convert
  | PressExport =>
      s <- get_self ;;
      if export_btn_enabled s then tk_call export_to_excel else ret tt
  | TickAutoRefresh =>
      modify_self (fun s => set_auto_refresh_var (negb (auto_refresh_var s)) s) ;;;
      tk_call toggle_auto_refresh
  | PickBase c => on_gui (modify_self (set_base_currency_var c))
  | PickFrom c => on_gui (modify_self (set_from_currency_var c))
  | PickTo c => on_gui (modify_self (set_to_currency_var c))
  | TypeAmount t => on_gui (modify_self (set_amount_entry t))
  | JobDue id =>
      s <- get_self ;;
      match find_job id (after_queue s) with
      | Some t =>
          tk_after_cancel id ;;;
          tk_call (run_callback (timer_callback t))
      | None => ret tt
      end
  end.

(** The window's life: the events in the order they happen. *)
Definition run_events (evs : list event) : M Window unit :=
  for_each evs handle.

End Callbacks.

(** [main()], up to [mainloop]: the window opens and, if the user says
    yes, a first refresh is queued. *)
Definition main_start (fetch_now : bool) : Window :=
  if fetch_now then
    set_after [mkTimer 0 100 CallRefreshRates] 1 Window_init
  else Window_init.

End App.

(** A key of a mapping. *)
Definition in_dict (d : list (string * pyval)) (c : string) : bool :=
  match dict_get d c with Some _ => true | None => false end.

(** A row of the table shows the currency [c] of the mapping [d]: its
    full name, the text of its rate, and "N/A". *)
Definition shows (format_2f format_4f : pyval -> outcome string)
  (d : list (string * pyval)) (c : string) (row : App.tree_row) : Prop :=
  App.row_currency row = App.names_get App.currency_names c
  /\ App.row_change row = "N/A"
  /\ exists v, dict_get d c = Some v
               /\ App.rate_text format_2f format_4f v
                  = Returned (App.row_rate row).

(** The auto-refresh is in order: the flag follows the check box, and
    the queue holds no auto-refresh job, or the flag is set and the queue
    holds one, 60000 ms ahead, which is the one noted as the refresh
    job. *)
Definition timers_ok (s : App.Window) : Prop :=
  App.auto_refresh s = App.auto_refresh_var s
  /\ (App.refresh_jobs s = []
      \/ (App.auto_refresh s = true
          /\ exists t, App.refresh_jobs s = [t]
                       /\ App.refresh_job s = Some (App.timer_id t)
                       /\ App.timer_ms t = 60000)).

(** From [s] to [s'] the record has grown by the snapshots [added]: they
    are at the end of the history, the current rates are the last of
    them (or as before if there is none), the endpoint is the same, and
    the export button has not been enabled without something to
    export. *)
Definition grown_by (s s' : App.Window) (added : list pyval) : Prop :=
  history (tracker (App.gui s'))
    = (history (tracker (App.gui s)) ++ added)%list
  /\ Forall (fun v => snapshot_shaped v = true) added
  /\ current_rates (App.gui s') = last added (current_rates (App.gui s))
  /\ api_url (tracker (App.gui s')) = api_url (tracker (App.gui s))
  /\ (App.export_btn_enabled s' = true ->
      App.export_btn_enabled s = true \/ added <> []).

(** A snapshot whose [rates] is a mapping: what the export can turn into
    rows. *)
Definition exportable (v : pyval) : bool :=
  snapshot_shaped v
  && match subscript v "rates" with
     | Returned (PyDict _) => true
     | _ => false
     end.

(** The rows of the [History] sheet that one snapshot gives: one per
    entry of its [rates], in their order. *)
Definition record_rows (v : pyval) : list pyval :=
  match v with
  | PyDict [(_, b); (_, d); (_, ts); (_, PyDict items)] =>
      map (fun item => PyDict [("Base", b);
                               ("Currency", PyStr (fst item));
                               ("Rate", snd item);
                               ("Date", d);
                               ("Timestamp", ts)]) items
  | _ => []
  end.

(** The rows of the [Current Rates] sheet that a snapshot gives. *)
Definition current_rows (v : pyval) : list pyval :=
  match v with
  | PyDict [(_, b); (_, d); (_, ts); (_, PyDict items)] =>
      map (fun item => PyDict [("Base Currency", b);
                               ("Target Currency", PyStr (fst item));
                               ("Exchange Rate", snd item);
                               ("Date", d);
                               ("Timestamp", ts)]) items
  | _ => []
  end.

(** A computation that tells its success and nothing else: it shows no
    dialog, and notes one success exactly when it returns. *)
Definition notes_success (m : M App.Window unit) : Prop :=
  forall s w,
    dialogs (App.gui (snd (fst (m s w)))) = dialogs (App.gui s)
    /\ match fst (fst (m s w)) with
       | Returned _ =>
           exists i, App.infos (snd (fst (m s w))) = (App.infos s ++ [i])%list
       | Raised _ => App.infos (snd (fst (m s w))) = App.infos s
       end.

(** A computation that always ends in an exception. *)
Definition always_raises {St A : Type} (m : M St A) : Prop :=
  forall s w, exists e, fst (fst (m s w)) = Raised e.

(** A computation that makes no request. *)
Definition sends_nothing {St A : Type} (m : M St A) : Prop :=
  forall s w, sent (snd (m s w)) = sent w.

(** ** Concrete windows and stand-ins for the examples *)

(** [{"base":"USD","date":"2024-01-15","rates":null}] *)
Definition null_rates_body : pyval :=
  PyDict [("base", PyStr "USD"); ("date", PyStr "2024-01-15");
          ("rates", PyNone)].

(** The snapshot the fetch makes of it. *)
Definition null_rates_snapshot : pyval :=
  PyDict [("base", PyStr "USD"); ("date", PyStr "2024-01-15");
          ("timestamp", PyStr "2024-01-15 12:00:00");
          ("rates", PyNone)].

(** The snapshot the fetch makes of [usd_rates_body]. *)
Definition usd_snapshot : pyval :=
  PyDict [("base", PyStr "USD"); ("date", PyStr "2024-01-15");
          ("timestamp", PyStr "2024-01-15 12:00:00");
          ("rates", PyDict [("EUR", PyNum (Float f_0_92));
                            ("GBP", PyNum (Float f_0_79))])].

(** [{"amount":100,"base":"USD","date":"2024-01-15","rates":{"EUR":"n/a"}}] *)
Definition text_entry_body : pyval :=
  PyDict [("amount", PyNum (Int 100)); ("base", PyStr "USD");
          ("date", PyStr "2024-01-15");
          ("rates", PyDict [("EUR", PyStr "n/a")])].

(** [{"base":"USD","date":"2024-01-15","rates":{"EUR":0.92,"GBP":"n/a"}}] *)
Definition text_rate_body : pyval :=
  PyDict [("base", PyStr "USD"); ("date", PyStr "2024-01-15");
          ("rates", PyDict [("EUR", PyNum (Float f_0_92));
                            ("GBP", PyStr "n/a")])].

Definition not_comparable : exn :=
  mkExn E_TypeError "'>' not supported between instances of 'str' and 'int'".

Definition not_iterable : exn :=
  mkExn E_TypeError "argument of type 'NoneType' is not iterable".

(** Stand-ins for [float] and [format]: what they return is not the text
    Python prints; the examples only depend on whether they return. *)
Definition float_reads : string -> outcome spec_float :=
  fun _ => Returned f_1_0.

Definition float_refuses : string -> outcome spec_float :=
  fun text =>
    Raised (mkExn E_ValueError
              ("could not convert string to float: " ++ py_repr text)).

Definition format_numbers : pyval -> outcome string :=
  fun v =>
    match v with
    | PyNum _ | PyBool _ => Returned "1.00"
    | PyStr _ =>
        Raised (mkExn E_ValueError
                  "Unknown format code 'f' for object of type 'str'")
    | _ =>
        Raised (mkExn E_TypeError
                  ("unsupported format string passed to " ++ type_name v
                     ++ ".__format__"))
    end.

(** A window with auto-refresh on. *)
Definition auto_window : App.Window :=
  App.set_auto_refresh true (App.set_auto_refresh_var true App.Window_init).

(** A window that has recorded one snapshot. *)
Definition window_with (snapshot : pyval) : App.Window :=
  App.set_export_btn true
    (App.set_gui
       (mkGUI (mkTracker latest_url "USD" [snapshot]) snapshot
              "USD" "100" "USD" "EUR" "" true [])
       App.Window_init).

(** The converter with a given text in the amount entry. *)
Definition set_amount_entry_text (text : string) : GUI :=
  App.set_amount_entry text (App.gui App.Window_init).

(** * Properties *)

Ltac unfold_monad :=
  unfold try_except, try_except_of, bind, ret, lift_outcome, get_self,
    modify_self, on_tracker, on_field, requests_get, raise_for_status,
    response_json, datetime_now_strftime in *.

Ltac break_inner :=
  match goal with
  | |- context [match ?x with _ => _ end] =>
      lazymatch x with
      | context [match _ with _ => _ end] => fail
      | _ => destruct x eqn:?
      end
  end.

Ltac reduce := unfold_monad; cbn [fst snd negb].

(* The handler's branch once the raised exception is known. *)
Ltac caught :=
  intros [= <-]; now destruct (is_RequestException _).

Ltac run_method := unfold_monad; repeat (break_inner; unfold_monad; cbn [fst snd]).

Lemma prefix_app (p s : string) : String.prefix p (p ++ s) = true.
Proof.
  induction p as [|c p IH]; simpl.
  - destruct s; reflexivity.
  - destruct (ascii_dec c c); [exact IH | congruence].
Qed.

(** ** The monad's frame rule: computations that leave the bound object alone *)

Lemma frames_ret {St A : Type} (a : A) : frames (@ret St A a).
Proof. intros s w; reflexivity. Qed.

Lemma frames_lift_outcome {St A : Type} (o : outcome A) :
  frames (@lift_outcome St A o).
Proof. intros s w; reflexivity. Qed.

Lemma frames_get_self {St : Type} : frames (@get_self St).
Proof. intros s w; reflexivity. Qed.

Lemma frames_bind {St A B : Type} (m : M St A) (k : A -> M St B) :
  frames m -> (forall a, frames (k a)) -> frames (bind m k).
Proof.
  intros Hm Hk s w. unfold bind.
  specialize (Hm s w).
  destruct (m s w) as [[o s'] w']; simpl in Hm; subst s'.
  destruct o as [a|e]; [apply Hk | reflexivity].
Qed.

Lemma frames_try_except {St A : Type} (body : M St A) (handler : exn -> M St A) :
  frames body -> (forall e, frames (handler e)) -> frames (try_except body handler).
Proof.
  intros Hb Hh s w. unfold try_except.
  specialize (Hb s w).
  destruct (body s w) as [[o s'] w']; simpl in Hb; subst s'.
  destruct o as [a|e]; [reflexivity | apply Hh].
Qed.

Lemma frames_requests_get {St : Type} u params timeout :
  frames (@requests_get St u params timeout).
Proof. intros s w; reflexivity. Qed.

Lemma frames_raise_for_status {St : Type} (r : Response) :
  frames (@raise_for_status St r).
Proof.
  intros s w. unfold raise_for_status.
  destruct (http_error_msg r =? "")%string; reflexivity.
Qed.

Lemma frames_response_json {St : Type} (r : Response) :
  frames (@response_json St r).
Proof. intros s w; reflexivity. Qed.

Lemma frames_datetime_now_strftime {St : Type} :
  frames (@datetime_now_strftime St).
Proof. intros s w; reflexivity. Qed.

Create HintDb frames.
#[local] Hint Resolve frames_ret frames_lift_outcome frames_get_self
  frames_requests_get frames_raise_for_status frames_response_json
  frames_datetime_now_strftime : frames.

Ltac frame_steps :=
  repeat first
    [ apply frames_try_except
    | apply frames_bind
    | match goal with
      | |- forall _, _ => intro
      | |- frames (if ?b then _ else _) => destruct b
      | |- frames (let _ := _ in _) => cbv zeta
      end
    | solve [auto with frames] ].

Lemma get_exchange_rates_frames (base : string) :
  frames (get_exchange_rates base).
Proof. unfold get_exchange_rates. frame_steps. Qed.

Lemma get_conversion_frames str_float amount from_currency to_currency :
  frames (get_conversion str_float amount from_currency to_currency).
Proof. unfold get_conversion. frame_steps. Qed.

Lemma prefix_head_neq (a b : ascii) (p s : string) :
  a <> b -> String.prefix (String a p) (String b s) = false.
Proof.
  intros Hab. simpl. destruct (ascii_dec a b); [contradiction | reflexivity].
Qed.

Lemma classify_network (m : string) :
  classify (PyStr ("Network error: " ++ m)) = Some NetworkError.
Proof. unfold classify. now rewrite prefix_app. Qed.

Lemma classify_generic (m : string) :
  classify (PyStr ("Error: " ++ m)) = Some ParseError.
Proof.
  unfold classify.
  rewrite (prefix_app "Error: " m).
  change ("Error: " ++ m) with (String "E" ("rror: " ++ m)).
  rewrite !prefix_head_neq by discriminate. reflexivity.
Qed.

Lemma classify_conversion (m : string) :
  classify (PyStr ("Conversion error: " ++ m)) = Some ConversionError.
Proof.
  unfold classify.
  rewrite (prefix_app "Conversion error: " m).
  change ("Conversion error: " ++ m) with (String "C" ("onversion error: " ++ m)).
  rewrite prefix_head_neq by discriminate. reflexivity.
Qed.

(** C9: [get_exchange_rates] does not touch the client: after every
    call, whether it gave a snapshot or an error, the tracker (its
    history, and its other fields) is the one the call started from. *)
Theorem get_exchange_rates_leaves_client_unchanged
  (base : string) (self : CurrencyTracker) (w : World) :
  snd (fst (get_exchange_rates base self w)) = self
  /\ history (snd (fst (get_exchange_rates base self w))) = history self.
Proof.
  pose proof (get_exchange_rates_frames base self w) as H.
  split; [exact H | now rewrite H].
Qed.

(** ** Running the fetch *)

Lemma get_exchange_rates_returns (base : string) (self : CurrencyTracker)
  (w : World) :
  exists r w', get_exchange_rates base self w = (Returned r, self, w').
Proof.
  unfold get_exchange_rates. run_method; eauto.
Qed.

Lemma get_exchange_rates_api_only (base : string)
  (self1 self2 : CurrencyTracker) (w : World) :
  api_url self1 = api_url self2 ->
  fst (fst (get_exchange_rates base self1 w))
    = fst (fst (get_exchange_rates base self2 w))
  /\ snd (get_exchange_rates base self1 w)
    = snd (get_exchange_rates base self2 w).
Proof.
  intros Hapi. unfold get_exchange_rates. unfold_monad. rewrite Hapi.
  repeat (break_inner; unfold_monad; cbn [fst snd]); split; reflexivity.
Qed.

Lemma fetch_trace_api_only (bases : list string) :
  forall (self1 self2 : CurrencyTracker) (w : World),
    api_url self1 = api_url self2 ->
    fetch_trace self1 w bases = fetch_trace self2 w bases.
Proof.
  induction bases as [|b bs IH]; intros self1 self2 w Hapi; [reflexivity|].
  simpl.
  destruct (get_exchange_rates_returns b self1 w) as (r1 & w1 & H1).
  destruct (get_exchange_rates_returns b self2 w) as (r2 & w2 & H2).
  destruct (get_exchange_rates_api_only b self1 self2 w Hapi) as [Hr Hw].
  rewrite H1, H2 in *. simpl in Hr, Hw.
  injection Hr as ->. subst w2.
  f_equal. now apply IH.
Qed.

Lemma fetch_trace_length (bases : list string) :
  forall (self : CurrencyTracker) (w : World),
    List.length (fetch_trace self w bases) = List.length bases.
Proof.
  induction bases as [|b bs IH]; intros self w; [reflexivity|].
  simpl. destruct (get_exchange_rates_returns b self w) as (r & w' & H).
  rewrite H. simpl. now rewrite IH.
Qed.

(** One refresh: the fetch's pair decides whether the history grows. *)
Lemma refresh_rates_step (g : GUI) (w : World) :
  exists r w' g',
    get_exchange_rates (base_currency_var g) (tracker g) w
      = (Returned r, tracker g, w')
    /\ refresh_rates g w = (Returned tt, g', w')
    /\ history (tracker g')
       = (history (tracker g) ++ (if succeeded r then [fst r] else []))%list
    /\ api_url (tracker g') = api_url (tracker g).
Proof.
  destruct (get_exchange_rates_returns (base_currency_var g) (tracker g) w)
    as (r & w' & H).
  exists r, w'.
  unfold refresh_rates. unfold_monad. cbn [base_currency_var set_refresh_btn tracker].
  rewrite H. destruct r as [rates_data error]. unfold succeeded. cbn [fst snd].
  destruct (truthy error); cbn [negb].
  - eexists. repeat split. cbn. now rewrite app_nil_r.
  - eexists. repeat split.
Qed.

Lemma refresh_session_history (bases : list string) :
  forall (g : GUI) (w : World),
    exists g' w',
      refresh_session bases g w = (Returned tt, g', w')
      /\ history (tracker g')
         = (history (tracker g)
              ++ snapshots_of (fetch_trace (tracker g) w bases))%list.
Proof.
  induction bases as [|b bs IH]; intros g w.
  - exists g, w. split; [reflexivity|]. cbn. now rewrite app_nil_r.
  - destruct (refresh_rates_step (set_base_currency_var b g) w)
      as (r & w1 & g1 & Hfetch & Hrefresh & Hhist & Hapi).
    cbn [base_currency_var tracker set_base_currency_var] in Hfetch, Hhist, Hapi.
    destruct (IH g1 w1) as (g2 & w2 & Hsession & Hhist2).
    exists g2, w2. split.
    + cbn [refresh_session]. unfold bind at 1. unfold modify_self at 1.
      unfold bind at 1. rewrite Hrefresh. exact Hsession.
    + rewrite Hhist2, Hhist.
      cbn [fetch_trace]. rewrite Hfetch.
      rewrite (fetch_trace_api_only bs (tracker g1) (tracker g) w1 Hapi).
      unfold snapshots_of. cbn [filter].
      destruct (succeeded r); cbn [map]; rewrite <- app_assoc; reflexivity.
Qed.

(** C4: over any session of refreshes, every call returns, the history
    ends as the starting history followed by the snapshots of the
    successful fetches in call order: its length grows by the number of
    successes (one per success, none per failure), and the N-th success
    (counting from 0) sits N places after the starting history, so at
    index N for a fresh tracker. *)
Theorem refresh_session_records_each_success_in_order
  (bases : list string) (g : GUI) (w : World) :
  let trace := fetch_trace (tracker g) w bases in
  exists g' w',
    refresh_session bases g w = (Returned tt, g', w')
    /\ List.length trace = List.length bases
    /\ history (tracker g')
       = (history (tracker g) ++ snapshots_of trace)%list
    /\ List.length (history (tracker g'))
       = (List.length (history (tracker g))
          + List.length (filter succeeded trace))%nat
    /\ forall N : nat,
         nth_error (history (tracker g'))
                   (List.length (history (tracker g)) + N)
         = nth_error (snapshots_of trace) N.
Proof.
  intros trace.
  destruct (refresh_session_history bases g w) as (g' & w' & Hrun & Hhist).
  exists g', w'. fold trace in Hhist.
  split; [exact Hrun|].
  split; [apply fetch_trace_length|].
  split; [exact Hhist|].
  split.
  - rewrite Hhist, length_app. unfold snapshots_of. now rewrite length_map.
  - intros N. rewrite Hhist.
    rewrite nth_error_app2 by lia.
    f_equal. lia.
Qed.

(** C10: [save_to_history] appends whatever it is given, [None]
    included, at the end of the history, which grows by one; it makes no
    test of its own. That only successful fetches are recorded comes from
    [refresh_rates], which calls it on the branch where the error is
    falsy and nowhere else. *)
Theorem save_to_history_appends_unconditionally
  (rates_data : pyval) (self : CurrencyTracker) (g : GUI) (w : World) :
  save_to_history rates_data self w
  = (Returned tt,
     mkTracker (api_url self) (base_currency self) (history self ++ [rates_data]),
     w)
  /\ List.length (history (snd (fst (save_to_history rates_data self w))))
     = S (List.length (history self))
  /\ history (snd (fst (save_to_history PyNone self w)))
     = (history self ++ [PyNone])%list
  /\ exists r w' g',
       get_exchange_rates (base_currency_var g) (tracker g) w
         = (Returned r, tracker g, w')
       /\ refresh_rates g w = (Returned tt, g', w')
       /\ history (tracker g')
          = (history (tracker g)
               ++ (if truthy (snd r) then [] else [fst r]))%list.
Proof.
  split; [reflexivity|].
  split; [cbn; rewrite length_app; cbn; lia|].
  split; [reflexivity|].
  destruct (refresh_rates_step g w) as (r & w' & g' & Hfetch & Hrun & Hhist & _).
  exists r, w', g'. repeat split; try assumption.
  rewrite Hhist. unfold succeeded. now destruct (truthy (snd r)).
Qed.


(** ** The status check *)

Lemma append_nonempty (a b : string) : b <> "" -> a ++ b <> "".
Proof. destruct a; simpl; [auto | discriminate]. Qed.

Ltac case_bounds :=
  repeat match goal with
  | |- context [?a <=? ?b] => destruct (Z.leb_spec a b)
  | |- context [?a <? ?b] => destruct (Z.ltb_spec a b)
  end; cbn [andb negb]; try lia.

Lemma http_error_msg_empty (r : Response) :
  (http_error_msg r =? "")%string
  = negb ((400 <=? status_code r) && (status_code r <? 600)).
Proof.
  unfold http_error_msg.
  case_bounds; try reflexivity;
    apply String.eqb_neq, append_nonempty; discriminate.
Qed.

Lemma is_2xx_passes (r : Response) :
  is_2xx r = true -> (400 <=? status_code r) && (status_code r <? 600) = false.
Proof. unfold is_2xx. case_bounds; congruence. Qed.

(** ** The two ways a fetch ends *)

Lemma get_exchange_rates_on_fault (base : string) (self : CurrencyTracker)
  (w : World) (e : exn) :
  fetch_fault (answer w (rates_request self base)) = Some e ->
  fst (fst (get_exchange_rates base self w))
  = Returned (PyNone, PyStr (fetch_error_text e)).
Proof.
  unfold fetch_fault, schema_fault, answer, rates_request, fetch_error_text.
  unfold get_exchange_rates. unfold_monad.
  destruct (transport w _ _) as [resp|e0]; reduce.
  - rewrite http_error_msg_empty.
    destruct ((400 <=? status_code resp) && (status_code resp <? 600)); reduce.
    + intros [= <-]. reflexivity.
    + destruct (body_json resp) as [data|e1]; reduce; [|caught].
      destruct (subscript data "base"); reduce; [|caught].
      destruct (subscript data "date"); reduce; [|caught].
      destruct (subscript data "rates"); reduce; [discriminate|caught].
  - caught.
Qed.

Lemma get_exchange_rates_on_success (base : string) (self : CurrencyTracker)
  (w : World) :
  fetch_fault (answer w (rates_request self base)) = None ->
  exists resp data d_base d_date d_rates,
    answer w (rates_request self base) = Returned resp
    /\ body_json resp = Returned data
    /\ subscript data "base" = Returned d_base
    /\ subscript data "date" = Returned d_date
    /\ subscript data "rates" = Returned d_rates
    /\ fst (fst (get_exchange_rates base self w))
       = Returned (PyDict [("base", d_base); ("date", d_date);
                           ("timestamp", PyStr (wall_clock w (clock_reads w)));
                           ("rates", d_rates)],
                   PyNone).
Proof.
  unfold fetch_fault, schema_fault, answer, rates_request.
  unfold get_exchange_rates. unfold_monad.
  destruct (transport w _ _) as [resp|e0]; reduce; [|discriminate].
  rewrite http_error_msg_empty.
  destruct ((400 <=? status_code resp) && (status_code resp <? 600));
    reduce; [discriminate|].
  destruct (body_json resp) as [data|e1] eqn:Hbody; reduce; [|discriminate].
  destruct (subscript data "base") as [d_base|] eqn:Hb; reduce; [|discriminate].
  destruct (subscript data "date") as [d_date|] eqn:Hd; reduce; [|discriminate].
  destruct (subscript data "rates") as [d_rates|] eqn:Hr; reduce; [|discriminate].
  intros _. exists resp, data, d_base, d_date, d_rates.
  repeat split; assumption.
Qed.

Lemma get_exchange_rates_sends (base : string) (self : CurrencyTracker)
  (w : World) :
  sent (snd (get_exchange_rates base self w))
  = (sent w ++ [rates_request self base])%list.
Proof.
  unfold get_exchange_rates, rates_request. run_method; reflexivity.
Qed.

(** ** The two ways a conversion ends *)

Section Conversion.

Variable str_float : spec_float -> string.

Lemma get_conversion_returns (amount : number) (from_currency to_currency : string)
  (self : CurrencyTracker) (w : World) :
  exists r w',
    get_conversion str_float amount from_currency to_currency self w
    = (Returned r, self, w').
Proof.
  unfold get_conversion. run_method; eauto.
Qed.

Lemma get_conversion_sends (amount : number) (from_currency to_currency : string)
  (self : CurrencyTracker) (w : World) :
  sent (snd (get_conversion str_float amount from_currency to_currency self w))
  = (sent w ++ [conversion_request str_float amount from_currency to_currency])%list.
Proof.
  unfold get_conversion, conversion_request. run_method; reflexivity.
Qed.

Lemma get_conversion_on_fault (amount : number) (from_currency to_currency : string)
  (self : CurrencyTracker) (w : World) (e : exn) :
  conversion_fault
    (answer w (conversion_request str_float amount from_currency to_currency))
    to_currency = Some e ->
  fst (fst (get_conversion str_float amount from_currency to_currency self w))
  = Returned (PyNone, PyStr ("Conversion error: " ++ exn_str e)).
Proof.
  unfold conversion_fault, answer, conversion_request.
  unfold get_conversion. unfold_monad.
  destruct (transport w _ _) as [resp|e0]; reduce; [|now intros [= <-]].
  rewrite http_error_msg_empty.
  destruct ((400 <=? status_code resp) && (status_code resp <? 600)); reduce;
    [now intros [= <-]|].
  destruct (body_json resp) as [data|e1]; reduce; [|now intros [= <-]].
  destruct (subscript data "rates") as [rates|e2]; reduce; [|now intros [= <-]].
  destruct (subscript rates to_currency); reduce;
    [discriminate | now intros [= <-]].
Qed.

Lemma get_conversion_on_success (amount : number)
  (from_currency to_currency : string) (self : CurrencyTracker) (w : World) :
  conversion_fault
    (answer w (conversion_request str_float amount from_currency to_currency))
    to_currency = None ->
  exists resp data rates v,
    answer w (conversion_request str_float amount from_currency to_currency)
      = Returned resp
    /\ body_json resp = Returned data
    /\ subscript data "rates" = Returned rates
    /\ subscript rates to_currency = Returned v
    /\ fst (fst (get_conversion str_float amount from_currency to_currency self w))
       = Returned (v, PyNone).
Proof.
  unfold conversion_fault, answer, conversion_request.
  unfold get_conversion. unfold_monad.
  destruct (transport w _ _) as [resp|e0]; reduce; [|discriminate].
  rewrite http_error_msg_empty.
  destruct ((400 <=? status_code resp) && (status_code resp <? 600)); reduce;
    [discriminate|].
  destruct (body_json resp) as [data|e1] eqn:Hbody; reduce; [|discriminate].
  destruct (subscript data "rates") as [rates|e2] eqn:Hr; reduce; [|discriminate].
  destruct (subscript rates to_currency) as [v|e3] eqn:Hv; reduce; [|discriminate].
  intros _. exists resp, data, rates, v. repeat split; assumption.
Qed.

End Conversion.

(** ** Results of the fetch, by kind of failure *)

Lemma transport_fault_fetch_fault (o : outcome Response) (msg : string) :
  transport_fault o = Some msg ->
  exists e, fetch_fault o = Some e
            /\ is_RequestException (exn_cls e) = true
            /\ exn_str e = msg.
Proof.
  unfold transport_fault, fetch_fault.
  destruct o as [resp|e].
  - destruct ((400 <=? status_code resp) && (status_code resp <? 600));
      [|discriminate].
    intros [= <-]. eexists. repeat split.
  - destruct (is_RequestException (exn_cls e)) eqn:Hcls; [|discriminate].
    intros [= <-]. exists e. repeat split. exact Hcls.
Qed.

Lemma schema_fault_of_json (data : pyval) (e : exn) :
  schema_fault (Returned data) = Some e ->
  is_RequestException (exn_cls e) = false.
Proof.
  assert (Hsub : forall k e', subscript data k = Raised e' ->
                  is_RequestException (exn_cls e') = false).
  { intros k e'. unfold subscript.
    destruct data as [| | [|] | | |d]; try (intros [= <-]; reflexivity).
    destruct (dict_get d k); [discriminate | intros [= <-]; reflexivity]. }
  unfold schema_fault.
  destruct (subscript data "base") eqn:Hb; [|intros [= <-]; eauto].
  destruct (subscript data "date") eqn:Hd; [|intros [= <-]; eauto].
  destruct (subscript data "rates") eqn:Hr; [discriminate|intros [= <-]; eauto].
Qed.

(** C2 (as amended): a transport-level failure of the fetch, with the
    statuses 400 to 599 as the failing ones, gives no snapshot and the
    message ["Network error: "] followed by the failure's own text. *)
Theorem transport_failure_gives_network_error
  (base : string) (self : CurrencyTracker) (w : World) (msg : string) :
  transport_fault (answer w (rates_request self base)) = Some msg ->
  fst (fst (get_exchange_rates base self w))
    = Returned (PyNone, PyStr ("Network error: " ++ msg))
  /\ classify (PyStr ("Network error: " ++ msg)) = Some NetworkError.
Proof.
  intros H.
  destruct (transport_fault_fetch_fault _ _ H) as (e & Hf & Hcls & Hmsg).
  split; [|apply classify_network].
  rewrite (get_exchange_rates_on_fault _ _ _ _ Hf).
  unfold fetch_error_text. now rewrite Hcls, Hmsg.
Qed.

(** C3 (as amended): on a 2xx response whose body does not read as the
    schema, the fetch returns the generic ["Error: "] message whenever
    the body is JSON, or the decoder's exception is not one of the
    transport library's. *)
Theorem unreadable_body_gives_generic_error
  (base : string) (self : CurrencyTracker) (w : World)
  (resp : Response) (e : exn) :
  answer w (rates_request self base) = Returned resp ->
  is_2xx resp = true ->
  schema_fault (body_json resp) = Some e ->
  (exists data, body_json resp = Returned data)
    \/ is_RequestException (exn_cls e) = false ->
  fst (fst (get_exchange_rates base self w))
    = Returned (PyNone, PyStr ("Error: " ++ exn_str e))
  /\ classify (PyStr ("Error: " ++ exn_str e)) = Some ParseError.
Proof.
  intros Hans H2xx Hschema Hkind.
  assert (Hcls : is_RequestException (exn_cls e) = false).
  { destruct Hkind as [[data Hdata]|Hcls]; [|exact Hcls].
    rewrite Hdata in Hschema. exact (schema_fault_of_json _ _ Hschema). }
  split; [|apply classify_generic].
  rewrite (get_exchange_rates_on_fault base self w e).
  - unfold fetch_error_text. now rewrite Hcls.
  - unfold fetch_fault. rewrite Hans, (is_2xx_passes _ H2xx). exact Hschema.
Qed.

Lemma fetch_error_text_kind (e : exn) :
  classify (PyStr (fetch_error_text e)) = Some NetworkError
  \/ classify (PyStr (fetch_error_text e)) = Some ParseError.
Proof.
  unfold fetch_error_text. destruct (is_RequestException (exn_cls e)).
  - left. apply classify_network.
  - right. apply classify_generic.
Qed.

Lemma run_from_result {A : Type} (m : M CurrencyTracker A)
  (self : CurrencyTracker) (w : World) (r r0 : A) (w' : World) :
  m self w = (Returned r0, self, w') ->
  fst (fst (m self w)) = Returned r ->
  m self w = (Returned r, self, w').
Proof.
  intros Hrun Hres. rewrite Hrun in Hres. cbn in Hres.
  injection Hres as <-. exact Hrun.
Qed.

(** C1 (as amended): neither operation raises or touches the client, and
    neither returns both a result and an error. [get_exchange_rates]
    returns exactly one of the two, its error being a network or a
    generic one. [get_conversion] returns a conversion error, or an
    answer without error whose value is the provider's entry for the
    target currency, which is a result unless that entry is null. *)
Theorem operations_return_a_pair_and_never_raise
  (str_float : spec_float -> string) (base : string) (amount : number)
  (from_currency to_currency : string) (self : CurrencyTracker) (w : World) :
  (exists r w',
     get_exchange_rates base self w = (Returned r, self, w')
     /\ exactly_one r = true
     /\ (snd r = PyNone
         \/ (fst r = PyNone
             /\ (classify (snd r) = Some NetworkError
                 \/ classify (snd r) = Some ParseError))))
  /\
  (exists r w',
     get_conversion str_float amount from_currency to_currency self w
       = (Returned r, self, w')
     /\ is_none (fst r) || is_none (snd r) = true
     /\ ((fst r = PyNone /\ classify (snd r) = Some ConversionError
          /\ exactly_one r = true)
         \/ (snd r = PyNone
             /\ exactly_one r = negb (is_none (fst r))
             /\ exists resp data rates,
                  answer w (conversion_request str_float amount
                                               from_currency to_currency)
                    = Returned resp
                  /\ body_json resp = Returned data
                  /\ subscript data "rates" = Returned rates
                  /\ subscript rates to_currency = Returned (fst r)))).
Proof.
  split.
  - destruct (get_exchange_rates_returns base self w) as (r0 & w' & Hrun).
    destruct (fetch_fault (answer w (rates_request self base))) as [e|] eqn:Hf.
    + exists (PyNone, PyStr (fetch_error_text e)), w'.
      split; [|split].
      * eapply run_from_result; eauto using get_exchange_rates_on_fault.
      * reflexivity.
      * right. split; [reflexivity | apply fetch_error_text_kind].
    + destruct (get_exchange_rates_on_success base self w Hf)
        as (resp & data & b & d & rs & _ & _ & _ & _ & _ & Hres).
      eexists; exists w'.
      split; [|split].
      * eapply run_from_result; eauto.
      * reflexivity.
      * left. reflexivity.
  - destruct (get_conversion_returns str_float amount from_currency to_currency
                self w) as (r0 & w' & Hrun).
    destruct (conversion_fault
                (answer w (conversion_request str_float amount
                             from_currency to_currency)) to_currency)
      as [e|] eqn:Hf.
    + exists (PyNone, PyStr ("Conversion error: " ++ exn_str e)), w'.
      split; [|split].
      * eapply run_from_result; eauto using get_conversion_on_fault.
      * reflexivity.
      * left. repeat split. apply classify_conversion.
    + destruct (get_conversion_on_success str_float amount from_currency
                  to_currency self w Hf)
        as (resp & data & rates & v & Hans & Hbody & Hrates & Hv & Hres).
      exists (v, PyNone), w'.
      split; [|split].
      * eapply run_from_result; eauto.
      * cbn. apply orb_true_r.
      * right. split; [reflexivity|]. split.
        -- unfold exactly_one. cbn. destruct (is_none v); reflexivity.
        -- exists resp, data, rates. auto.
Qed.

(** C5 (as amended): the fetch returns a classified error, or a snapshot
    whose [rates] entry is the value the provider sent under [rates],
    passed on as received. *)
Theorem fetch_returns_error_or_providers_rates
  (base : string) (self : CurrencyTracker) (w : World) :
  exists r w',
    get_exchange_rates base self w = (Returned r, self, w')
    /\ ((fst r = PyNone
         /\ (classify (snd r) = Some NetworkError
             \/ classify (snd r) = Some ParseError))
        \/ (snd r = PyNone
            /\ exists resp data rates,
                 answer w (rates_request self base) = Returned resp
                 /\ body_json resp = Returned data
                 /\ subscript data "rates" = Returned rates
                 /\ snapshot_rates (fst r) = Returned rates)).
Proof.
  destruct (get_exchange_rates_returns base self w) as (r0 & w' & Hrun).
  destruct (fetch_fault (answer w (rates_request self base))) as [e|] eqn:Hf.
  - exists (PyNone, PyStr (fetch_error_text e)), w'. split.
    + eapply run_from_result; eauto using get_exchange_rates_on_fault.
    + left. split; [reflexivity | apply fetch_error_text_kind].
  - destruct (get_exchange_rates_on_success base self w Hf)
      as (resp & data & b & d & rs & Hans & Hbody & _ & _ & Hrs & Hres).
    eexists; exists w'. split.
    + eapply run_from_result; eauto.
    + right. split; [reflexivity|].
      exists resp, data, rs. repeat split; assumption.
Qed.

(** C6 (as amended): both requests go out with [timeout=10]; when the
    transport reports that the bound was exceeded, the fetch returns a
    network error and the conversion a conversion error, each carrying
    the transport's text. *)
Theorem requests_carry_timeout_10_and_timeouts_are_reported
  (str_float : spec_float -> string) (base : string) (amount : number)
  (from_currency to_currency : string) (self : CurrencyTracker) (w : World) :
  (exists rq,
     sent (snd (get_exchange_rates base self w)) = (sent w ++ [rq])%list
     /\ req_timeout rq = 10)
  /\ (exists rq,
        sent (snd (get_conversion str_float amount from_currency to_currency
                     self w)) = (sent w ++ [rq])%list
        /\ req_timeout rq = 10)
  /\ (forall e : exn,
        exn_cls e = E_Timeout ->
        answer w (rates_request self base) = Raised e ->
        fst (fst (get_exchange_rates base self w))
          = Returned (PyNone, PyStr ("Network error: " ++ exn_str e))
        /\ classify (PyStr ("Network error: " ++ exn_str e))
           = Some NetworkError)
  /\ (forall e : exn,
        exn_cls e = E_Timeout ->
        answer w (conversion_request str_float amount from_currency to_currency)
          = Raised e ->
        fst (fst (get_conversion str_float amount from_currency to_currency
                    self w))
          = Returned (PyNone, PyStr ("Conversion error: " ++ exn_str e))
        /\ classify (PyStr ("Conversion error: " ++ exn_str e))
           = Some ConversionError).
Proof.
  repeat apply conj.
  - eexists. split; [apply get_exchange_rates_sends | reflexivity].
  - eexists. split; [apply get_conversion_sends | reflexivity].
  - intros e Hcls Hans. split; [|apply classify_network].
    rewrite (get_exchange_rates_on_fault base self w e).
    + unfold fetch_error_text. now rewrite Hcls.
    + unfold fetch_fault. now rewrite Hans.
  - intros e Hcls Hans. split; [|apply classify_conversion].
    apply get_conversion_on_fault.
    unfold conversion_fault. now rewrite Hans.
Qed.

(** C7 (as amended): every exception on the conversion path - the
    transport's, a status from 400 to 599, a body that does not decode,
    a missing [rates] or target key - gives the one message
    ["Conversion error: "] followed by the exception's text, whatever its
    class. *)
Theorem conversion_failure_gives_conversion_error
  (str_float : spec_float -> string) (amount : number)
  (from_currency to_currency : string) (self : CurrencyTracker) (w : World)
  (e : exn) :
  conversion_fault
    (answer w (conversion_request str_float amount from_currency to_currency))
    to_currency = Some e ->
  get_conversion str_float amount from_currency to_currency self w
    = (Returned (PyNone, PyStr ("Conversion error: " ++ exn_str e)), self,
       snd (get_conversion str_float amount from_currency to_currency self w))
  /\ classify (PyStr ("Conversion error: " ++ exn_str e)) = Some ConversionError.
Proof.
  intros Hf. split; [|apply classify_conversion].
  destruct (get_conversion_returns str_float amount from_currency to_currency
              self w) as (r0 & w' & Hrun).
  rewrite (run_from_result _ _ _ _ _ _ Hrun
             (get_conversion_on_fault _ _ _ _ _ _ _ Hf)).
  reflexivity.
Qed.

(** C8 (as amended): [get_conversion] has no case for equal currencies:
    the request goes out and the result is the provider's entry for the
    currency, whatever it is. The caller [convert_currency] sends no
    request for an equal pair: it reads the amount first, and then
    refuses the pair with a warning; when the amount is not a number it
    is the amount that is refused, by "Please enter a valid amount" for
    a [ValueError], and in no case is anything sent. *)
Theorem same_currency_is_delegated_and_the_caller_refuses_it
  (str_float : spec_float -> string)
  (py_float : string -> outcome spec_float)
  (format_2f : pyval -> outcome string)
  (amount : number) (X : string) (self : CurrencyTracker) (g : GUI)
  (w : World) :
  sent (snd (get_conversion str_float amount X X self w))
    = (sent w ++ [conversion_request str_float amount X X])%list
  /\ (conversion_fault (answer w (conversion_request str_float amount X X)) X
        = None ->
      exists resp data rates v,
        answer w (conversion_request str_float amount X X) = Returned resp
        /\ body_json resp = Returned data
        /\ subscript data "rates" = Returned rates
        /\ subscript rates X = Returned v
        /\ fst (fst (get_conversion str_float amount X X self w))
           = Returned (v, PyNone))
  /\ (from_currency_var g = to_currency_var g ->
      convert_currency str_float py_float format_2f g w
      = match py_float (amount_entry g) with
        | Returned _ =>
            (Returned tt,
             show_dialog
               (DlgWarning "Warning"
                  (PyStr "Please select different currencies")) g,
             w)
        | Raised e =>
            if is_ValueError (exn_cls e)
            then (Returned tt,
                  show_dialog
                    (DlgError "Error" (PyStr "Please enter a valid amount")) g,
                  w)
            else (Raised e, g, w)
        end).
Proof.
  split; [apply get_conversion_sends|].
  split; [apply get_conversion_on_success|].
  intros Heq.
  unfold convert_currency. unfold_monad.
  destruct (py_float (amount_entry g)) as [a|e].
  - rewrite Heq, String.eqb_refl. reflexivity.
  - now destruct (is_ValueError (exn_cls e)).
Qed.

(** ** The specification's scenarios *)

Example fetch_usd_scenario :
  fst (fst (get_exchange_rates "USD" CurrencyTracker_init
              (const_world (Returned (ok_response usd_rates_body)))))
  = Returned
      (PyDict [("base", PyStr "USD"); ("date", PyStr "2024-01-15");
               ("timestamp", PyStr "2024-01-15 12:00:00");
               ("rates", PyDict [("EUR", PyNum (Float f_0_92));
                                 ("GBP", PyNum (Float f_0_79))])],
       PyNone).
Proof. reflexivity. Qed.

Example convert_usd_eur_scenario :
  fst (fst (get_conversion no_float_text (Int 100) "USD" "EUR"
              CurrencyTracker_init
              (const_world (Returned (ok_response usd_eur_body)))))
  = Returned (PyNum (Float f_92_0), PyNone).
Proof. reflexivity. Qed.

Example conversion_url :
  req_url (conversion_request no_float_text (Int 100) "USD" "EUR")
  = "https://api.frankfurter.app/latest?amount=100&from=USD&to=EUR".
Proof. reflexivity. Qed.

(** A missing key is named as [repr] prints it, escapes included. *)
Example missing_key_is_named_by_its_repr :
  fst (fst (get_conversion no_float_text (Int 100) "USD" code_with_nbsp
              CurrencyTracker_init
              (const_world (Returned (ok_response usd_eur_body)))))
  = Returned (PyNone, PyStr "Conversion error: 'EU\xa0R'").
Proof. vm_compute. reflexivity. Qed.

(** ** Instances *)

Lemma transport_failure_gives_network_error_witness :
  transport_fault
    (answer (const_world (Raised unreachable))
            (rates_request CurrencyTracker_init "USD"))
  = Some (exn_str unreachable)
  /\ fst (fst (get_exchange_rates "USD" CurrencyTracker_init
                 (const_world (Raised unreachable))))
     = Returned (PyNone, PyStr ("Network error: " ++ exn_str unreachable))
  /\ classify (PyStr ("Network error: " ++ exn_str unreachable))
     = Some NetworkError.
Proof.
  split; [reflexivity|].
  apply (transport_failure_gives_network_error
           "USD" CurrencyTracker_init (const_world (Raised unreachable))).
  reflexivity.
Defined.

Lemma unreadable_body_gives_generic_error_witness :
  fst (fst (get_exchange_rates "USD" CurrencyTracker_init
              (const_world (Returned (ok_response unexpected_body)))))
  = Returned (PyNone, PyStr ("Error: " ++ "'base'"))
  /\ classify (PyStr ("Error: " ++ "'base'")) = Some ParseError.
Proof.
  apply (unreadable_body_gives_generic_error
           "USD" CurrencyTracker_init
           (const_world (Returned (ok_response unexpected_body)))
           (ok_response unexpected_body) (mkExn E_KeyError "'base'")).
  - reflexivity.
  - reflexivity.
  - reflexivity.
  - left. exists unexpected_body. reflexivity.
Defined.

Lemma requests_carry_timeout_10_and_timeouts_are_reported_witness :
  fst (fst (get_exchange_rates "USD" CurrencyTracker_init
              (const_world (Raised read_timed_out))))
  = Returned (PyNone, PyStr ("Network error: " ++ exn_str read_timed_out))
  /\ fst (fst (get_conversion no_float_text (Int 100) "USD" "EUR"
                 CurrencyTracker_init (const_world (Raised read_timed_out))))
     = Returned (PyNone, PyStr ("Conversion error: " ++ exn_str read_timed_out)).
Proof.
  destruct (requests_carry_timeout_10_and_timeouts_are_reported
              no_float_text "USD" (Int 100) "USD" "EUR" CurrencyTracker_init
              (const_world (Raised read_timed_out)))
    as (_ & _ & Hfetch & Hconvert).
  split.
  - apply (Hfetch read_timed_out); reflexivity.
  - apply (Hconvert read_timed_out); reflexivity.
Defined.

Lemma conversion_failure_gives_conversion_error_witness :
  conversion_fault
    (answer (const_world (Returned not_found_response))
            (conversion_request no_float_text (Int 100) "USD" "XXX"))
    "XXX"
  = Some (mkExn E_HTTPError
            "404 Client Error: Not Found for url: https://api.frankfurter.app/latest?amount=100&from=USD&to=XXX")
  /\ fst (fst (get_conversion no_float_text (Int 100) "USD" "XXX"
                 CurrencyTracker_init
                 (const_world (Returned not_found_response))))
     = Returned
         (PyNone,
          PyStr "Conversion error: 404 Client Error: Not Found for url: https://api.frankfurter.app/latest?amount=100&from=USD&to=XXX").
Proof.
  split; [reflexivity|].
  pose proof (conversion_failure_gives_conversion_error
                no_float_text (Int 100) "USD" "XXX" CurrencyTracker_init
                (const_world (Returned not_found_response))
                (mkExn E_HTTPError (http_error_msg not_found_response))
                eq_refl) as [Hrun _].
  rewrite Hrun. reflexivity.
Defined.

Lemma same_currency_is_delegated_and_the_caller_refuses_it_witness :
  (exists v,
     fst (fst (get_conversion no_float_text (Int 1) "USD" "USD"
                 CurrencyTracker_init
                 (const_world (Returned (ok_response usd_usd_body)))))
     = Returned (v, PyNone))
  /\ convert_currency no_float_text (fun _ => Returned f_1_0)
       (fun _ => Returned "1.00") same_pair_gui
       (const_world (Returned (ok_response usd_usd_body)))
     = (Returned tt,
        show_dialog
          (DlgWarning "Warning" (PyStr "Please select different currencies"))
          same_pair_gui,
        const_world (Returned (ok_response usd_usd_body)))
  /\ convert_currency no_float_text
       (fun _ => Raised (mkExn E_ValueError "could not convert string to float"))
       (fun _ => Returned "1.00") same_pair_gui
       (const_world (Returned (ok_response usd_usd_body)))
     = (Returned tt,
        show_dialog
          (DlgError "Error" (PyStr "Please enter a valid amount"))
          same_pair_gui,
        const_world (Returned (ok_response usd_usd_body))).
Proof.
  split; [|split].
  - destruct (same_currency_is_delegated_and_the_caller_refuses_it
                no_float_text (fun _ => Returned f_1_0)
                (fun _ => Returned "1.00")
                (Int 1) "USD" CurrencyTracker_init same_pair_gui
                (const_world (Returned (ok_response usd_usd_body))))
      as (_ & Hprovider & _).
    destruct (Hprovider eq_refl) as (_ & _ & _ & v & _ & _ & _ & _ & Hres).
    exists v. exact Hres.
  - destruct (same_currency_is_delegated_and_the_caller_refuses_it
                no_float_text (fun _ => Returned f_1_0)
                (fun _ => Returned "1.00")
                (Int 1) "USD" CurrencyTracker_init same_pair_gui
                (const_world (Returned (ok_response usd_usd_body))))
      as (_ & _ & Hcaller).
    exact (Hcaller eq_refl).
  - destruct (same_currency_is_delegated_and_the_caller_refuses_it
                no_float_text
                (fun _ => Raised (mkExn E_ValueError
                                    "could not convert string to float"))
                (fun _ => Returned "1.00")
                (Int 1) "USD" CurrencyTracker_init same_pair_gui
                (const_world (Returned (ok_response usd_usd_body))))
      as (_ & _ & Hcaller).
    exact (Hcaller eq_refl).
Defined.

(** ** Where the statements of the specification fail *)

Lemma conversion_of_null_entry_returns_neither :
  fst (fst (get_conversion no_float_text (Int 100) "USD" "EUR"
              CurrencyTracker_init
              (const_world (Returned (ok_response null_entry_body)))))
  = Returned (PyNone, PyNone)
  /\ exactly_one (PyNone, PyNone) = false.
Proof. split; reflexivity. Qed.

Lemma status_300_fetch_returns_snapshot :
  is_2xx (multiple_choices usd_rates_body) = false
  /\ fst (fst (get_exchange_rates "USD" CurrencyTracker_init
                 (const_world (Returned (multiple_choices usd_rates_body)))))
     = Returned
         (PyDict [("base", PyStr "USD"); ("date", PyStr "2024-01-15");
                  ("timestamp", PyStr "2024-01-15 12:00:00");
                  ("rates", PyDict [("EUR", PyNum (Float f_0_92));
                                    ("GBP", PyNum (Float f_0_79))])],
          PyNone).
Proof. split; reflexivity. Qed.

Lemma not_json_body_gives_network_error :
  is_2xx not_json_response = true
  /\ schema_fault (body_json not_json_response)
     = Some (mkExn E_JSONDecodeError "Expecting value: line 1 column 1 (char 0)")
  /\ fst (fst (get_exchange_rates "USD" CurrencyTracker_init
                 (const_world (Returned not_json_response))))
     = Returned
         (PyNone,
          PyStr "Network error: Expecting value: line 1 column 1 (char 0)")
  /\ classify (PyStr "Network error: Expecting value: line 1 column 1 (char 0)")
     <> Some ParseError.
Proof. repeat split; try reflexivity. discriminate. Qed.

Lemma negative_rate_is_passed_on :
  exists snapshot rates,
    fst (fst (get_exchange_rates "USD" CurrencyTracker_init
                (const_world (Returned (ok_response negative_rate_body)))))
    = Returned (snapshot, PyNone)
    /\ snapshot_rates snapshot = Returned rates
    /\ rates_finite_positive rates = false.
Proof. do 2 eexists. repeat split. Qed.

Lemma conversion_timeout_is_a_conversion_error :
  exists message,
    fst (fst (get_conversion no_float_text (Int 100) "USD" "EUR"
                CurrencyTracker_init (const_world (Raised read_timed_out))))
    = Returned (PyNone, message)
    /\ classify message = Some ConversionError
    /\ classify message <> Some NetworkError.
Proof. eexists. repeat split. discriminate. Qed.

Lemma status_300_conversion_returns_value :
  is_2xx (multiple_choices usd_eur_body) = false
  /\ fst (fst (get_conversion no_float_text (Int 100) "USD" "EUR"
                 CurrencyTracker_init
                 (const_world (Returned (multiple_choices usd_eur_body)))))
     = Returned (PyNum (Float f_92_0), PyNone).
Proof. split; reflexivity. Qed.

Lemma same_currency_result_differs_from_amount :
  fst (fst (get_conversion no_float_text (Int 1) "USD" "USD"
              CurrencyTracker_init
              (const_world (Returned (ok_response usd_usd_body)))))
  = Returned (PyNum (Int 5), PyNone)
  /\ numerically_equal (PyNum (Int 5)) (PyNum (Int 1)) = false
  /\ fst (fst (get_conversion no_float_text (Int 1) "USD" "USD"
                 CurrencyTracker_init
                 (const_world (Returned unprocessable_response))))
     = Returned
         (PyNone,
          PyStr "Conversion error: 422 Client Error: Unprocessable Entity for url: https://api.frankfurter.app/latest?amount=1&from=USD&to=USD")
  /\ numerically_equal PyNone (PyNum (Int 1)) = false.
Proof. repeat split. Qed.

(** * More of the code *)

(** ** Parts of the state a computation leaves alone *)

Lemma preserves_ret {St X A : Type} (p : St -> X) (a : A) :
  preserves p (@ret St A a).
Proof. intros s w; reflexivity. Qed.

Lemma preserves_lift_outcome {St X A : Type} (p : St -> X) (o : outcome A) :
  preserves p (@lift_outcome St A o).
Proof. intros s w; reflexivity. Qed.

Lemma preserves_get_self {St X : Type} (p : St -> X) :
  preserves p (@get_self St).
Proof. intros s w; reflexivity. Qed.

Lemma preserves_modify_self {St X : Type} (p : St -> X) (f : St -> St) :
  (forall s, p (f s) = p s) -> preserves p (modify_self f).
Proof. intros Hf s w; apply Hf. Qed.

Lemma preserves_bind {St X A B : Type} (p : St -> X)
  (m : M St A) (k : A -> M St B) :
  preserves p m -> (forall a, preserves p (k a)) -> preserves p (bind m k).
Proof.
  intros Hm Hk s w. unfold bind.
  specialize (Hm s w).
  destruct (m s w) as [[o s'] w']; cbn in Hm.
  destruct o as [a|e]; [|exact Hm].
  rewrite <- Hm. apply Hk.
Qed.

Lemma preserves_try_except {St X A : Type} (p : St -> X)
  (body : M St A) (handler : exn -> M St A) :
  preserves p body -> (forall e, preserves p (handler e)) ->
  preserves p (try_except body handler).
Proof.
  intros Hb Hh s w. unfold try_except.
  specialize (Hb s w).
  destruct (body s w) as [[o s'] w']; cbn in Hb.
  destruct o as [a|e]; [exact Hb|].
  rewrite <- Hb. apply Hh.
Qed.

Lemma preserves_try_except_of {St X A : Type} (p : St -> X)
  (catches : exn_class -> bool) (body : M St A) (handler : exn -> M St A) :
  preserves p body -> (forall e, preserves p (handler e)) ->
  preserves p (try_except_of catches body handler).
Proof.
  intros Hb Hh s w. unfold try_except_of.
  specialize (Hb s w).
  destruct (body s w) as [[o s'] w']; cbn in Hb.
  destruct o as [a|e]; [exact Hb|].
  destruct (catches (exn_cls e)); [|exact Hb].
  rewrite <- Hb. apply Hh.
Qed.

Lemma preserves_on_field {St T X A : Type} (p : St -> X)
  (proj : St -> T) (upd : T -> St -> St) (m : M T A) :
  (forall t s, p (upd t s) = p s) -> preserves p (on_field proj upd m).
Proof.
  intros Hupd s w. unfold on_field.
  destruct (m (proj s) w) as [[o t'] w']. apply Hupd.
Qed.

(** The same through a field: what the inner computation keeps of the
    field, the outer one keeps of the whole. *)
Lemma preserves_on_field_inner {St T X A : Type} (q : T -> X)
  (proj : St -> T) (upd : T -> St -> St) (m : M T A) :
  (forall t s, proj (upd t s) = t) ->
  preserves q m -> preserves (fun s => q (proj s)) (on_field proj upd m).
Proof.
  intros Hget Hm s w. unfold on_field.
  specialize (Hm (proj s) w).
  destruct (m (proj s) w) as [[o t'] w']. cbn in *. now rewrite Hget.
Qed.

Lemma preserves_for_each {St X A : Type} (p : St -> X)
  (xs : list A) (body : A -> M St unit) :
  (forall x, preserves p (body x)) -> preserves p (for_each xs body).
Proof.
  intros Hbody. induction xs as [|x xs IH]; cbn [for_each].
  - apply preserves_ret.
  - apply preserves_bind; [apply Hbody | intros _; exact IH].
Qed.

Lemma preserves_requests_get {St X : Type} (p : St -> X) u params timeout :
  preserves p (@requests_get St u params timeout).
Proof. intros s w; reflexivity. Qed.

Lemma preserves_raise_for_status {St X : Type} (p : St -> X) (r : Response) :
  preserves p (@raise_for_status St r).
Proof.
  intros s w. unfold raise_for_status.
  destruct (http_error_msg r =? "")%string; reflexivity.
Qed.

Lemma preserves_datetime_now_strftime {St X : Type} (p : St -> X) :
  preserves p (@datetime_now_strftime St).
Proof. intros s w; reflexivity. Qed.

Lemma frames_preserves {St X A : Type} (p : St -> X) (m : M St A) :
  frames m -> preserves p m.
Proof. intros H s w. now rewrite H. Qed.

Create HintDb keeps.
#[local] Hint Resolve preserves_ret preserves_lift_outcome preserves_get_self
  preserves_requests_get preserves_raise_for_status
  preserves_datetime_now_strftime : keeps.

Ltac keep_steps :=
  repeat first
    [ apply preserves_try_except_of
    | apply preserves_try_except
    | apply preserves_bind
    | apply preserves_for_each
    | match goal with
      | |- forall _, _ => intro
      | |- preserves _ (if ?b then _ else _) => destruct b
      | |- preserves _ (let _ := _ in _) => cbv zeta
      | |- preserves _ (let '(_, _) := ?r in _) => destruct r
      | |- preserves _ (match ?o with Some _ => _ | None => _ end) => destruct o
      | |- preserves _ (match ?l with [] => _ | _ :: _ => _ end) => destruct l
      end
    | solve [auto with keeps]
    | solve [apply preserves_modify_self; intros; reflexivity]
    | solve [apply preserves_on_field; intros; reflexivity] ].

(** ** The client *)

Lemma truthy_fetch_error_text (e : exn) :
  truthy (PyStr (fetch_error_text e)) = true.
Proof.
  unfold fetch_error_text. now destruct (is_RequestException (exn_cls e)).
Qed.

(** X1: the test [if error:] that callers make is exact. The error
    component is truthy exactly when a step of the call raised, also when
    the exception's own text is empty, because the message always starts
    with the client's prefix; for the fetch, the result component is
    truthy exactly in the other case. *)
Theorem error_component_is_truthy_exactly_on_failure
  (str_float : spec_float -> string) (base : string) (amount : number)
  (from_currency to_currency : string) (self : CurrencyTracker) (w : World) :
  (exists r,
     fst (fst (get_exchange_rates base self w)) = Returned r
     /\ truthy (snd r)
        = match fetch_fault (answer w (rates_request self base)) with
          | Some _ => true
          | None => false
          end
     /\ truthy (fst r) = negb (truthy (snd r)))
  /\ (exists r,
        fst (fst (get_conversion str_float amount from_currency to_currency
                    self w)) = Returned r
        /\ truthy (snd r)
           = match conversion_fault
                     (answer w (conversion_request str_float amount
                                  from_currency to_currency)) to_currency with
             | Some _ => true
             | None => false
             end).
Proof.
  split.
  - destruct (fetch_fault (answer w (rates_request self base))) as [e|] eqn:Hf.
    + eexists. split; [eapply get_exchange_rates_on_fault; eauto|].
      cbn [fst snd]. rewrite truthy_fetch_error_text. split; reflexivity.
    + destruct (get_exchange_rates_on_success base self w Hf)
        as (resp & data & b & d & rs & _ & _ & _ & _ & _ & Hres).
      eexists. split; [exact Hres|]. split; reflexivity.
  - destruct (conversion_fault _ _) as [e|] eqn:Hf.
    + eexists. split; [eapply get_conversion_on_fault; eauto|]. reflexivity.
    + destruct (get_conversion_on_success str_float amount from_currency
                  to_currency self w Hf)
        as (resp & data & rates & v & _ & _ & _ & _ & Hres).
      eexists. split; [exact Hres|]. reflexivity.
Qed.

(** X2: a conversion does not read the tracker: whatever its [api_url],
    base currency and history, the same request goes out and the same
    pair comes back. *)
Theorem get_conversion_ignores_the_tracker
  (str_float : spec_float -> string) (amount : number)
  (from_currency to_currency : string) (self1 self2 : CurrencyTracker)
  (w : World) :
  fst (fst (get_conversion str_float amount from_currency to_currency self1 w))
  = fst (fst (get_conversion str_float amount from_currency to_currency self2 w))
  /\ snd (get_conversion str_float amount from_currency to_currency self1 w)
     = snd (get_conversion str_float amount from_currency to_currency self2 w)
  /\ req_url (conversion_request str_float amount from_currency to_currency)
     = "https://api.frankfurter.app/latest?amount="
         ++ str_number str_float amount
         ++ "&from=" ++ from_currency ++ "&to=" ++ to_currency.
Proof.
  unfold get_conversion. unfold_monad.
  repeat (break_inner; unfold_monad; cbn [fst snd]); repeat split; reflexivity.
Qed.

Lemma rates_request_api (self1 self2 : CurrencyTracker) (base : string) :
  api_url self1 = api_url self2 ->
  rates_request self1 base = rates_request self2 base.
Proof. unfold rates_request. now intros ->. Qed.

Lemma refresh_rates_sends (g : GUI) (w : World) :
  sent (snd (refresh_rates g w))
  = (sent w ++ [rates_request (tracker g) (base_currency_var g)])%list.
Proof.
  destruct (refresh_rates_step g w) as (r & w' & g' & Hfetch & Hrun & _).
  rewrite Hrun. cbn [snd].
  pose proof (get_exchange_rates_sends (base_currency_var g) (tracker g) w) as H.
  now rewrite Hfetch in H.
Qed.

(** X3: a session of refreshes sends one request per refresh and no
    more, in the order of the refreshes, each for the base selected at
    that refresh and to the tracker's [api_url]: nothing is retried,
    whatever the answers. *)
Theorem refresh_session_sends_one_request_per_refresh
  (bases : list string) (g : GUI) (w : World) :
  sent (snd (refresh_session bases g w))
  = (sent w ++ map (rates_request (tracker g)) bases)%list.
Proof.
  revert g w. induction bases as [|b bs IH]; intros g w.
  - cbn. now rewrite app_nil_r.
  - destruct (refresh_rates_step (set_base_currency_var b g) w)
      as (r & w1 & g1 & Hfetch & Hrun & _ & Hapi).
    pose proof (refresh_rates_sends (set_base_currency_var b g) w) as Hsent.
    rewrite Hrun in Hsent. cbn [snd] in Hsent.
    cbn [tracker base_currency_var set_base_currency_var] in Hsent, Hapi.
    cbn [refresh_session]. unfold bind at 1. unfold modify_self at 1.
    unfold bind at 1. rewrite Hrun.
    rewrite IH, Hsent. cbn [map]. rewrite <- app_assoc. cbn [app].
    do 2 f_equal.
    apply map_ext. intros b'. now apply rates_request_api.
Qed.

Lemma string_app_assoc (a b c : string) : (a ++ b) ++ c = a ++ (b ++ c).
Proof. induction a as [|x a IH]; cbn; [reflexivity | now rewrite IH]. Qed.

(** X4: [get_conversion] writes the currency codes into the URL as they
    are, without escaping: the one request it sends has that URL and no
    [params], and a code that holds ["&to="] moves the boundary between
    the two codes, so that calls with two different pairs send the very
    same request. [get_exchange_rates] does not build its URL from its
    argument: the request it sends has the tracker's [api_url] and the
    base apart, in [params]. *)
Theorem conversion_url_is_not_escaped
  (str_float : spec_float -> string) (amount : number)
  (a b c : string) (self : CurrencyTracker) (w : World) :
  sent (snd (get_conversion str_float amount a c self w))
    = (sent w
         ++ [mkRequest ("https://api.frankfurter.app/latest?amount="
                          ++ str_number str_float amount
                          ++ "&from=" ++ a ++ "&to=" ++ c) [] 10])%list
  /\ sent (snd (get_conversion str_float amount (a ++ "&to=" ++ b) c self w))
     = sent (snd (get_conversion str_float amount a (b ++ "&to=" ++ c) self w))
  /\ sent (snd (get_exchange_rates a self w))
     = (sent w ++ [mkRequest (api_url self) [("from", a)] 10])%list.
Proof.
  split; [apply get_conversion_sends|].
  split; [|apply get_exchange_rates_sends].
  rewrite !get_conversion_sends. do 2 f_equal.
  unfold conversion_request. f_equal.
  rewrite !string_app_assoc. reflexivity.
Qed.

(** ** The converter *)

Section Converter.

Variable str_float : spec_float -> string.
Variable py_float : string -> outcome spec_float.
Variable format_2f : pyval -> outcome string.

Local Abbreviation convert_currency' :=
  (convert_currency str_float py_float format_2f).

Lemma set_tracker_same (g : GUI) : set_tracker (tracker g) g = g.
Proof. now destruct g. Qed.

Lemma get_conversion_run (amount : number) (from_currency to_currency : string)
  (self : CurrencyTracker) (w : World) :
  exists r w',
    get_conversion str_float amount from_currency to_currency self w
      = (Returned r, self, w')
    /\ sent w'
       = (sent w ++ [conversion_request str_float amount
                       from_currency to_currency])%list
    /\ clock_reads w' = clock_reads w.
Proof.
  unfold get_conversion, conversion_request.
  run_method; do 2 eexists; repeat split; reflexivity.
Qed.

(** X5: an amount that [float] does not read stops the conversion before
    anything is sent: a [ValueError] brings the dialog "Please enter a
    valid amount" and leaves the window and the world as they were; an
    exception of another class leaves the callback. *)
Theorem unreadable_amount_sends_nothing (g : GUI) (w : World) (e : exn) :
  py_float (amount_entry g) = Raised e ->
  convert_currency' g w
  = if is_ValueError (exn_cls e)
    then (Returned tt,
          show_dialog (DlgError "Error" (PyStr "Please enter a valid amount")) g,
          w)
    else (Raised e, g, w).
Proof.
  intros Hfloat. unfold convert_currency. unfold_monad.
  rewrite Hfloat. now destruct (is_ValueError (exn_cls e)).
Qed.

(** X6: when the conversion fails, the user is shown the client's
    message in an error dialog, and the result label keeps the text of
    the conversion before: the window is otherwise untouched. *)
Theorem failed_conversion_shows_the_message_and_keeps_the_label
  (g : GUI) (w : World) (a : spec_float) (e : exn) :
  py_float (amount_entry g) = Returned a ->
  (from_currency_var g =? to_currency_var g)%string = false ->
  conversion_fault
    (answer w (conversion_request str_float (Float a)
                 (from_currency_var g) (to_currency_var g)))
    (to_currency_var g) = Some e ->
  convert_currency' g w
  = (Returned tt,
     show_dialog (DlgError "Error" (PyStr ("Conversion error: " ++ exn_str e))) g,
     snd (get_conversion str_float (Float a) (from_currency_var g)
            (to_currency_var g) (tracker g) w))
  /\ convert_result_label
       (show_dialog (DlgError "Error" (PyStr ("Conversion error: " ++ exn_str e))) g)
     = convert_result_label g.
Proof.
  intros Hfloat Hneq Hfault. split; [|reflexivity].
  destruct (get_conversion_run (Float a) (from_currency_var g)
              (to_currency_var g) (tracker g) w) as (r & w' & Hrun & _).
  pose proof (get_conversion_on_fault _ _ _ _ (tracker g) _ _ Hfault) as Hres.
  rewrite Hrun in Hres. cbn in Hres. injection Hres as ->.
  unfold convert_currency. unfold_monad.
  rewrite Hfloat, Hneq, Hrun. cbn. now rewrite set_tracker_same.
Qed.

(** X7: when the provider's value cannot be printed with two decimals,
    the failure is taken for one of the amount: a [ValueError] of the
    formatting (of a string, say) brings "Please enter a valid amount"
    although the amount was read; an exception of another class (a
    [TypeError] for null) leaves the callback. The label is not
    changed. *)
Theorem unprintable_result_is_reported_as_a_bad_amount
  (g : GUI) (w : World) (a : spec_float) (v : pyval) (a_txt : string)
  (e : exn) :
  py_float (amount_entry g) = Returned a ->
  (from_currency_var g =? to_currency_var g)%string = false ->
  fst (fst (get_conversion str_float (Float a) (from_currency_var g)
              (to_currency_var g) (tracker g) w)) = Returned (v, PyNone) ->
  format_2f (PyNum (Float a)) = Returned a_txt ->
  format_2f v = Raised e ->
  fst (convert_currency' g w)
  = if is_ValueError (exn_cls e)
    then (Returned tt,
          show_dialog (DlgError "Error" (PyStr "Please enter a valid amount")) g)
    else (Raised e, g).
Proof.
  intros Hfloat Hneq Hres Hfa Hfv.
  destruct (get_conversion_run (Float a) (from_currency_var g)
              (to_currency_var g) (tracker g) w) as (r & w' & Hrun & _).
  rewrite Hrun in Hres. cbn in Hres. injection Hres as ->.
  unfold convert_currency. unfold_monad.
  rewrite Hfloat, Hneq, Hrun. cbn. rewrite Hfa, Hfv, set_tracker_same.
  now destruct (is_ValueError (exn_cls e)).
Qed.

(** X8: whatever is typed and whatever the provider answers, a
    conversion leaves the tracker (so the history) and the current rates
    alone, does not read the clock, sends at most one request, with
    [timeout=10], and shows at most one dialog. *)
Theorem convert_currency_touches_little (g : GUI) (w : World) :
  let g' := snd (fst (convert_currency' g w)) in
  let w' := snd (convert_currency' g w) in
  tracker g' = tracker g
  /\ current_rates g' = current_rates g
  /\ clock_reads w' = clock_reads w
  /\ (sent w' = sent w
      \/ exists rq, sent w' = (sent w ++ [rq])%list /\ req_timeout rq = 10)
  /\ (dialogs g' = dialogs g
      \/ exists d, dialogs g' = (dialogs g ++ [d])%list).
Proof.
  unfold convert_currency. unfold_monad.
  destruct (py_float (amount_entry g)) as [a|e0]; cbn [fst snd].
  2:{ destruct (is_ValueError (exn_cls e0)); cbn; repeat split; eauto. }
  destruct (from_currency_var g =? to_currency_var g)%string; cbn [fst snd].
  { cbn. repeat split; eauto. }
  destruct (get_conversion_run (Float a) (from_currency_var g)
              (to_currency_var g) (tracker g) w)
    as ([result error] & w1 & Hrun & Hsent & Hclock).
  rewrite Hrun. cbn [fst snd]. rewrite set_tracker_same.
  assert (Hrq : sent w1 = sent w
                \/ exists rq, sent w1 = (sent w ++ [rq])%list
                              /\ req_timeout rq = 10).
  { right. eexists. split; [exact Hsent | reflexivity]. }
  destruct (truthy error); cbn [fst snd].
  { cbn. repeat split; eauto. }
  destruct (format_2f (PyNum (Float a))) as [a_txt|e1]; cbn [fst snd].
  2:{ destruct (is_ValueError (exn_cls e1)); cbn; repeat split; eauto. }
  destruct (format_2f result) as [r_txt|e2]; cbn [fst snd].
  2:{ destruct (is_ValueError (exn_cls e2)); cbn; repeat split; eauto. }
  cbn. repeat split; eauto.
Qed.

End Converter.

(** ** Computations that leave the world alone *)

Lemma quiet_ret {St A : Type} (a : A) : quiet (@ret St A a).
Proof. intros s w; reflexivity. Qed.

Lemma quiet_lift_outcome {St A : Type} (o : outcome A) :
  quiet (@lift_outcome St A o).
Proof. intros s w; reflexivity. Qed.

Lemma quiet_get_self {St : Type} : quiet (@get_self St).
Proof. intros s w; reflexivity. Qed.

Lemma quiet_modify_self {St : Type} (f : St -> St) : quiet (modify_self f).
Proof. intros s w; reflexivity. Qed.

Lemma quiet_bind {St A B : Type} (m : M St A) (k : A -> M St B) :
  quiet m -> (forall a, quiet (k a)) -> quiet (bind m k).
Proof.
  intros Hm Hk s w. unfold bind.
  specialize (Hm s w).
  destruct (m s w) as [[o s'] w']; cbn in Hm; subst w'.
  destruct o as [a|e]; [apply Hk | reflexivity].
Qed.

Lemma quiet_try_except {St A : Type} (body : M St A) (handler : exn -> M St A) :
  quiet body -> (forall e, quiet (handler e)) -> quiet (try_except body handler).
Proof.
  intros Hb Hh s w. unfold try_except.
  specialize (Hb s w).
  destruct (body s w) as [[o s'] w']; cbn in Hb; subst w'.
  destruct o as [a|e]; [reflexivity | apply Hh].
Qed.

Lemma quiet_on_field {St T A : Type}
  (proj : St -> T) (upd : T -> St -> St) (m : M T A) :
  quiet m -> quiet (on_field proj upd m).
Proof.
  intros Hm s w. unfold on_field.
  specialize (Hm (proj s) w).
  now destruct (m (proj s) w) as [[o t'] w'].
Qed.

Lemma quiet_for_each {St A : Type} (xs : list A) (body : A -> M St unit) :
  (forall x, quiet (body x)) -> quiet (for_each xs body).
Proof.
  intros Hbody. induction xs as [|x xs IH]; cbn [for_each].
  - apply quiet_ret.
  - apply quiet_bind; [apply Hbody | intros _; exact IH].
Qed.

Create HintDb quiets.
#[local] Hint Resolve quiet_ret quiet_lift_outcome quiet_get_self
  quiet_modify_self : quiets.

Ltac quiet_steps :=
  repeat first
    [ apply quiet_try_except
    | apply quiet_bind
    | apply quiet_for_each
    | apply quiet_on_field
    | match goal with
      | |- forall _, _ => intro
      | |- quiet (if ?b then _ else _) => destruct b
      | |- quiet (let _ := _ in _) => cbv zeta
      | |- quiet (match ?o with Some _ => _ | None => _ end) => destruct o
      end
    | solve [auto with quiets] ].

(** ** The rates table *)

Section Table.

Variable format_2f : pyval -> outcome string.
Variable format_4f : pyval -> outcome string.

Local Abbreviation rate_text' := (App.rate_text format_2f format_4f).
Local Abbreviation display_row' := (App.display_row format_2f format_4f).
Local Abbreviation update_rates_display' :=
  (App.update_rates_display format_2f format_4f).

Local Abbreviation shows' := (shows format_2f format_4f).

Lemma set_rates_tree_twice (x y : list App.tree_row) (s : App.Window) :
  App.set_rates_tree x (App.set_rates_tree y s) = App.set_rates_tree x s.
Proof. reflexivity. Qed.

Lemma set_rates_tree_same (s : App.Window) :
  App.set_rates_tree (App.rates_tree s) s = s.
Proof. now destruct s. Qed.

Lemma display_rows_of_dict (d : list (string * pyval)) (cs : list string) :
  (forall c v, In c cs -> dict_get d c = Some v ->
               exists txt, rate_text' v = Returned txt) ->
  forall (s : App.Window) (w : World),
  exists rows,
    for_each cs (display_row' (PyDict d)) s w
    = (Returned tt, App.set_rates_tree (App.rates_tree s ++ rows) s, w)
    /\ Forall2 (shows' d) (filter (in_dict d) cs) rows.
Proof.
  induction cs as [|c cs IH]; intros Htext s w.
  - exists []. split; [|constructor].
    cbn. now rewrite app_nil_r, set_rates_tree_same.
  - assert (Htext' : forall c' v, In c' cs -> dict_get d c' = Some v ->
                       exists txt, rate_text' v = Returned txt).
    { intros c' v Hin. apply Htext. now right. }
    cbn [for_each filter]. unfold in_dict at 1.
    unfold bind at 1. unfold App.display_row at 1. unfold_monad.
    cbn [py_contains subscript].
    destruct (dict_get d c) as [v|] eqn:Hget.
    + destruct (Htext c v (or_introl eq_refl) Hget) as [txt Htxt].
      rewrite Htxt.
      destruct (IH Htext'
                  (App.set_rates_tree
                     (App.rates_tree s
                        ++ [App.mkRow (App.names_get App.currency_names c)
                              txt "N/A"]) s) w)
        as (rows & Hrun & Hrows).
      eexists. split.
      * rewrite Hrun. cbn [App.rates_tree App.set_rates_tree].
        rewrite <- app_assoc. reflexivity.
      * constructor; [|exact Hrows].
        repeat split. exists v. split; [exact Hget | exact Htxt].
    + destruct (IH Htext' s w) as (rows & Hrun & Hrows).
      exists rows. split; [exact Hrun | exact Hrows].
Qed.

(** X9: the table is rebuilt from nothing at each redraw. When [rates]
    is a mapping whose displayed values can be printed, the rows are the
    currencies of the fixed list of twelve that the mapping holds, once
    each, in the order of that list, under their full names, with "N/A"
    for the change: never more than twelve, and never a currency outside
    the list, whatever the provider sent. *)
Theorem table_shows_the_listed_currencies_present
  (rates_data : pyval) (d : list (string * pyval)) (s : App.Window)
  (w : World) :
  subscript rates_data "rates" = Returned (PyDict d) ->
  (forall c v, In c App.display_currencies -> dict_get d c = Some v ->
               exists txt, rate_text' v = Returned txt) ->
  exists rows,
    update_rates_display' rates_data s w
    = (Returned tt, App.set_rates_tree rows s, w)
    /\ Forall2 (shows' d) (filter (in_dict d) App.display_currencies) rows
    /\ (List.length rows <= 12)%nat.
Proof.
  intros Hrates Htext.
  destruct (display_rows_of_dict d App.display_currencies Htext
              (App.set_rates_tree [] s) w) as (rows & Hrun & Hrows).
  exists rows. split; [|split; [exact Hrows|]].
  - unfold App.update_rates_display. unfold_monad. rewrite Hrates.
    cbn [fst snd]. exact Hrun.
  - rewrite <- (Forall2_length Hrows).
    etransitivity; [apply filter_length_le | reflexivity].
Qed.

End Table.

(** ** A refresh, whole *)

Section Refresh.

Variable str_float : spec_float -> string.
Variable format_2f : pyval -> outcome string.
Variable format_4f : pyval -> outcome string.

Local Abbreviation refresh' := (App.refresh_rates str_float format_2f format_4f).
Local Abbreviation display' := (App.update_rates_display format_2f format_4f).
Local Abbreviation schedule' :=
  (App.schedule_refresh str_float format_2f format_4f).

(* What [refresh_rates] does after [save_to_history]. *)
Let redraw (rates_data : pyval) : M App.Window unit :=
  display' rates_data ;;;
  d_base <- lift_outcome (subscript rates_data "base") ;;
  d_date <- lift_outcome (subscript rates_data "date") ;;
  modify_self (App.set_status_label
    ("✓ Rates updated successfully | Base: " ++ py_str str_float d_base
       ++ " | Date: " ++ py_str str_float d_date)) ;;;
  d_timestamp <- lift_outcome (subscript rates_data "timestamp") ;;
  modify_self (App.set_update_time_label
    ("Last updated: " ++ py_str str_float d_timestamp)) ;;;
  modify_self (App.set_export_btn true) ;;;
  App.on_gui (modify_self (set_refresh_btn true)).

(* The window once the snapshot is recorded. *)
Let recorded (rates_data : pyval) (s : App.Window) : App.Window :=
  App.set_status_label "Fetching exchange rates..."
    (App.set_gui
       (set_tracker
          (mkTracker (api_url (tracker (App.gui s)))
                     (base_currency (tracker (App.gui s)))
                     (history (tracker (App.gui s)) ++ [rates_data]))
          (set_current_rates rates_data (set_refresh_btn false (App.gui s))))
       s).

(* The window once a failed fetch is reported. *)
Let reported (error : pyval) (s : App.Window) : App.Window :=
  App.set_status_label ("Error: " ++ py_str str_float error)
    (App.set_gui
       (set_refresh_btn true (show_dialog (DlgError "Error" error) (App.gui s)))
       s).

Lemma refresh_split (s : App.Window) (w : World) (r : pyval * pyval)
  (w1 : World) :
  get_exchange_rates (base_currency_var (App.gui s)) (tracker (App.gui s)) w
    = (Returned r, tracker (App.gui s), w1) ->
  refresh' s w
  = if truthy (snd r) then (Returned tt, reported (snd r) s, w1)
    else redraw (fst r) (recorded (fst r) s) w1.
Proof.
  intros Hfetch. destruct r as [rates_data error]. cbn [fst snd].
  unfold App.refresh_rates, App.on_client, App.on_gui, on_tracker.
  unfold bind at 1. unfold on_field at 1. unfold modify_self at 1.
  unfold bind at 1. unfold modify_self at 1.
  unfold bind at 1. unfold get_self at 1.
  unfold bind at 1. unfold on_field at 1 2.
  cbn [App.gui App.set_gui App.set_status_label base_currency_var tracker
       set_refresh_btn fst snd].
  rewrite Hfetch.
  destruct (truthy error).
  - reflexivity.
  - reflexivity.
Qed.

Lemma display_keeps {X : Type} (p : App.Window -> X) (rates_data : pyval) :
  (forall x s, p (App.set_rates_tree x s) = p s) ->
  preserves p (display' rates_data).
Proof.
  intros Hp. unfold App.update_rates_display, App.display_row.
  keep_steps; apply preserves_modify_self; intros; apply Hp.
Qed.

Lemma display_quiet (rates_data : pyval) : quiet (display' rates_data).
Proof.
  unfold App.update_rates_display, App.display_row. quiet_steps.
Qed.

Lemma display_raises (rates_data rates : pyval) (e : exn)
  (s : App.Window) (w : World) :
  subscript rates_data "rates" = Returned rates ->
  py_contains "EUR" rates = Raised e ->
  display' rates_data s w = (Raised e, App.set_rates_tree [] s, w).
Proof.
  intros Hrates Hin.
  unfold App.update_rates_display, App.display_currencies.
  cbn [for_each]. unfold App.display_row at 1.
  unfold bind at 1. unfold modify_self at 1.
  unfold bind at 1. unfold lift_outcome at 1. rewrite Hrates.
  unfold bind at 1. unfold bind at 1. unfold lift_outcome at 1.
  rewrite Hin. reflexivity.
Qed.

Lemma redraw_quiet (rates_data : pyval) : quiet (redraw rates_data).
Proof.
  unfold redraw, App.on_gui, App.update_rates_display, App.display_row.
  quiet_steps.
Qed.

(* The redraw changes nothing of the modelled part but the state of the
   refresh button. *)
Lemma redraw_keeps_gui {X : Type} (q : GUI -> X) (rates_data : pyval) :
  (forall b g, q (set_refresh_btn b g) = q g) ->
  preserves (fun s => q (App.gui s)) (redraw rates_data).
Proof.
  intros Hq. unfold redraw.
  repeat first
    [ apply display_keeps; intros; reflexivity
    | apply preserves_bind
    | match goal with |- forall _, _ => intro end
    | solve [auto with keeps]
    | solve [apply preserves_modify_self; intros; reflexivity] ].
  unfold App.on_gui.
  apply (preserves_on_field_inner q App.gui App.set_gui); [reflexivity|].
  apply preserves_modify_self. intros; apply Hq.
Qed.

Lemma redraw_keeps {X : Type} (p : App.Window -> X) (rates_data : pyval) :
  (forall x s, p (App.set_rates_tree x s) = p s) ->
  (forall x s, p (App.set_status_label x s) = p s) ->
  (forall x s, p (App.set_update_time_label x s) = p s) ->
  (forall x s, p (App.set_export_btn x s) = p s) ->
  (forall x s, p (App.set_gui x s) = p s) ->
  preserves p (redraw rates_data).
Proof.
  intros H1 H2 H3 H4 H5. unfold redraw, App.on_gui.
  repeat first
    [ apply display_keeps; assumption
    | apply preserves_bind
    | match goal with |- forall _, _ => intro end
    | solve [auto with keeps]
    | solve [apply preserves_modify_self; intros; auto]
    | solve [apply preserves_on_field; intros; auto] ].
Qed.

(* A refresh leaves the queue of jobs and the auto-refresh flags
   alone. *)
Lemma refresh_keeps {X : Type} (p : App.Window -> X) :
  (forall x s, p (App.set_rates_tree x s) = p s) ->
  (forall x s, p (App.set_status_label x s) = p s) ->
  (forall x s, p (App.set_update_time_label x s) = p s) ->
  (forall x s, p (App.set_export_btn x s) = p s) ->
  (forall x s, p (App.set_gui x s) = p s) ->
  preserves p refresh'.
Proof.
  intros H1 H2 H3 H4 H5 s w.
  destruct (get_exchange_rates_returns (base_currency_var (App.gui s))
              (tracker (App.gui s)) w) as (r & w1 & Hfetch).
  rewrite (refresh_split s w r w1 Hfetch).
  destruct (truthy (snd r)).
  - cbn [fst snd]. unfold reported. now rewrite H2, H5.
  - rewrite (redraw_keeps p (fst r) H1 H2 H3 H4 H5).
    unfold recorded. now rewrite H2, H5.
Qed.

Lemma refresh_on_fault (s : App.Window) (w : World) (e : exn) :
  fetch_fault (answer w (rates_request (tracker (App.gui s))
                           (base_currency_var (App.gui s)))) = Some e ->
  refresh' s w
  = (Returned tt, reported (PyStr (fetch_error_text e)) s,
     snd (get_exchange_rates (base_currency_var (App.gui s))
            (tracker (App.gui s)) w)).
Proof.
  intros Hfault.
  destruct (get_exchange_rates_returns (base_currency_var (App.gui s))
              (tracker (App.gui s)) w) as (r & w1 & Hfetch).
  pose proof (get_exchange_rates_on_fault _ _ _ _ Hfault) as Hres.
  rewrite Hfetch in Hres. cbn in Hres. injection Hres as ->.
  rewrite (refresh_split s w _ w1 Hfetch), Hfetch.
  cbn [fst snd]. now rewrite truthy_fetch_error_text.
Qed.

Lemma refresh_on_unshowable (s : App.Window) (w : World)
  (snapshot rates : pyval) (e : exn) :
  fst (fst (get_exchange_rates (base_currency_var (App.gui s))
              (tracker (App.gui s)) w)) = Returned (snapshot, PyNone) ->
  subscript snapshot "rates" = Returned rates ->
  py_contains "EUR" rates = Raised e ->
  refresh' s w
  = (Raised e, App.set_rates_tree [] (recorded snapshot s),
     snd (get_exchange_rates (base_currency_var (App.gui s))
            (tracker (App.gui s)) w)).
Proof.
  intros Hres Hrates Hin.
  destruct (get_exchange_rates_returns (base_currency_var (App.gui s))
              (tracker (App.gui s)) w) as (r & w1 & Hfetch).
  rewrite Hfetch in Hres. cbn in Hres. injection Hres as ->.
  rewrite (refresh_split s w _ w1 Hfetch), Hfetch.
  cbn [fst snd truthy].
  unfold redraw. unfold bind at 1.
  now rewrite (display_raises snapshot rates e _ w1 Hrates Hin).
Qed.

(** X10: a refresh whose fetch fails changes nothing of what was on
    screen or on record: the history, the current rates, the table, the
    time label and the export button are as before; the status line and
    one error dialog carry the client's message and the refresh button
    is usable again. *)
Theorem failed_refresh_keeps_the_previous_data
  (s : App.Window) (w : World) (e : exn) :
  fetch_fault (answer w (rates_request (tracker (App.gui s))
                           (base_currency_var (App.gui s)))) = Some e ->
  let s' := snd (fst (refresh' s w)) in
  fst (fst (refresh' s w)) = Returned tt
  /\ tracker (App.gui s') = tracker (App.gui s)
  /\ current_rates (App.gui s') = current_rates (App.gui s)
  /\ App.rates_tree s' = App.rates_tree s
  /\ App.update_time_label s' = App.update_time_label s
  /\ App.export_btn_enabled s' = App.export_btn_enabled s
  /\ refresh_btn_enabled (App.gui s') = true
  /\ App.status_label s' = "Error: " ++ fetch_error_text e
  /\ dialogs (App.gui s')
     = (dialogs (App.gui s)
          ++ [DlgError "Error" (PyStr (fetch_error_text e))])%list.
Proof.
  intros Hfault. rewrite (refresh_on_fault s w e Hfault).
  cbn. repeat split.
Qed.

(** X11: when the snapshot's [rates] is not a container (null, a
    number), the redraw raises after the snapshot has been recorded: the
    refresh ends with that exception, the history and the current rates
    hold the snapshot, the table is empty, the export button is as
    before, and the refresh button stays disabled. *)
Theorem unshowable_rates_leave_the_refresh_button_disabled
  (s : App.Window) (w : World) (snapshot rates : pyval) (e : exn) :
  fst (fst (get_exchange_rates (base_currency_var (App.gui s))
              (tracker (App.gui s)) w)) = Returned (snapshot, PyNone) ->
  subscript snapshot "rates" = Returned rates ->
  py_contains "EUR" rates = Raised e ->
  let s' := snd (fst (refresh' s w)) in
  fst (fst (refresh' s w)) = Raised e
  /\ history (tracker (App.gui s'))
     = (history (tracker (App.gui s)) ++ [snapshot])%list
  /\ current_rates (App.gui s') = snapshot
  /\ App.rates_tree s' = []
  /\ App.export_btn_enabled s' = App.export_btn_enabled s
  /\ refresh_btn_enabled (App.gui s') = false.
Proof.
  intros Hres Hrates Hin.
  rewrite (refresh_on_unshowable s w snapshot rates e Hres Hrates Hin).
  cbn. repeat split.
Qed.

(** X12: for the tracker, the current rates, the dialogs and the world,
    the whole [refresh_rates] does what its part up to [save_to_history]
    does: what follows the recording only redraws. So what holds of the
    history for that part holds for the whole, also when the redraw
    raises. *)
Theorem redraw_does_not_reach_the_record (s : App.Window) (w : World) :
  let s' := snd (fst (refresh' s w)) in
  let g' := snd (fst (refresh_rates (App.gui s) w)) in
  tracker (App.gui s') = tracker g'
  /\ current_rates (App.gui s') = current_rates g'
  /\ dialogs (App.gui s') = dialogs g'
  /\ snd (refresh' s w) = snd (refresh_rates (App.gui s) w).
Proof.
  destruct (get_exchange_rates_returns (base_currency_var (App.gui s))
              (tracker (App.gui s)) w) as (r & w1 & Hfetch).
  rewrite (refresh_split s w r w1 Hfetch).
  unfold refresh_rates. unfold_monad.
  cbn [base_currency_var tracker set_refresh_btn]. rewrite Hfetch.
  destruct r as [rates_data error]. cbn [fst snd].
  destruct (truthy error).
  - cbn. repeat split.
  - cbn [fst snd]. rewrite (redraw_quiet rates_data).
    rewrite (redraw_keeps_gui tracker rates_data) by reflexivity.
    rewrite (redraw_keeps_gui current_rates rates_data) by reflexivity.
    rewrite (redraw_keeps_gui dialogs rates_data) by reflexivity.
    cbn. repeat split.
Qed.

Lemma schedule_when_on (s : App.Window) (w : World) :
  App.auto_refresh s = true ->
  schedule' s w
  = match refresh' s w with
    | (Returned _, s1, w1) =>
        (Returned tt,
         App.set_refresh_job (Some (App.after_count s))
           (App.set_after
              (App.after_queue s
                 ++ [App.mkTimer (App.after_count s) 60000
                       App.CallScheduleRefresh])
              (S (App.after_count s)) s1),
         w1)
    | (Raised e, s1, w1) => (Raised e, s1, w1)
    end.
Proof.
  intros Hon.
  pose proof (refresh_keeps App.after_queue
                ltac:(reflexivity) ltac:(reflexivity) ltac:(reflexivity)
                ltac:(reflexivity) ltac:(reflexivity) s w) as Hq.
  pose proof (refresh_keeps App.after_count
                ltac:(reflexivity) ltac:(reflexivity) ltac:(reflexivity)
                ltac:(reflexivity) ltac:(reflexivity) s w) as Hn.
  unfold App.schedule_refresh, App.tk_after. unfold_monad. rewrite Hon.
  destruct (refresh' s w) as [[[u|e] s1] w1]; cbn in Hq, Hn |- *.
  - now rewrite Hq, Hn.
  - reflexivity.
Qed.

(** X13: a failed fetch does not stop the auto-refresh. With
    auto-refresh on, [schedule_refresh] reports the failure as any
    refresh does and then queues exactly one job, for itself, 60000 ms
    ahead, and notes it as the refresh job. *)
Theorem auto_refresh_goes_on_after_a_failed_fetch
  (s : App.Window) (w : World) (e : exn) :
  App.auto_refresh s = true ->
  fetch_fault (answer w (rates_request (tracker (App.gui s))
                           (base_currency_var (App.gui s)))) = Some e ->
  let s' := snd (fst (schedule' s w)) in
  fst (fst (schedule' s w)) = Returned tt
  /\ App.after_queue s'
     = (App.after_queue s
          ++ [App.mkTimer (App.after_count s) 60000 App.CallScheduleRefresh])%list
  /\ App.refresh_job s' = Some (App.after_count s)
  /\ App.auto_refresh s' = true
  /\ dialogs (App.gui s')
     = (dialogs (App.gui s)
          ++ [DlgError "Error" (PyStr (fetch_error_text e))])%list.
Proof.
  intros Hon Hfault.
  rewrite (schedule_when_on s w Hon), (refresh_on_fault s w e Hfault).
  cbn. repeat split. exact Hon.
Qed.

(* A refresh that raises has recorded its snapshot and shown nothing. *)
Lemma refresh_raises_after_recording (s : App.Window) (w : World) (e : exn) :
  fst (fst (refresh' s w)) = Raised e ->
  dialogs (App.gui (snd (fst (refresh' s w)))) = dialogs (App.gui s)
  /\ exists snapshot,
       history (tracker (App.gui (snd (fst (refresh' s w)))))
         = (history (tracker (App.gui s)) ++ [snapshot])%list
       /\ current_rates (App.gui (snd (fst (refresh' s w)))) = snapshot.
Proof.
  destruct (get_exchange_rates_returns (base_currency_var (App.gui s))
              (tracker (App.gui s)) w) as (r & w1 & Hfetch).
  rewrite (refresh_split s w r w1 Hfetch).
  destruct (truthy (snd r)); [discriminate|].
  intros _.
  rewrite (redraw_keeps_gui dialogs (fst r)) by reflexivity.
  rewrite (redraw_keeps_gui tracker (fst r)) by reflexivity.
  rewrite (redraw_keeps_gui current_rates (fst r)) by reflexivity.
  split; [reflexivity|]. exists (fst r). split; reflexivity.
Qed.

(** X14: an exception in a refresh ends the auto-refresh without a
    word. [refresh_rates] raises only in the redraw, after the snapshot
    is recorded; whatever the exception, [schedule_refresh] is left by
    it before it queues the next job: the queue and the refresh job are
    as before, so no job is pending any more, although the flag is
    still set; and no dialog and no note has told the user. *)
Theorem auto_refresh_ends_when_the_redraw_raises
  (s : App.Window) (w : World) (e : exn) :
  App.auto_refresh s = true ->
  fst (fst (refresh' s w)) = Raised e ->
  let s' := snd (fst (schedule' s w)) in
  fst (fst (schedule' s w)) = Raised e
  /\ App.after_queue s' = App.after_queue s
  /\ App.refresh_job s' = App.refresh_job s
  /\ App.auto_refresh s' = true
  /\ dialogs (App.gui s') = dialogs (App.gui s)
  /\ App.infos s' = App.infos s
  /\ exists snapshot,
       history (tracker (App.gui s'))
         = (history (tracker (App.gui s)) ++ [snapshot])%list
       /\ current_rates (App.gui s') = snapshot.
Proof.
  intros Hon Hraise. cbv zeta.
  destruct (refresh_raises_after_recording s w e Hraise) as [Hdlg Hrec].
  pose proof (refresh_keeps App.after_queue
                ltac:(reflexivity) ltac:(reflexivity) ltac:(reflexivity)
                ltac:(reflexivity) ltac:(reflexivity) s w) as Hq.
  pose proof (refresh_keeps App.refresh_job
                ltac:(reflexivity) ltac:(reflexivity) ltac:(reflexivity)
                ltac:(reflexivity) ltac:(reflexivity) s w) as Hj.
  pose proof (refresh_keeps App.auto_refresh
                ltac:(reflexivity) ltac:(reflexivity) ltac:(reflexivity)
                ltac:(reflexivity) ltac:(reflexivity) s w) as Ha.
  pose proof (refresh_keeps App.infos
                ltac:(reflexivity) ltac:(reflexivity) ltac:(reflexivity)
                ltac:(reflexivity) ltac:(reflexivity) s w) as Hi.
  rewrite (schedule_when_on s w Hon).
  destruct (refresh' s w) as [[o s1] w1].
  cbn [fst snd] in *. subst o. cbn [fst snd].
  repeat split; try assumption. now rewrite Ha.
Qed.

Lemma fetch_success_shaped (base : string) (self : CurrencyTracker) (w : World)
  (r : pyval * pyval) :
  fst (fst (get_exchange_rates base self w)) = Returned r ->
  truthy (snd r) = false ->
  snapshot_shaped (fst r) = true.
Proof.
  intros Hres Hok.
  destruct (fetch_fault (answer w (rates_request self base))) as [e|] eqn:Hf.
  - rewrite (get_exchange_rates_on_fault base self w e Hf) in Hres.
    injection Hres as <-. cbn [snd] in Hok.
    now rewrite truthy_fetch_error_text in Hok.
  - destruct (get_exchange_rates_on_success base self w Hf)
      as (resp & data & b & d & rs & _ & _ & _ & _ & _ & Hres').
    rewrite Hres' in Hres. injection Hres as <-. reflexivity.
Qed.

(* What a refresh adds to the record: nothing, or one snapshot. *)
Lemma refresh_grown (s : App.Window) (w : World) :
  exists added, grown_by s (snd (fst (refresh' s w))) added.
Proof.
  destruct (get_exchange_rates_returns (base_currency_var (App.gui s))
              (tracker (App.gui s)) w) as (r & w1 & Hfetch).
  rewrite (refresh_split s w r w1 Hfetch).
  destruct (truthy (snd r)) eqn:Herr.
  - exists []. unfold grown_by. cbn. rewrite app_nil_r.
    repeat split; auto.
  - exists [fst r]. unfold grown_by.
    rewrite (redraw_keeps_gui tracker (fst r)) by reflexivity.
    rewrite (redraw_keeps_gui current_rates (fst r)) by reflexivity.
    cbn. repeat split.
    + constructor; [|constructor].
      apply (fetch_success_shaped (base_currency_var (App.gui s))
               (tracker (App.gui s)) w); [now rewrite Hfetch | exact Herr].
    + intros _. right. discriminate.
Qed.

Lemma grown_by_nothing (s s' : App.Window) :
  tracker (App.gui s') = tracker (App.gui s) ->
  current_rates (App.gui s') = current_rates (App.gui s) ->
  App.export_btn_enabled s' = App.export_btn_enabled s ->
  grown_by s s' [].
Proof.
  intros Ht Hc He. unfold grown_by. rewrite Ht, Hc, He, app_nil_r.
  repeat split; auto.
Qed.

Lemma schedule_grown (s : App.Window) (w : World) :
  exists added, grown_by s (snd (fst (schedule' s w))) added.
Proof.
  destruct (App.auto_refresh s) eqn:Hon.
  - rewrite (schedule_when_on s w Hon).
    destruct (refresh_grown s w) as [added Hgrown].
    exists added.
    destruct (refresh' s w) as [[[u|e] s1] w1]; exact Hgrown.
  - exists []. unfold App.schedule_refresh. unfold_monad. rewrite Hon.
    now apply grown_by_nothing.
Qed.

End Refresh.

(** ** The window under any sequence of events *)

Section Events.

Variable str_float : spec_float -> string.
Variable py_float : string -> outcome spec_float.
Variable format_2f : pyval -> outcome string.
Variable format_4f : pyval -> outcome string.
Variable pd_DataFrame : list pyval -> outcome unit.
Variable writer_enter : string -> outcome unit.
Variable to_excel : string -> string -> list pyval -> outcome unit.
Variable writer_exit : string -> bool -> outcome unit.

Local Abbreviation refresh' := (App.refresh_rates str_float format_2f format_4f).
Local Abbreviation schedule' :=
  (App.schedule_refresh str_float format_2f format_4f).
Local Abbreviation toggle' :=
  (App.toggle_auto_refresh str_float format_2f format_4f).
Local Abbreviation convert' := (App.convert str_float py_float format_2f).
Local Abbreviation export' :=
  (App.export_to_excel pd_DataFrame writer_enter to_excel writer_exit).
Local Abbreviation with_writer' := (App.with_writer writer_enter writer_exit).
Local Abbreviation handle' :=
  (App.handle str_float py_float format_2f format_4f
     pd_DataFrame writer_enter to_excel writer_exit).
Local Abbreviation run_events' :=
  (App.run_events str_float py_float format_2f format_4f
     pd_DataFrame writer_enter to_excel writer_exit).

Lemma with_writer_keeps {X : Type} (p : App.Window -> X) (filename : string)
  (body : M App.Window unit) :
  (forall c s, p (App.log_excel c s) = p s) ->
  preserves p body -> preserves p (with_writer' filename body).
Proof.
  intros Hlog Hbody. unfold App.with_writer.
  apply preserves_bind;
    [apply preserves_modify_self; intros; apply Hlog | intros _].
  apply preserves_bind; [apply preserves_lift_outcome | intros _].
  intros s w. specialize (Hbody s w).
  destruct (body s w) as [[[u|e] s1] w1]; cbn in Hbody |- *;
    now rewrite Hlog.
Qed.

(* The export changes the window only by its dialogs, its success notes
   and its log of calls into pandas. *)
Lemma export_keeps {X : Type} (p : App.Window -> X) :
  (forall c s, p (App.log_excel c s) = p s) ->
  (forall t m s, p (App.show_info t m s) = p s) ->
  (forall d s, p (App.set_gui (show_dialog d (App.gui s)) s) = p s) ->
  preserves p export'.
Proof.
  intros Hlog Hinfo Hdlg.
  assert (Hshow : forall d, preserves p
            (App.on_gui (modify_self (show_dialog d)))).
  { intros d s w. apply Hdlg. }
  unfold App.export_to_excel, App.make_frame, App.frame_to_excel,
    datetime_now_compact.
  repeat first
    [ apply Hshow
    | apply with_writer_keeps; [exact Hlog|]
    | apply preserves_try_except
    | apply preserves_bind
    | match goal with
      | |- forall _, _ => intro
      | |- preserves _ (if ?b then _ else _) => destruct b
      | |- preserves _ (let _ := _ in _) => cbv zeta
      | |- preserves _ (match ?l with [] => _ | _ :: _ => _ end) => destruct l
      end
    | solve [auto with keeps]
    | solve [apply preserves_modify_self; intros; auto] ].
Qed.

Lemma convert_keeps {X : Type} (p : App.Window -> X) :
  (forall g s, p (App.set_gui g s) = p s) -> preserves p convert'.
Proof.
  intros Hp. unfold App.convert, App.on_gui.
  apply preserves_on_field. exact Hp.
Qed.

Lemma convert_currency_keeps_tracker :
  preserves tracker (convert_currency str_float py_float format_2f).
Proof.
  unfold convert_currency.
  repeat first
    [ apply preserves_try_except_of
    | apply preserves_bind
    | match goal with
      | |- forall _, _ => intro
      | |- preserves _ (if ?b then _ else _) => destruct b
      | |- preserves _ (let _ := _ in _) => cbv zeta
      | |- preserves _ (let '(_, _) := ?r in _) => destruct r
      end
    | solve [auto with keeps]
    | solve [apply preserves_modify_self; intros; reflexivity] ].
  unfold on_tracker.
  apply (preserves_on_field_inner (fun t => t) tracker set_tracker);
    [reflexivity|].
  apply frames_preserves, get_conversion_frames.
Qed.

Lemma convert_currency_keeps_current_rates :
  preserves current_rates (convert_currency str_float py_float format_2f).
Proof. unfold convert_currency, on_tracker. keep_steps. Qed.

(** *** The auto-refresh jobs *)

Lemma tk_call_returns (m : M App.Window unit) (s : App.Window) (w : World) :
  fst (fst (App.tk_call m s w)) = Returned tt
  /\ snd (fst (App.tk_call m s w)) = snd (fst (m s w))
  /\ snd (App.tk_call m s w) = snd (m s w).
Proof.
  unfold App.tk_call, try_except, ret.
  destruct (m s w) as [[[[]|e] s1] w1]; repeat split.
Qed.

Lemma timers_ok_same (s s' : App.Window) :
  App.after_queue s' = App.after_queue s ->
  App.refresh_job s' = App.refresh_job s ->
  App.auto_refresh s' = App.auto_refresh s ->
  App.auto_refresh_var s' = App.auto_refresh_var s ->
  timers_ok s -> timers_ok s'.
Proof.
  unfold timers_ok, App.refresh_jobs. intros -> -> -> ->. auto.
Qed.

(* A callback that leaves the queue and the flags alone keeps them in
   order. *)
Lemma timers_ok_kept (m : M App.Window unit) (s : App.Window) (w : World) :
  preserves App.after_queue m -> preserves App.refresh_job m ->
  preserves App.auto_refresh m -> preserves App.auto_refresh_var m ->
  timers_ok s -> timers_ok (snd (fst (m s w))).
Proof.
  intros Hq Hj Ha Hv. apply timers_ok_same; [apply Hq|apply Hj|apply Ha|apply Hv].
Qed.

Lemma refresh_timers_ok (s : App.Window) (w : World) :
  timers_ok s -> timers_ok (snd (fst (refresh' s w))).
Proof.
  apply timers_ok_kept; apply refresh_keeps; reflexivity.
Qed.

Lemma refresh_jobs_without (id : nat) (q : list App.timer) :
  filter App.is_refresh_job
    (filter (fun t => negb (App.timer_id t =? id)%nat) q)
  = filter (fun t => negb (App.timer_id t =? id)%nat)
      (filter App.is_refresh_job q).
Proof.
  induction q as [|t q IH]; [reflexivity|].
  cbn [filter].
  destruct (negb (App.timer_id t =? id)%nat) eqn:Hid;
    destruct (App.is_refresh_job t) eqn:Hjob; cbn [filter];
    rewrite ?Hid, ?Hjob; now rewrite IH.
Qed.

Lemma cancel_refresh_jobs (id : nat) (s : App.Window) (w : World) :
  App.refresh_jobs (snd (fst (App.tk_after_cancel id s w)))
  = filter (fun t => negb (App.timer_id t =? id)%nat) (App.refresh_jobs s).
Proof. apply refresh_jobs_without. Qed.

Lemma schedule_timers_ok (s : App.Window) (w : World) :
  App.auto_refresh s = true ->
  App.auto_refresh_var s = true ->
  App.refresh_jobs s = [] ->
  timers_ok (snd (fst (schedule' s w))).
Proof.
  intros Hon Hvar Hjobs.
  rewrite (schedule_when_on str_float format_2f format_4f s w Hon).
  pose proof (refresh_keeps str_float format_2f format_4f App.after_queue
                ltac:(reflexivity) ltac:(reflexivity) ltac:(reflexivity)
                ltac:(reflexivity) ltac:(reflexivity) s w) as Hq.
  pose proof (refresh_keeps str_float format_2f format_4f App.auto_refresh
                ltac:(reflexivity) ltac:(reflexivity) ltac:(reflexivity)
                ltac:(reflexivity) ltac:(reflexivity) s w) as Ha.
  pose proof (refresh_keeps str_float format_2f format_4f App.auto_refresh_var
                ltac:(reflexivity) ltac:(reflexivity) ltac:(reflexivity)
                ltac:(reflexivity) ltac:(reflexivity) s w) as Hv.
  destruct (refresh' s w) as [[[u|e] s1] w1]; cbn in Hq, Ha, Hv |- *.
  - unfold timers_ok, App.refresh_jobs. cbn.
    rewrite Ha, Hv, Hon, Hvar. split; [reflexivity|]. right.
    split; [reflexivity|].
    rewrite filter_app. fold (App.refresh_jobs s). rewrite Hjobs. cbn.
    eexists. repeat split.
  - unfold timers_ok, App.refresh_jobs.
    rewrite Hq, Ha, Hv, Hon, Hvar. split; [reflexivity|]. left. exact Hjobs.
Qed.

Lemma toggle_timers_ok (s : App.Window) (w : World) :
  timers_ok s ->
  timers_ok
    (snd (fst (toggle'
                 (App.set_auto_refresh_var (negb (App.auto_refresh_var s)) s)
                 w))).
Proof.
  intros [Hsync Hjobs].
  unfold App.toggle_auto_refresh.
  unfold bind at 1. unfold get_self at 1.
  cbn [App.auto_refresh_var App.set_auto_refresh_var].
  destruct (App.auto_refresh_var s) eqn:Hvar; cbn [negb].
  - (* the box is cleared *)
    unfold_monad. cbn [App.refresh_job App.set_auto_refresh_var].
    destruct (App.refresh_job s) as [id|] eqn:Hjob; cbn [fst snd].
    + unfold timers_ok. split; [reflexivity|]. left.
      change (App.refresh_jobs
                (snd (fst (App.tk_after_cancel id
                             (App.set_refresh_job None
                                (App.set_auto_refresh false
                                   (App.set_auto_refresh_var false s))) w)))
              = []).
      rewrite cancel_refresh_jobs.
      change (App.refresh_jobs _) with (App.refresh_jobs s).
      destruct Hjobs as [->|(_ & t & -> & Hid & _)]; [reflexivity|].
      injection Hid as ->.
      cbn. now rewrite Nat.eqb_refl.
    + unfold timers_ok. split; [reflexivity|]. left.
      change (App.refresh_jobs s = []).
      destruct Hjobs as [->|(_ & t & _ & Hid & _)]; [reflexivity|].
      discriminate.
  - (* the box is ticked *)
    unfold bind at 1. unfold modify_self at 1.
    apply schedule_timers_ok; try reflexivity.
    change (App.refresh_jobs s = []).
    destruct Hjobs as [->|(Hon & _)]; [reflexivity|].
    rewrite Hsync in Hon. discriminate.
Qed.

Lemma find_job_found (id : nat) (q : list App.timer) (t : App.timer) :
  App.find_job id q = Some t -> In t q /\ App.timer_id t = id.
Proof.
  induction q as [|t0 q IH]; cbn; [discriminate|].
  destruct (App.timer_id t0 =? id)%nat eqn:Hid.
  - intros [= <-]. split; [now left | now apply Nat.eqb_eq].
  - intros H. destruct (IH H). split; [now right | assumption].
Qed.

(* The window once the job [id] has left the queue. *)
Let without_job (id : nat) (s : App.Window) : App.Window :=
  App.set_after
    (filter (fun t => negb (App.timer_id t =? id)%nat) (App.after_queue s))
    (App.after_count s) s.

Lemma handle_cases (ev : App.event) (s : App.Window) (w : World) :
  handle' ev s w
  = match ev with
    | App.PressRefresh =>
        if refresh_btn_enabled (App.gui s) then App.tk_call refresh' s w
        else (Returned tt, s, w)
    | App.PressConvert => App.tk_call convert' s w
    | App.PressExport =>
        if App.export_btn_enabled s then App.tk_call export' s w
        else (Returned tt, s, w)
    | App.TickAutoRefresh =>
        App.tk_call toggle'
          (App.set_auto_refresh_var (negb (App.auto_refresh_var s)) s) w
    | App.PickBase c =>
        (Returned tt, App.set_gui (set_base_currency_var c (App.gui s)) s, w)
    | App.PickFrom c =>
        (Returned tt, App.set_gui (App.set_from_currency_var c (App.gui s)) s, w)
    | App.PickTo c =>
        (Returned tt, App.set_gui (App.set_to_currency_var c (App.gui s)) s, w)
    | App.TypeAmount txt =>
        (Returned tt, App.set_gui (App.set_amount_entry txt (App.gui s)) s, w)
    | App.JobDue id =>
        match App.find_job id (App.after_queue s) with
        | Some t =>
            App.tk_call (App.run_callback str_float format_2f format_4f
                           (App.timer_callback t)) (without_job id s) w
        | None => (Returned tt, s, w)
        end
    end.
Proof.
  destruct ev as [| | | |c|c|c|txt|id]; cbn [App.handle]; try reflexivity.
  - unfold bind, get_self. now destruct (refresh_btn_enabled (App.gui s)).
  - unfold bind, get_self. now destruct (App.export_btn_enabled s).
  - unfold bind at 1. unfold get_self.
    now destruct (App.find_job id (App.after_queue s)).
Qed.

Lemma without_job_refresh_jobs (id : nat) (s : App.Window) :
  App.refresh_jobs (without_job id s)
  = filter (fun t => negb (App.timer_id t =? id)%nat) (App.refresh_jobs s).
Proof. apply refresh_jobs_without. Qed.

Lemma handle_timers_ok (ev : App.event) (s : App.Window) (w : World) :
  timers_ok s ->
  fst (fst (handle' ev s w)) = Returned tt
  /\ timers_ok (snd (fst (handle' ev s w))).
Proof.
  intros Hok. rewrite handle_cases.
  destruct ev as [| | | |c|c|c|txt|id].
  - (* the refresh button *)
    destruct (refresh_btn_enabled (App.gui s)); [|now split].
    destruct (tk_call_returns refresh' s w) as (-> & -> & _).
    split; [reflexivity | now apply refresh_timers_ok].
  - (* the convert button *)
    destruct (tk_call_returns convert' s w) as (-> & -> & _).
    split; [reflexivity|].
    apply timers_ok_kept; try apply convert_keeps; auto.
  - (* the export button *)
    destruct (App.export_btn_enabled s); [|now split].
    destruct (tk_call_returns export' s w) as (-> & -> & _).
    split; [reflexivity|].
    apply timers_ok_kept; try apply export_keeps; auto.
  - (* the auto-refresh box *)
    destruct (tk_call_returns toggle'
                (App.set_auto_refresh_var (negb (App.auto_refresh_var s)) s) w)
      as (-> & -> & _).
    split; [reflexivity | now apply toggle_timers_ok].
  - split; [reflexivity | exact Hok].
  - split; [reflexivity | exact Hok].
  - split; [reflexivity | exact Hok].
  - split; [reflexivity | exact Hok].
  - (* a job comes due *)
    destruct (App.find_job id (App.after_queue s)) as [t|] eqn:Hfind;
      [|now split].
    destruct (find_job_found _ _ _ Hfind) as [Hin Hid].
    destruct (tk_call_returns (App.run_callback str_float format_2f format_4f
                                 (App.timer_callback t)) (without_job id s) w)
      as (-> & -> & _).
    split; [reflexivity|].
    pose proof (without_job_refresh_jobs id s) as Hcancel.
    destruct Hok as [Hsync Hjobs].
    destruct (App.timer_callback t) eqn:Hcb; cbn [App.run_callback].
    + (* an auto-refresh job *)
      assert (Htin : In t (App.refresh_jobs s)).
      { unfold App.refresh_jobs. apply filter_In. split; [exact Hin|].
        unfold App.is_refresh_job. now rewrite Hcb. }
      destruct Hjobs as [Hnone|(Hon & t0 & Hone & _ & _)];
        [rewrite Hnone in Htin; contradiction|].
      rewrite Hone in Htin. destruct Htin as [->|[]].
      apply schedule_timers_ok.
      * exact Hon.
      * change (App.auto_refresh_var s = true). now rewrite <- Hsync.
      * rewrite Hcancel, Hone. cbn. now rewrite Hid, Nat.eqb_refl.
    + (* the first refresh *)
      apply refresh_timers_ok.
      unfold timers_ok. rewrite Hcancel.
      split; [exact Hsync|].
      destruct Hjobs as [->|(Hon & t0 & Hone & Hjob & Hms)]; [now left|].
      rewrite Hone. cbn.
      destruct (negb (App.timer_id t0 =? id)%nat); [|now left].
      right. split; [exact Hon|]. exists t0. repeat split; assumption.
Qed.

Lemma run_events_timers_ok (evs : list App.event) :
  forall (s : App.Window) (w : World),
    timers_ok s ->
    fst (fst (run_events' evs s w)) = Returned tt
    /\ timers_ok (snd (fst (run_events' evs s w))).
Proof.
  induction evs as [|ev evs IH]; intros s w Hok; [now split|].
  unfold App.run_events. cbn [for_each]. unfold bind.
  destruct (handle_timers_ok ev s w Hok) as [Hret Hok1].
  destruct (handle' ev s w) as [[o s1] w1]. cbn in Hret, Hok1. subst o.
  apply (IH s1 w1 Hok1).
Qed.

(** X15: however the user presses, ticks and types and whichever jobs
    come due in whatever order, from the opening of the window on, no
    event ends in an exception, at most one auto-refresh job is ever
    pending, it is 60000 ms ahead and is the one noted as the refresh
    job, and none is pending while auto-refresh is off. *)
Theorem at_most_one_auto_refresh_job_is_pending
  (evs : list App.event) (fetch_now : bool) (w : World) :
  let s' := snd (fst (run_events' evs (App.main_start fetch_now) w)) in
  fst (fst (run_events' evs (App.main_start fetch_now) w)) = Returned tt
  /\ (List.length (App.refresh_jobs s') <= 1)%nat
  /\ (App.auto_refresh s' = true \/ App.refresh_jobs s' = [])
  /\ Forall (fun t => App.timer_ms t = 60000
                      /\ App.refresh_job s' = Some (App.timer_id t))
            (App.refresh_jobs s')
  /\ App.auto_refresh s' = App.auto_refresh_var s'.
Proof.
  assert (Hstart : timers_ok (App.main_start fetch_now)).
  { destruct fetch_now; split; auto. }
  destruct (run_events_timers_ok evs _ w Hstart) as [Hret [Hsync Hjobs]].
  cbv zeta. split; [exact Hret|].
  destruct Hjobs as [Hnone|(Hon & t & Hone & Hjob & Hms)].
  - rewrite Hnone. cbn. repeat split; auto.
  - rewrite Hone. cbn. repeat split; auto.
Qed.

(** *** The record *)

Lemma last_cons {A : Type} (b : list A) :
  forall (y x : A), last (y :: b) x = last b y.
Proof.
  induction b as [|z b IH]; intros y x; [reflexivity|].
  change (last (z :: b) x = last (z :: b) y).
  now rewrite (IH z x), (IH z y).
Qed.

Lemma last_app_default {A : Type} (a b : list A) :
  forall x : A, last (a ++ b) x = last b (last a x).
Proof.
  induction a as [|y a IH]; intros x; [reflexivity|].
  change (last (y :: (a ++ b)) x = last b (last (y :: a) x)).
  now rewrite !last_cons, IH.
Qed.

Lemma grown_by_trans (s s1 s2 : App.Window) (a1 a2 : list pyval) :
  grown_by s s1 a1 -> grown_by s1 s2 a2 -> grown_by s s2 (a1 ++ a2).
Proof.
  intros (Hh1 & Hs1 & Hc1 & Ha1 & He1) (Hh2 & Hs2 & Hc2 & Ha2 & He2).
  unfold grown_by.
  rewrite Hh2, Hh1, Hc2, Hc1, Ha2, Ha1, app_assoc, last_app_default.
  repeat split; auto.
  - apply Forall_app. now split.
  - intros He. destruct (He2 He) as [He'|Hne].
    + destruct (He1 He') as [?|Hne]; [now left|].
      right. destruct a1; [contradiction | discriminate].
    + right. destruct a1; [exact Hne | discriminate].
Qed.

Lemma toggle_grown (s : App.Window) (w : World) :
  exists added, grown_by s (snd (fst (toggle' s w))) added.
Proof.
  unfold App.toggle_auto_refresh.
  unfold bind at 1. unfold get_self at 1.
  destruct (App.auto_refresh_var s).
  - unfold bind at 1. unfold modify_self at 1.
    destruct (schedule_grown str_float format_2f format_4f
                (App.set_auto_refresh true s) w) as [added Hgrown].
    exists added. exact Hgrown.
  - exists []. unfold_monad.
    destruct (App.refresh_job s); now apply grown_by_nothing.
Qed.

Lemma convert_grown (s : App.Window) (w : World) :
  grown_by s (snd (fst (convert' s w))) [].
Proof.
  apply grown_by_nothing.
  - apply (preserves_on_field_inner tracker App.gui App.set_gui);
      [reflexivity | apply convert_currency_keeps_tracker].
  - apply (preserves_on_field_inner current_rates App.gui App.set_gui);
      [reflexivity | apply convert_currency_keeps_current_rates].
  - apply (convert_keeps App.export_btn_enabled). reflexivity.
Qed.

Lemma export_grown (s : App.Window) (w : World) :
  grown_by s (snd (fst (export' s w))) [].
Proof.
  apply grown_by_nothing.
  - apply (export_keeps (fun s => tracker (App.gui s))); reflexivity.
  - apply (export_keeps (fun s => current_rates (App.gui s))); reflexivity.
  - apply (export_keeps App.export_btn_enabled); reflexivity.
Qed.

Lemma handle_returns (ev : App.event) (s : App.Window) (w : World) :
  fst (fst (handle' ev s w)) = Returned tt.
Proof.
  rewrite handle_cases.
  destruct ev as [| | | |c|c|c|txt|id]; try reflexivity;
    repeat match goal with
    | |- context [if ?b then _ else _] => destruct b
    | |- context [match ?o with Some _ => _ | None => _ end] => destruct o
    end;
    try reflexivity; apply tk_call_returns.
Qed.

Lemma handle_grown (ev : App.event) (s : App.Window) (w : World) :
  exists added, grown_by s (snd (fst (handle' ev s w))) added.
Proof.
  rewrite handle_cases.
  destruct ev as [| | | |c|c|c|txt|id].
  - destruct (refresh_btn_enabled (App.gui s));
      [|exists []; now apply grown_by_nothing].
    destruct (tk_call_returns refresh' s w) as (_ & -> & _).
    apply refresh_grown.
  - destruct (tk_call_returns convert' s w) as (_ & -> & _).
    exists []. apply convert_grown.
  - destruct (App.export_btn_enabled s);
      [|exists []; now apply grown_by_nothing].
    destruct (tk_call_returns export' s w) as (_ & -> & _).
    exists []. apply export_grown.
  - destruct (tk_call_returns toggle'
                (App.set_auto_refresh_var (negb (App.auto_refresh_var s)) s) w)
      as (_ & -> & _).
    destruct (toggle_grown
                (App.set_auto_refresh_var (negb (App.auto_refresh_var s)) s) w)
      as [added Hgrown].
    exists added. exact Hgrown.
  - exists []. now apply grown_by_nothing.
  - exists []. now apply grown_by_nothing.
  - exists []. now apply grown_by_nothing.
  - exists []. now apply grown_by_nothing.
  - destruct (App.find_job id (App.after_queue s)) as [t|];
      [|exists []; now apply grown_by_nothing].
    destruct (tk_call_returns (App.run_callback str_float format_2f format_4f
                                 (App.timer_callback t)) (without_job id s) w)
      as (_ & -> & _).
    destruct (App.timer_callback t); cbn [App.run_callback].
    + destruct (schedule_grown str_float format_2f format_4f
                  (without_job id s) w) as [added Hgrown].
      exists added. exact Hgrown.
    + destruct (refresh_grown str_float format_2f format_4f
                  (without_job id s) w) as [added Hgrown].
      exists added. exact Hgrown.
Qed.

Lemma run_events_grown (evs : list App.event) :
  forall (s : App.Window) (w : World),
  exists added, grown_by s (snd (fst (run_events' evs s w))) added.
Proof.
  induction evs as [|ev evs IH]; intros s w.
  - exists []. now apply grown_by_nothing.
  - unfold App.run_events. cbn [for_each]. unfold bind.
    destruct (handle_grown ev s w) as [a1 H1].
    pose proof (handle_returns ev s w) as Hret.
    destruct (handle' ev s w) as [[o s1] w1]. cbn in H1, Hret. subst o.
    destruct (IH s1 w1) as [a2 H2].
    exists (a1 ++ a2)%list. exact (grown_by_trans _ _ _ _ _ H1 H2).
Qed.

Lemma shaped_truthy (v : pyval) : snapshot_shaped v = true -> truthy v = true.
Proof.
  destruct v as [| | | | |d]; try discriminate.
  destruct d; [discriminate | reflexivity].
Qed.

Lemma last_shaped (l : list pyval) (x : pyval) :
  Forall (fun v => snapshot_shaped v = true) l -> l <> [] ->
  snapshot_shaped (last l x) = true.
Proof.
  intros Hall Hne. destruct l as [|y l]; [contradiction|].
  clear Hne. revert y Hall. induction l as [|z l IH]; intros y Hall.
  - now inversion Hall.
  - change (snapshot_shaped (last (z :: l) x) = true).
    apply IH. now inversion Hall.
Qed.

(** X16: the record only grows. Whatever the events and whatever the
    window they start from, the history at the end is the history at the
    start followed by snapshots, all of the shape a fetch returns and
    none of them [None]; the current rates are the last snapshot added,
    or the ones at the start if none was; and the endpoint of the
    tracker is the same. Nothing in the window removes or rewrites an
    entry. *)
Theorem history_only_grows_by_snapshots
  (evs : list App.event) (s : App.Window) (w : World) :
  let s' := snd (fst (run_events' evs s w)) in
  exists added,
    history (tracker (App.gui s'))
      = (history (tracker (App.gui s)) ++ added)%list
    /\ Forall (fun v => snapshot_shaped v = true) added
    /\ current_rates (App.gui s') = last added (current_rates (App.gui s))
    /\ api_url (tracker (App.gui s')) = api_url (tracker (App.gui s)).
Proof.
  destruct (run_events_grown evs s w) as (added & Hh & Hs & Hc & Ha & _).
  exists added. repeat split; assumption.
Qed.

(** X17: from the opening of the window on, the current rates are
    always the last entry of the history ([None] while it is empty), and
    the export button is enabled only when there is a snapshot to
    export: pressed through the window, the export never meets the
    "No Data" case. *)
Theorem export_is_enabled_only_with_data
  (evs : list App.event) (fetch_now : bool) (w : World) :
  let s' := snd (fst (run_events' evs (App.main_start fetch_now) w)) in
  current_rates (App.gui s') = last (history (tracker (App.gui s'))) PyNone
  /\ Forall (fun v => snapshot_shaped v = true) (history (tracker (App.gui s')))
  /\ (App.export_btn_enabled s' = false
      \/ (snapshot_shaped (current_rates (App.gui s')) = true
          /\ truthy (current_rates (App.gui s')) = true)).
Proof.
  destruct (run_events_grown evs (App.main_start fetch_now) w)
    as (added & Hh & Hs & Hc & _ & He).
  assert (Hstart : history (tracker (App.gui (App.main_start fetch_now))) = []
                   /\ current_rates (App.gui (App.main_start fetch_now)) = PyNone
                   /\ App.export_btn_enabled (App.main_start fetch_now) = false).
  { now destruct fetch_now. }
  destruct Hstart as (Hh0 & Hc0 & He0).
  rewrite Hh0 in Hh. rewrite Hc0 in Hc. rewrite He0 in He. cbn [app] in Hh.
  cbv zeta. rewrite Hh, Hc. repeat split; [exact Hs|].
  destruct (App.export_btn_enabled _) eqn:Hbtn; [right | now left].
  destruct (He eq_refl) as [Habs|Hne]; [discriminate|].
  pose proof (last_shaped added PyNone Hs Hne) as Hshape.
  split; [exact Hshape | now apply shaped_truthy].
Qed.

(** *** The export *)

Lemma sends_nothing_bind {St A B : Type} (m : M St A) (k : A -> M St B) :
  sends_nothing m -> (forall a, sends_nothing (k a)) -> sends_nothing (bind m k).
Proof.
  intros Hm Hk s w. unfold bind.
  specialize (Hm s w).
  destruct (m s w) as [[[a|e] s1] w1]; cbn in Hm |- *; [|exact Hm].
  now rewrite Hk.
Qed.

Lemma sends_nothing_try_except {St A : Type}
  (body : M St A) (handler : exn -> M St A) :
  sends_nothing body -> (forall e, sends_nothing (handler e)) ->
  sends_nothing (try_except body handler).
Proof.
  intros Hb Hh s w. unfold try_except.
  specialize (Hb s w).
  destruct (body s w) as [[[a|e] s1] w1]; cbn in Hb |- *; [exact Hb|].
  now rewrite Hh.
Qed.

Lemma quiet_sends_nothing {St A : Type} (m : M St A) :
  quiet m -> sends_nothing m.
Proof. intros H s w. now rewrite H. Qed.

Lemma datetime_now_strftime_sends_nothing {St : Type} :
  sends_nothing (@datetime_now_strftime St).
Proof. intros s w; reflexivity. Qed.

Lemma with_writer_sends_nothing (filename : string) (body : M App.Window unit) :
  sends_nothing body -> sends_nothing (with_writer' filename body).
Proof.
  intros Hbody. unfold App.with_writer.
  apply sends_nothing_bind; [apply quiet_sends_nothing, quiet_modify_self|].
  intros _.
  apply sends_nothing_bind; [apply quiet_sends_nothing, quiet_lift_outcome|].
  intros _ s w. specialize (Hbody s w).
  now destruct (body s w) as [[[u|e] s1] w1].
Qed.

Lemma export_sends_nothing : sends_nothing export'.
Proof.
  unfold App.export_to_excel, App.make_frame, App.frame_to_excel,
    datetime_now_compact, App.on_gui.
  repeat first
    [ apply with_writer_sends_nothing
    | apply sends_nothing_try_except
    | apply sends_nothing_bind
    | apply datetime_now_strftime_sends_nothing
    | match goal with
      | |- forall _, _ => intro
      | |- sends_nothing (if ?b then _ else _) => destruct b
      | |- sends_nothing (let _ := _ in _) => cbv zeta
      | |- sends_nothing (match ?l with [] => _ | _ :: _ => _ end) => destruct l
      end
    | solve [apply quiet_sends_nothing; quiet_steps] ].
Qed.

Lemma notes_success_bind {A : Type} (m : M App.Window A)
  (k : A -> M App.Window unit) :
  preserves (fun s => dialogs (App.gui s)) m -> preserves App.infos m ->
  (forall a, notes_success (k a)) -> notes_success (bind m k).
Proof.
  intros Hd Hi Hk s w. unfold bind.
  specialize (Hd s w). specialize (Hi s w).
  destruct (m s w) as [[[a|e] s1] w1]; cbn in Hd, Hi |- *.
  - rewrite <- Hd, <- Hi. apply Hk.
  - now split.
Qed.

Lemma notes_success_show_info (title message : string) :
  notes_success (modify_self (App.show_info title message)).
Proof. intros s w. cbn. split; [reflexivity | eauto]. Qed.

(* The [try] block of the export. *)
Lemma export_body_notes_success (current : pyval) (hist : list pyval) :
  notes_success
    (base <- lift_outcome (subscript current "base") ;;
     c_rates <- lift_outcome (subscript current "rates") ;;
     items <- lift_outcome (py_items c_rates) ;;
     rates_list <-
       lift_outcome (App.collect (App.current_row current base) items []) ;;
     App.make_frame pd_DataFrame rates_list ;;;
     stamp <- datetime_now_compact ;;
     let filename := "exchange_rates_" ++ stamp ++ ".xlsx" in
     with_writer' filename
       (App.frame_to_excel to_excel filename "Current Rates" rates_list ;;;
        match hist with
        | [] => ret tt
        | _ :: _ =>
            history_list <- lift_outcome (App.history_rows hist []) ;;
            App.make_frame pd_DataFrame history_list ;;;
            App.frame_to_excel to_excel filename "History" history_list
        end) ;;;
     modify_self (App.show_info "Success"
       ("Exported exchange rates to:" ++ newline ++ filename))).
Proof.
  unfold App.make_frame, App.frame_to_excel, datetime_now_compact.
  repeat first
    [ apply notes_success_show_info
    | apply notes_success_bind
    | apply with_writer_keeps; [reflexivity|]
    | apply preserves_bind
    | match goal with
      | |- forall _, _ => intro
      | |- notes_success (let _ := _ in _) => cbv zeta
      | |- preserves _ (match ?l with [] => _ | _ :: _ => _ end) => destruct l
      end
    | solve [auto with keeps]
    | solve [apply preserves_modify_self; intros; reflexivity] ].
Qed.

Lemma export_cases (s : App.Window) (w : World) :
  export' s w
  = if negb (truthy (current_rates (App.gui s))) then
      (Returned tt,
       App.set_gui
         (show_dialog (DlgWarning "No Data" (PyStr "No rates to export!"))
            (App.gui s)) s,
       w)
    else
      try_except
        (base <- lift_outcome (subscript (current_rates (App.gui s)) "base") ;;
         c_rates <-
           lift_outcome (subscript (current_rates (App.gui s)) "rates") ;;
         items <- lift_outcome (py_items c_rates) ;;
         rates_list <-
           lift_outcome
             (App.collect (App.current_row (current_rates (App.gui s)) base)
                items []) ;;
         App.make_frame pd_DataFrame rates_list ;;;
         stamp <- datetime_now_compact ;;
         let filename := "exchange_rates_" ++ stamp ++ ".xlsx" in
         with_writer' filename
           (App.frame_to_excel to_excel filename "Current Rates" rates_list ;;;
            match history (tracker (App.gui s)) with
            | [] => ret tt
            | _ :: _ =>
                history_list <-
                  lift_outcome
                    (App.history_rows (history (tracker (App.gui s))) []) ;;
                App.make_frame pd_DataFrame history_list ;;;
                App.frame_to_excel to_excel filename "History" history_list
            end) ;;;
         modify_self (App.show_info "Success"
           ("Exported exchange rates to:" ++ newline ++ filename)))
        (fun e =>
           App.on_gui (modify_self (show_dialog
             (DlgError "Export Error"
                (PyStr ("Failed to export:" ++ newline ++ exn_str e))))))
        s w.
Proof.
  unfold App.export_to_excel. unfold bind at 1. unfold get_self at 1.
  now destruct (negb (truthy (current_rates (App.gui s)))).
Qed.

(** X18: the export never leaves its callback by an exception and makes
    no request. It tells its result by exactly one message - the "No
    Data" warning, the "Export Error" dialog with the exception's text,
    or the success note - and changes nothing else of the window: the
    tracker, the current rates, the table and the queue are as before.
    With nothing fetched it does not call pandas and does not read the
    clock. *)
Theorem export_ends_with_exactly_one_message (s : App.Window) (w : World) :
  let s' := snd (fst (export' s w)) in
  let w' := snd (export' s w) in
  fst (fst (export' s w)) = Returned tt
  /\ tracker (App.gui s') = tracker (App.gui s)
  /\ current_rates (App.gui s') = current_rates (App.gui s)
  /\ App.rates_tree s' = App.rates_tree s
  /\ App.after_queue s' = App.after_queue s
  /\ sent w' = sent w
  /\ ((App.infos s' = App.infos s
       /\ exists d, dialogs (App.gui s') = (dialogs (App.gui s) ++ [d])%list)
      \/ (dialogs (App.gui s') = dialogs (App.gui s)
          /\ exists i, App.infos s' = (App.infos s ++ [i])%list))
  /\ (truthy (current_rates (App.gui s)) = true
      \/ (App.excel_calls s' = App.excel_calls s /\ w' = w
          /\ dialogs (App.gui s')
             = (dialogs (App.gui s)
                  ++ [DlgWarning "No Data" (PyStr "No rates to export!")])%list)).
Proof.
  cbv zeta.
  split; [|split; [|split; [|split; [|split; [|split]]]]].
  - rewrite export_cases.
    destruct (negb (truthy (current_rates (App.gui s)))); [reflexivity|].
    unfold try_except.
    match goal with |- context [match ?b s w with _ => _ end] =>
      destruct (b s w) as [[[[]|e] s1] w1] end; reflexivity.
  - apply (export_keeps (fun s => tracker (App.gui s))); reflexivity.
  - apply (export_keeps (fun s => current_rates (App.gui s))); reflexivity.
  - apply (export_keeps App.rates_tree); reflexivity.
  - apply (export_keeps App.after_queue); reflexivity.
  - apply export_sends_nothing.
  - rewrite export_cases.
    destruct (negb (truthy (current_rates (App.gui s)))) eqn:Hnone.
    + split; [left; split; [reflexivity | eexists; reflexivity]|].
      right. repeat split.
    + split; [|left; now destruct (truthy (current_rates (App.gui s)))].
      unfold try_except.
      pose proof (export_body_notes_success (current_rates (App.gui s))
                    (history (tracker (App.gui s))) s w) as [Hd Hi].
      match goal with |- context [match ?b s w with _ => _ end] =>
        destruct (b s w) as [[[[]|e] s1] w1] end; cbn in Hd, Hi |- *.
      * right. split; [exact Hd | exact Hi].
      * left. split; [exact Hi|]. rewrite Hd. eauto.
Qed.

Lemma always_raises_bind_right {St A B : Type} (m : M St A) (k : A -> M St B) :
  (forall a, always_raises (k a)) -> always_raises (bind m k).
Proof.
  intros Hk s w. unfold bind.
  destruct (m s w) as [[[a|e] s1] w1]; [apply Hk | cbn; eauto].
Qed.

Lemma always_raises_bind_left {St A B : Type} (m : M St A) (k : A -> M St B) :
  always_raises m -> always_raises (bind m k).
Proof.
  intros Hm s w. unfold bind.
  destruct (Hm s w) as [e He].
  destruct (m s w) as [[[a|e0] s1] w1]; cbn in He; [discriminate | cbn; eauto].
Qed.

Lemma always_raises_with_writer (filename : string) (body : M App.Window unit) :
  always_raises body -> always_raises (with_writer' filename body).
Proof.
  intros Hbody. unfold App.with_writer.
  do 2 (apply always_raises_bind_right; intros _).
  intros s w. destruct (Hbody s w) as [e He].
  destruct (body s w) as [[[u|e0] s1] w1]; cbn in He; [discriminate|].
  cbn. destruct (writer_exit filename true); eauto.
Qed.

Lemma py_items_dict (v : pyval) (items : list (string * pyval)) :
  py_items v = Returned items -> v = PyDict items.
Proof. destruct v as [| | [|] | | |d]; cbn; try discriminate. now intros [= ->]. Qed.

Lemma history_rows_raises (records : list pyval) :
  (exists r, In r records
             /\ forall d, subscript r "rates" <> Returned (PyDict d)) ->
  forall acc, exists e, App.history_rows records acc = Raised e.
Proof.
  induction records as [|record records IH]; intros (r & Hin & Hbad) acc;
    [contradiction|].
  cbn [App.history_rows].
  destruct (subscript record "rates") as [rates|e] eqn:Hrates; [|eauto].
  destruct (py_items rates) as [items|e] eqn:Hitems; [|eauto].
  apply py_items_dict in Hitems. subst rates.
  destruct (App.collect _ items acc) as [acc'|e]; [|eauto].
  apply IH. exists r. split; [|exact Hbad].
  destruct Hin as [<-|Hin]; [|exact Hin].
  exfalso. exact (Hbad items Hrates).
Qed.

(** X19: one entry of the history whose [rates] is not a mapping (a
    snapshot of a null [rates], say) makes every export fail: whatever
    the current rates hold and whatever pandas does, the export ends
    with the "Export Error" dialog and never with the success note. As
    the history only grows, this lasts until the window is closed. *)
Theorem one_unreadable_record_fails_every_export (s : App.Window) (w : World) :
  truthy (current_rates (App.gui s)) = true ->
  (exists r, In r (history (tracker (App.gui s)))
             /\ forall d, subscript r "rates" <> Returned (PyDict d)) ->
  let s' := snd (fst (export' s w)) in
  App.infos s' = App.infos s
  /\ exists e,
       dialogs (App.gui s')
       = (dialogs (App.gui s)
            ++ [DlgError "Export Error"
                  (PyStr ("Failed to export:" ++ newline ++ exn_str e))])%list.
Proof.
  intros Hdata Hbad. cbv zeta.
  rewrite export_cases, Hdata. cbn [negb]. unfold try_except.
  pose proof (export_body_notes_success (current_rates (App.gui s))
                (history (tracker (App.gui s))) s w) as [Hd Hi].
  match goal with |- context [match ?b s w with _ => _ end] =>
    assert (Hraises : always_raises b)
  end.
  { do 6 (apply always_raises_bind_right; intro). cbv zeta.
    apply always_raises_bind_left, always_raises_with_writer.
    apply always_raises_bind_right; intros _.
    destruct (history_rows_raises _ Hbad []) as [e He].
    destruct Hbad as (r & Hin & _).
    destruct (history (tracker (App.gui s))) as [|r0 hist]; [contradiction|].
    apply always_raises_bind_left. intros s0 w0. exists e.
    unfold lift_outcome. now rewrite He. }
  destruct (Hraises s w) as [e He].
  match goal with |- context [match ?b s w with _ => _ end] =>
    destruct (b s w) as [[[[]|e0] s1] w1] end;
    cbn in He, Hd, Hi |- *; [discriminate|].
  split; [exact Hi|]. exists e0. now rewrite Hd.
Qed.

Lemma collect_map {A : Type} (row : A -> outcome pyval) (f : A -> pyval)
  (xs : list A) :
  (forall x, row x = Returned (f x)) ->
  forall acc, App.collect row xs acc = Returned (acc ++ map f xs)%list.
Proof.
  intros Hrow. induction xs as [|x xs IH]; intros acc; cbn.
  - now rewrite app_nil_r.
  - rewrite Hrow, IH, <- app_assoc. reflexivity.
Qed.

Lemma exportable_inv (v : pyval) :
  exportable v = true ->
  exists b d ts items,
    v = PyDict [("base", b); ("date", d); ("timestamp", PyStr ts);
                ("rates", PyDict items)].
Proof.
  unfold exportable. intros H.
  apply andb_prop in H as [Hshape Hrates].
  destruct v as [| | | | |l]; try discriminate.
  destruct l as [|[k1 b] [|[k2 d] [|[k3 [| | |ts| |]] [|[k4 r] [|]]]]];
    cbn [snapshot_shaped] in Hshape; try discriminate.
  apply andb_prop in Hshape as [Hkeys H4].
  apply andb_prop in Hkeys as [Hkeys H3].
  apply andb_prop in Hkeys as [H1 H2].
  apply String.eqb_eq in H1, H2, H3, H4. subst k1 k2 k3 k4.
  cbn in Hrates. destruct r as [| | | | |items]; try discriminate.
  now exists b, d, ts, items.
Qed.

Lemma history_rows_flat (records : list pyval) :
  Forall (fun v => exportable v = true) records ->
  forall acc,
    App.history_rows records acc
    = Returned (acc ++ flat_map record_rows records)%list.
Proof.
  induction 1 as [|v records Hv _ IH]; intros acc; cbn [App.history_rows flat_map].
  - now rewrite app_nil_r.
  - destruct (exportable_inv v Hv) as (b & d & ts & items & ->).
    cbn [subscript dict_get String.eqb Ascii.eqb Bool.eqb py_items].
    rewrite (collect_map _ (fun item => PyDict [("Base", b);
                                                ("Currency", PyStr (fst item));
                                                ("Rate", snd item);
                                                ("Date", d);
                                                ("Timestamp", PyStr ts)]))
      by reflexivity.
    rewrite IH, <- app_assoc. reflexivity.
Qed.

(** X20: on snapshots whose [rates] is a mapping, the loops of the
    export give the flattened tables: the [History] rows are, snapshot
    after snapshot in the order of the history, one row per entry of its
    [rates] in their order, each with the base, date and time of its
    snapshot; the [Current Rates] rows are the same for the current
    snapshot alone. *)
Theorem export_rows_are_the_flattened_history
  (records : list pyval) (current : pyval) :
  Forall (fun v => exportable v = true) records ->
  exportable current = true ->
  App.history_rows records [] = Returned (flat_map record_rows records)
  /\ List.length (flat_map record_rows records)
     = list_sum (map (fun v => List.length (record_rows v)) records)
  /\ exists base items,
       subscript current "base" = Returned base
       /\ subscript current "rates" = Returned (PyDict items)
       /\ App.collect (App.current_row current base) items []
          = Returned (current_rows current)
       /\ List.length (current_rows current) = List.length items.
Proof.
  intros Hrecords Hcurrent. split; [|split].
  - now rewrite history_rows_flat.
  - clear. induction records as [|v records IH]; [reflexivity|].
    cbn [flat_map map list_sum]. now rewrite length_app, IH.
  - destruct (exportable_inv current Hcurrent) as (b & d & ts & items & ->).
    exists b, items. repeat split.
    + now rewrite (collect_map _ (fun item =>
                     PyDict [("Base Currency", b);
                             ("Target Currency", PyStr (fst item));
                             ("Exchange Rate", snd item);
                             ("Date", d);
                             ("Timestamp", PyStr ts)])).
    + cbn. now rewrite length_map.
Qed.

End Events.

Section ExportSuccess.

Variable pd_DataFrame : list pyval -> outcome unit.
Variable writer_enter : string -> outcome unit.
Variable to_excel : string -> string -> list pyval -> outcome unit.
Variable writer_exit : string -> bool -> outcome unit.

Local Abbreviation export' :=
  (App.export_to_excel pd_DataFrame writer_enter to_excel writer_exit).

(** X21: when pandas does its part and the snapshots are of mappings,
    an export with a history writes one workbook, named after the clock
    at that moment, with the sheet [Current Rates] first and the sheet
    [History] second, each from the flattened rows, reads the clock once
    and notes the success with the file's name. *)
Theorem export_writes_current_rates_then_history (s : App.Window) (w : World) :
  exportable (current_rates (App.gui s)) = true ->
  Forall (fun v => exportable v = true) (history (tracker (App.gui s))) ->
  history (tracker (App.gui s)) <> [] ->
  (forall rows, pd_DataFrame rows = Returned tt) ->
  (forall f, writer_enter f = Returned tt) ->
  (forall f sheet rows, to_excel f sheet rows = Returned tt) ->
  (forall f raising, writer_exit f raising = Returned tt) ->
  let filename :=
    "exchange_rates_" ++ compact_stamp (wall_clock w (clock_reads w)) ++ ".xlsx" in
  let s' := snd (fst (export' s w)) in
  App.excel_calls s'
  = (App.excel_calls s
       ++ [App.MakeFrame (current_rows (current_rates (App.gui s)));
           App.OpenWriter filename;
           App.ToExcel filename "Current Rates"
             (current_rows (current_rates (App.gui s)));
           App.MakeFrame (flat_map record_rows (history (tracker (App.gui s))));
           App.ToExcel filename "History"
             (flat_map record_rows (history (tracker (App.gui s))));
           App.CloseWriter filename])%list
  /\ App.infos s'
     = (App.infos s
          ++ [("Success",
               ("Exported exchange rates to:" ++ newline ++ filename)%string)])%list
  /\ dialogs (App.gui s') = dialogs (App.gui s)
  /\ clock_reads (snd (export' s w)) = S (clock_reads w).
Proof.
  intros Hcurrent Hhist Hne Hframe Henter Hsheet Hexit.
  cbv zeta.
  rewrite (export_cases pd_DataFrame writer_enter to_excel writer_exit).
  assert (Htruthy : truthy (current_rates (App.gui s)) = true).
  { apply shaped_truthy. unfold exportable in Hcurrent.
    now apply andb_prop in Hcurrent. }
  rewrite Htruthy. cbn [negb].
  pose proof (history_rows_flat (history (tracker (App.gui s))) Hhist [])
    as Hrows.
  destruct (history (tracker (App.gui s))) as [|r0 hist] eqn:Hh;
    [contradiction|].
  destruct (exportable_inv _ Hcurrent) as (b & d & ts & items & Hc).
  rewrite Hc.
  unfold try_except, App.make_frame, App.frame_to_excel, App.with_writer,
    datetime_now_compact.
  unfold_monad.
  cbn [subscript dict_get String.eqb Ascii.eqb Bool.eqb py_items fst snd].
  rewrite (collect_map _ (fun item =>
             PyDict [("Base Currency", b);
                     ("Target Currency", PyStr (fst item));
                     ("Exchange Rate", snd item);
                     ("Date", d);
                     ("Timestamp", PyStr ts)])) by reflexivity.
  rewrite Hframe, Henter. cbn [fst snd].
  rewrite Hsheet, Hrows. cbn [fst snd].
  rewrite Hframe, Hsheet, Hexit. cbn [fst snd].
  cbn. rewrite <- !app_assoc. repeat split.
Qed.

End ExportSuccess.

(** ** Instances of the properties above *)

Lemma unreadable_amount_sends_nothing_witness :
  convert_currency no_float_text float_refuses format_numbers
    (set_amount_entry_text "abc") (const_world (Raised unreachable))
  = (Returned tt,
     show_dialog (DlgError "Error" (PyStr "Please enter a valid amount"))
       (set_amount_entry_text "abc"),
     const_world (Raised unreachable)).
Proof.
  exact (unreadable_amount_sends_nothing no_float_text float_refuses
           format_numbers (set_amount_entry_text "abc")
           (const_world (Raised unreachable))
           (mkExn E_ValueError "could not convert string to float: 'abc'")
           eq_refl).
Defined.

Lemma failed_conversion_shows_the_message_and_keeps_the_label_witness :
  dialogs
    (snd (fst (convert_currency no_float_text float_reads format_numbers
                 (App.gui App.Window_init)
                 (const_world (Returned not_found_response)))))
  = [DlgError "Error"
       (PyStr ("Conversion error: " ++ http_error_msg not_found_response))].
Proof.
  destruct (failed_conversion_shows_the_message_and_keeps_the_label
              no_float_text float_reads format_numbers
              (App.gui App.Window_init)
              (const_world (Returned not_found_response)) f_1_0
              (mkExn E_HTTPError (http_error_msg not_found_response))
              eq_refl eq_refl eq_refl) as [Hrun _].
  rewrite Hrun. reflexivity.
Defined.

Lemma unprintable_result_is_reported_as_a_bad_amount_witness :
  fst (convert_currency no_float_text float_reads format_numbers
         (App.gui App.Window_init)
         (const_world (Returned (ok_response text_entry_body))))
  = (Returned tt,
     show_dialog (DlgError "Error" (PyStr "Please enter a valid amount"))
       (App.gui App.Window_init)).
Proof.
  exact (unprintable_result_is_reported_as_a_bad_amount
           no_float_text float_reads format_numbers
           (App.gui App.Window_init)
           (const_world (Returned (ok_response text_entry_body)))
           f_1_0 (PyStr "n/a") "1.00"
           (mkExn E_ValueError "Unknown format code 'f' for object of type 'str'")
           eq_refl eq_refl eq_refl eq_refl eq_refl).
Defined.

Lemma table_shows_the_listed_currencies_present_witness :
  exists rows,
    App.update_rates_display format_numbers format_numbers usd_snapshot
      App.Window_init (const_world (Raised unreachable))
    = (Returned tt, App.set_rates_tree rows App.Window_init,
       const_world (Raised unreachable))
    /\ List.length rows = 2%nat.
Proof.
  destruct (table_shows_the_listed_currencies_present
              format_numbers format_numbers usd_snapshot
              [("EUR", PyNum (Float f_0_92)); ("GBP", PyNum (Float f_0_79))]
              App.Window_init (const_world (Raised unreachable)) eq_refl)
    as (rows & Hrun & Hrows & _).
  - intros c v _. cbn [dict_get].
    destruct ("EUR" =? c)%string; [intros [= <-]; eexists; reflexivity|].
    destruct ("GBP" =? c)%string; [intros [= <-]; eexists; reflexivity|].
    discriminate.
  - exists rows. split; [exact Hrun|].
    now rewrite <- (Forall2_length Hrows).
Defined.

Lemma failed_refresh_keeps_the_previous_data_witness :
  App.rates_tree
    (snd (fst (App.refresh_rates no_float_text format_numbers format_numbers
                 (window_with usd_snapshot)
                 (const_world (Raised unreachable)))))
  = App.rates_tree (window_with usd_snapshot)
  /\ App.status_label
       (snd (fst (App.refresh_rates no_float_text format_numbers format_numbers
                    (window_with usd_snapshot)
                    (const_world (Raised unreachable)))))
     = "Error: " ++ fetch_error_text unreachable.
Proof.
  destruct (failed_refresh_keeps_the_previous_data
              no_float_text format_numbers format_numbers
              (window_with usd_snapshot) (const_world (Raised unreachable))
              unreachable eq_refl)
    as (_ & _ & _ & Htree & _ & _ & _ & Hstatus & _).
  split; [exact Htree | exact Hstatus].
Defined.

Lemma unshowable_rates_leave_the_refresh_button_disabled_witness :
  fst (fst (App.refresh_rates no_float_text format_numbers format_numbers
              App.Window_init
              (const_world (Returned (ok_response null_rates_body)))))
  = Raised not_iterable
  /\ refresh_btn_enabled
       (App.gui
          (snd (fst (App.refresh_rates no_float_text format_numbers
                       format_numbers App.Window_init
                       (const_world (Returned (ok_response null_rates_body)))))))
     = false.
Proof.
  destruct (unshowable_rates_leave_the_refresh_button_disabled
              no_float_text format_numbers format_numbers App.Window_init
              (const_world (Returned (ok_response null_rates_body)))
              null_rates_snapshot PyNone not_iterable eq_refl eq_refl eq_refl)
    as (Hraise & _ & _ & _ & _ & Hbtn).
  split; [exact Hraise | exact Hbtn].
Defined.

Lemma auto_refresh_goes_on_after_a_failed_fetch_witness :
  App.after_queue
    (snd (fst (App.schedule_refresh no_float_text format_numbers format_numbers
                 auto_window (const_world (Raised unreachable)))))
  = [App.mkTimer 0 60000 App.CallScheduleRefresh].
Proof.
  destruct (auto_refresh_goes_on_after_a_failed_fetch
              no_float_text format_numbers format_numbers auto_window
              (const_world (Raised unreachable)) unreachable eq_refl eq_refl)
    as (_ & Hqueue & _).
  exact Hqueue.
Defined.

Lemma auto_refresh_ends_when_the_redraw_raises_witness :
  fst (fst (App.schedule_refresh no_float_text format_numbers format_numbers
              auto_window
              (const_world (Returned (ok_response text_rate_body)))))
  = Raised not_comparable
  /\ App.after_queue
       (snd (fst (App.schedule_refresh no_float_text format_numbers
                    format_numbers auto_window
                    (const_world (Returned (ok_response text_rate_body))))))
     = []
  /\ App.auto_refresh
       (snd (fst (App.schedule_refresh no_float_text format_numbers
                    format_numbers auto_window
                    (const_world (Returned (ok_response text_rate_body))))))
     = true.
Proof.
  destruct (auto_refresh_ends_when_the_redraw_raises
              no_float_text format_numbers format_numbers auto_window
              (const_world (Returned (ok_response text_rate_body)))
              not_comparable)
    as (Hraise & Hqueue & _ & Hflag & _).
  - reflexivity.
  - vm_compute. reflexivity.
  - repeat split; assumption.
Defined.

Lemma one_unreadable_record_fails_every_export_witness :
  App.infos
    (snd (fst (App.export_to_excel
                 (fun _ => Returned tt) (fun _ => Returned tt)
                 (fun _ _ _ => Returned tt) (fun _ _ => Returned tt)
                 (window_with null_rates_snapshot)
                 (const_world (Raised unreachable)))))
  = [].
Proof.
  destruct (one_unreadable_record_fails_every_export
              (fun _ => Returned tt) (fun _ => Returned tt)
              (fun _ _ _ => Returned tt) (fun _ _ => Returned tt)
              (window_with null_rates_snapshot)
              (const_world (Raised unreachable)) eq_refl)
    as [Hinfos _].
  - exists null_rates_snapshot. split; [now left|].
    intros d. discriminate.
  - exact Hinfos.
Defined.

Lemma export_rows_are_the_flattened_history_witness :
  App.history_rows [usd_snapshot; usd_snapshot] []
  = Returned (flat_map record_rows [usd_snapshot; usd_snapshot]).
Proof.
  destruct (export_rows_are_the_flattened_history
              [usd_snapshot; usd_snapshot] usd_snapshot) as [Hrows _].
  - repeat constructor.
  - reflexivity.
  - exact Hrows.
Defined.

Lemma export_writes_current_rates_then_history_witness :
  App.infos
    (snd (fst (App.export_to_excel
                 (fun _ => Returned tt) (fun _ => Returned tt)
                 (fun _ _ _ => Returned tt) (fun _ _ => Returned tt)
                 (window_with usd_snapshot)
                 (const_world (Raised unreachable)))))
  = [("Success",
      "Exported exchange rates to:" ++ newline
        ++ "exchange_rates_20240115_120000.xlsx")].
Proof.
  destruct (export_writes_current_rates_then_history
              (fun _ => Returned tt) (fun _ => Returned tt)
              (fun _ _ _ => Returned tt) (fun _ _ => Returned tt)
              (window_with usd_snapshot) (const_world (Raised unreachable)))
    as (_ & Hinfos & _).
  - reflexivity.
  - repeat constructor.
  - discriminate.
  - reflexivity.
  - reflexivity.
  - reflexivity.
  - reflexivity.
  - exact Hinfos.
Defined.
